(** * Energy audit dashboard (streamlit_app.py): loader and aggregator

    A shallow embedding of [streamlit_app.py].  The script reads one CSV file
    into a pandas frame, cleans it ([load_data]), filters it by the community
    picked in the sidebar and shows KPI sums, grouped counts and grouped sums.

    Modelling choices, all fixed here once:
    - a cell of a frame is a number, a text or the missing marker NaN;
      float64 numbers are idealised as exact rationals [Q], so rounding and
      the infinities are outside this model of the frame; the module
      [Float64] reads the conversion of a numeric column over the IEEE 754
      binary64 data, infinities included, and states how the two agree;
    - a frame is its list of column labels and its list of rows, each row the
      list of its cells in column order;
    - the script runs in a state-and-exception monad: the state holds the
      elements drawn on the page, the log of file reads and the cache of
      [st.cache_data];
    - pandas and Streamlit are libraries: their functions are modelled by what
      their documentation says of the calls the script makes (object-dtype
      frames, [skipna] sums, [dropna] group keys). *)

From Stdlib Require Import QArith List String Ascii Bool Arith Lia.
From Stdlib Require Import Permutation Sorted.
From Stdlib Require Import SpecFloat.
Import ListNotations.

Local Open Scope string_scope.
Local Open Scope Q_scope.
Local Open Scope list_scope.


(** ** Cells *)

Inductive value : Type :=
| VNum (q : Q)
| VStr (s : string)
| VNaN.

Definition isna (v : value) : bool :=
  match v with VNaN => true | _ => false end.

Definition notna (v : value) : bool := negb (isna v).

Definition is_num (v : value) : bool :=
  match v with VNum _ => true | _ => false end.

Definition is_str (v : value) : bool :=
  match v with VStr _ => true | _ => false end.

(** Python's [==] on two cells: numbers by value, texts by content, a number
    never equals a text, and NaN equals nothing (not even itself). *)
Definition value_eqb (a b : value) : bool :=
  match a, b with
  | VNum x, VNum y => Qeq_bool x y
  | VStr s, VStr t => String.eqb s t
  | _, _ => false
  end.

(** Equality of hash-table keys ([unique], [groupby]): as [==], but all NaN
    are one key. *)
Definition key_eqb (a b : value) : bool :=
  match a, b with
  | VNaN, VNaN => true
  | _, _ => value_eqb a b
  end.

(** Order used when pandas sorts group keys: numbers first, by value, then
    texts, by code points, then NaN. *)
Definition value_leb (a b : value) : bool :=
  match a, b with
  | VNum x, VNum y => Qle_bool x y
  | VNum _, _ => true
  | VStr _, VNum _ => false
  | VStr s, VStr t => String.leb s t
  | VStr _, VNaN => true
  | VNaN, VNaN => true
  | VNaN, _ => false
  end.

Definition Qlt_bool (x y : Q) : bool := negb (Qle_bool y x).

(** ** Exceptions and the script monad *)

Inductive exn : Type :=
| FileNotFoundError
| PermissionError
| KeyError (label : string)
| TypeError
| ZeroDivisionError
| ValueError
| OtherError.

Inductive result (A : Type) : Type :=
| Ok (a : A)
| Raise (e : exn).

Arguments Ok {A} a.
Arguments Raise {A} e.

Definition rbind {A B : Type} (r : result A) (k : A -> result B) : result B :=
  match r with
  | Ok a => k a
  | Raise e => Raise e
  end.

Declare Scope result_scope.
Delimit Scope result_scope with result.
Notation "x <- r ;; k" := (rbind r (fun x => k))
  (at level 61, r at next level, right associativity) : result_scope.

(** ** Frames *)

Definition row : Type := list value.

Record DataFrame : Type := mkDataFrame {
  columns : list string;
  rows : list row
}.

(** [pd.DataFrame()] *)
Definition empty_frame : DataFrame := mkDataFrame [] [].

(** [df.empty]: some axis has length 0. *)
Definition empty (df : DataFrame) : bool :=
  (List.length (columns df) =? 0)%nat || (List.length (rows df) =? 0)%nat.

Definition with_columns (cols : list string) (df : DataFrame) : DataFrame :=
  mkDataFrame cols (rows df).

Definition with_rows (rs : list row) (df : DataFrame) : DataFrame :=
  mkDataFrame (columns df) rs.

(** A frame is rectangular when every row has one cell per column. *)
Definition rectangular (df : DataFrame) : bool :=
  forallb (fun r => (List.length r =? List.length (columns df))%nat) (rows df).

(** The cell of a row at a column position; past the end of a ragged row
    there is nothing, which pandas shows as NaN. *)
Definition cell (r : row) (i : nat) : value := nth i r VNaN.

Fixpoint positions (label : string) (cols : list string) (i : nat) : list nat :=
  match cols with
  | [] => []
  | c :: cs =>
      if String.eqb c label then i :: positions label cs (S i)
      else positions label cs (S i)
  end.

(** The position of the column [df[label]].  A label that is absent raises
    [KeyError].  A label carried by several columns selects a sub-frame, on
    which every use this script makes of [df[label]] raises; the model
    raises [TypeError] for all of them. *)
Definition loc (df : DataFrame) (label : string) : result nat :=
  match positions label (columns df) 0 with
  | [] => Raise (KeyError label)
  | [i] => Ok i
  | _ => Raise TypeError
  end.

(** [df[label]] as a Series. *)
Definition getitem (df : DataFrame) (label : string) : result (list value) :=
  (i <- loc df label ;;
   Ok (map (fun r => cell r i) (rows df)))%result.

Fixpoint set_nth (i : nat) (x : value) (r : row) {struct r} : row :=
  match r with
  | [] => []
  | y :: t =>
      match i with
      | O => x :: t
      | S j => y :: set_nth j x t
      end
  end.

(** [df[col] = f(df[col])], cell by cell. *)
Definition map_column (f : value -> value) (i : nat) (df : DataFrame) : DataFrame :=
  with_rows (map (fun r => set_nth i (f (cell r i)) r) (rows df)) df.

(** ** [str.strip] on a column label *)

(** A label is the list of its UTF-8 bytes.  [str.strip] removes from both
    ends the characters for which [str.isspace] holds: U+0009 to U+000D,
    U+001C to U+0020, U+0085, U+00A0, U+1680, U+2000 to U+200A, U+2028,
    U+2029, U+202F, U+205F and U+3000.  They are encoded on one, two or
    three bytes. *)

(** The white space of one byte. *)
Definition is_space (c : ascii) : bool :=
  let n := nat_of_ascii c in
  ((9 <=? n) && (n <=? 13) || (28 <=? n) && (n <=? 32))%nat.

(** The white space of two bytes: U+0085 and U+00A0. *)
Definition is_space2 (a b : ascii) : bool :=
  let x := nat_of_ascii a in
  let y := nat_of_ascii b in
  ((x =? 194) && ((y =? 133) || (y =? 160)))%nat.

(** The white space of three bytes: U+1680, U+2000 to U+200A, U+2028, U+2029,
    U+202F, U+205F and U+3000. *)
Definition is_space3 (a b c : ascii) : bool :=
  let x := nat_of_ascii a in
  let y := nat_of_ascii b in
  let z := nat_of_ascii c in
  ((x =? 225) && (y =? 154) && (z =? 128)
   || (x =? 226) && (y =? 128) &&
      ((128 <=? z) && (z <=? 138) || (z =? 168) || (z =? 169) || (z =? 175))
   || (x =? 226) && (y =? 129) && (z =? 159)
   || (x =? 227) && (y =? 128) && (z =? 128))%nat.

Section StripBy.

(** What counts as a blank of one, two and three bytes. *)
Variable sp1 : ascii -> bool.
Variable sp2 : ascii -> ascii -> bool.
Variable sp3 : ascii -> ascii -> ascii -> bool.

(** The list begins with a blank. *)
Definition starts_blank_by (l : list ascii) : bool :=
  match l with
  | [] => false
  | a :: t =>
      sp1 a ||
      match t with
      | [] => false
      | b :: u =>
          sp2 a b ||
          match u with
          | [] => false
          | c :: _ => sp3 a b c
          end
      end
  end.

(** The list without the blanks it begins with. *)
Fixpoint lstrip_by (l : list ascii) : list ascii :=
  match l with
  | [] => []
  | a :: t =>
      if sp1 a then lstrip_by t
      else
        match t with
        | [] => l
        | b :: u =>
            if sp2 a b then lstrip_by u
            else
              match u with
              | [] => l
              | c :: v => if sp3 a b c then lstrip_by v else l
              end
        end
  end.

End StripBy.

Definition lstrip_bytes (l : list ascii) : list ascii :=
  lstrip_by is_space is_space2 is_space3 l.

(** Blanks at the end are the blanks at the start of the reversed list, with
    their bytes in reverse order. *)
Definition rstrip_bytes (l : list ascii) : list ascii :=
  rev (lstrip_by is_space (fun a b => is_space2 b a)
                 (fun a b c => is_space3 c b a) (rev l)).

Definition lstrip (s : string) : string :=
  string_of_list_ascii (lstrip_bytes (list_ascii_of_string s)).

Definition rstrip (s : string) : string :=
  string_of_list_ascii (rstrip_bytes (list_ascii_of_string s)).

Definition strip (s : string) : string := rstrip (lstrip s).

(** The label begins, or ends, with a white space character. *)
Definition starts_blank (s : string) : bool :=
  starts_blank_by is_space is_space2 is_space3 (list_ascii_of_string s).

Definition ends_blank (s : string) : bool :=
  starts_blank_by is_space (fun a b => is_space2 b a)
                  (fun a b c => is_space3 c b a)
                  (rev (list_ascii_of_string s)).

(** ** The page, the session and the script monad *)

(** Chart 4's table has one row of this shape per community. *)
Record summary_row : Type := mkSummaryRow {
  summary_community : value;
  Total_Investment : Q;
  Measure_Count : nat;
  Average_Investment_per_Measure : Q
}.

(** The figures of the script, each with the table it is drawn from. *)
Inductive figure : Type :=
| fig1 (bars : list (value * nat))
| fig5 (bars : list (value * Q))
| fig6_donut (slices : list (value * Q))
| fig7 (points : list (value * Q * Q))
| extra_fig1 (points : list (value * value * value * value)).

(** What the script draws.  Charts and tables carry the data they are given;
    titles, number formatting and layout are not modelled. *)
Inductive element : Type :=
| st_error (msg : string)
| st_warning (msg : string)
| st_selectbox (label : string) (options : list value)
| st_metric (label : string) (v : Q)
| st_plotly_chart (f : figure)
| st_dataframe (table : list summary_row).

(** One entry of the [st.cache_data] store: the value returned and the
    elements drawn while it was computed, replayed on a hit. *)
Definition cache_entry : Type := (DataFrame * list element)%type.

Record session : Type := mkSession {
  page : list element;
  reads : list string;
  cache : list (string * cache_entry)
}.

Definition new_session : session := mkSession [] [] [].

Definition App (A : Type) : Type := session -> result A * session.

Definition ret {A : Type} (a : A) : App A := fun s => (Ok a, s).

Definition bind {A B : Type} (m : App A) (k : A -> App B) : App B :=
  fun s =>
    match m s with
    | (Ok a, s') => k a s'
    | (Raise e, s') => (Raise e, s')
    end.

Definition lift {A : Type} (r : result A) : App A := fun s => (r, s).

Definition draw (e : element) : App unit :=
  fun s => (Ok tt, mkSession (page s ++ [e]) (reads s) (cache s)).

(** [try: body except FileNotFoundError: handler] *)
Definition try_except_FileNotFoundError {A : Type} (body handler : App A) : App A :=
  fun s =>
    match body s with
    | (Raise FileNotFoundError, s') => handler s'
    | other => other
    end.

Declare Scope app_scope.
Delimit Scope app_scope with app.
Notation "x <- m ;; k" := (bind m (fun x => k))
  (at level 61, m at next level, right associativity) : app_scope.
Notation "m ;; k" := (bind m (fun _ => k))
  (at level 61, right associativity) : app_scope.

(** ** The file system seen through [pd.read_csv] *)

(** What opening a path gives: no such file, a file that may not be read, or
    a file whose bytes pandas parses into a frame or rejects. *)
Inductive file : Type :=
| Missing
| Unreadable
| Readable (parsed : result DataFrame).

Definition filesystem : Type := string -> file.

(** [pd.read_csv(path)]: opening a missing path raises [FileNotFoundError],
    opening a path without read permission raises [PermissionError]. *)
Definition read_csv (fs : filesystem) (path : string) : App DataFrame :=
  fun s =>
    (match fs path with
     | Missing => Raise FileNotFoundError
     | Unreadable => Raise PermissionError
     | Readable parsed => parsed
     end,
     mkSession (page s) (reads s ++ [path]) (cache s)).

(** ** Load and process data *)

Definition NUMERIC_COLUMNS : list string :=
  ["Energy Saved"; "Money Saved"; "Investment"; "Pay back period"].

(** A missing cell is replaced, any other cell is kept. *)
Definition fill (x v : value) : value := if isna v then x else v.

(** [df.fillna(x)] over every column. *)
Definition fillna (x : value) (df : DataFrame) : DataFrame :=
  with_rows (map (map (fill x)) (rows df)) df.

(** No cell of the frame is missing. *)
Definition no_missing (df : DataFrame) : bool :=
  forallb (forallb notna) (rows df).

Definition not_found_message (file_path : string) : string :=
  ("Error: The file '" ++ file_path ++
   "' was not found. Please make sure the file is in the correct directory.")%string.

Definition lookup_cache (path : string) (c : list (string * cache_entry))
  : option cache_entry :=
  match find (fun kv => String.eqb (fst kv) path) c with
  | Some kv => Some (snd kv)
  | None => None
  end.

(** [@st.cache_data] on a function of one path.  A hit returns the stored
    value and replays the stored elements, without running the function.  A
    miss runs it; a normal return is stored under the path, an exception
    stores nothing. *)
Definition st_cache_data (f : string -> App DataFrame) (path : string) : App DataFrame :=
  fun s =>
    match lookup_cache path (cache s) with
    | Some (df, drawn) =>
        (Ok df, mkSession (page s ++ drawn) (reads s) (cache s))
    | None =>
        match f path (mkSession [] (reads s) (cache s)) with
        | (Ok df, s') =>
            (Ok df,
             mkSession (page s ++ page s') (reads s')
                       ((path, (df, page s')) :: cache s'))
        | (Raise e, s') =>
            (Raise e, mkSession (page s ++ page s') (reads s') (cache s'))
        end
    end.

Section Loader.

(** The parse of one text cell by [pd.to_numeric]: the number it denotes,
    or nothing when the text is not numeric. *)
Variable parse_float : string -> option Q.

Variable fs : filesystem.

(** [pd.to_numeric(..., errors='coerce')] on one cell. *)
Definition to_numeric (v : value) : value :=
  match v with
  | VNum q => VNum q
  | VStr s =>
      match parse_float s with
      | Some q => VNum q
      | None => VNaN
      end
  | VNaN => VNaN
  end.

(** [df[col] = pd.to_numeric(df[col], errors='coerce')] *)
Definition convert_column (df : DataFrame) (col : string) : result DataFrame :=
  (i <- loc df col ;;
   Ok (map_column to_numeric i df))%result.

(** The [for col in [...]] loop. *)
Fixpoint convert_columns (cols : list string) (df : DataFrame) : result DataFrame :=
  match cols with
  | [] => Ok df
  | col :: rest =>
      (df' <- convert_column df col ;;
       convert_columns rest df')%result
  end.

(** The body of [load_data], before the decorator. *)
Definition load_data (file_path : string) : App DataFrame :=
  try_except_FileNotFoundError
    (df <- read_csv fs file_path ;;
     let df := with_columns (map strip (columns df)) df in
     df <- lift (convert_columns NUMERIC_COLUMNS df) ;;
     ret (fillna (VNum 0) df))%app
    (draw (st_error (not_found_message file_path)) ;;
     ret empty_frame)%app.

(** [load_data] as the script calls it, under [@st.cache_data]. *)
Definition cached_load_data : string -> App DataFrame :=
  st_cache_data load_data.

End Loader.

(** What the conversion loop does to one row: the length is kept, every
    cell is either kept or converted, and the cells of the converted
    columns are converted. *)
Definition row_converted (parse_float : string -> option Q) (df : DataFrame)
           (cols : list string) (r r' : row) : Prop :=
  List.length r' = List.length r /\
  (forall j, cell r' j = cell r j \/
             cell r' j = to_numeric parse_float (cell r j)) /\
  (forall col j, In col cols -> loc df col = Ok j -> (j < List.length r)%nat ->
                 cell r' j = to_numeric parse_float (cell r j)).

(** How a loaded row stands to the parsed row it comes from. *)
Definition row_loaded (parse_float : string -> option Q) (df : DataFrame)
           (r r' : row) : Prop :=
  List.length r' = List.length r /\
  (forall j, (j < List.length r)%nat ->
             cell r' j = fill (VNum 0) (cell r j) \/
             cell r' j = fill (VNum 0) (to_numeric parse_float (cell r j))) /\
  (forall col j, In col NUMERIC_COLUMNS -> loc df col = Ok j ->
                 (j < List.length r)%nat ->
                 cell r' j = fill (VNum 0) (to_numeric parse_float (cell r j))).

(** ** Series operations *)

Fixpoint mapM {A B : Type} (f : A -> result B) (l : list A) : result (list B) :=
  match l with
  | [] => Ok []
  | x :: t =>
      (y <- f x ;;
       ys <- mapM f t ;;
       Ok (y :: ys))%result
  end.

(** [Series.sum()]: missing cells are skipped; a text cell has no numeric
    sum, which the model reports as [TypeError]. *)
Fixpoint series_sum (s : list value) : result Q :=
  match s with
  | [] => Ok 0
  | VNum q :: t => (rest <- series_sum t ;; Ok (q + rest))%result
  | VNaN :: t => series_sum t
  | VStr _ :: _ => Raise TypeError
  end.

(** [Series.count()]: the number of cells that are not missing. *)
Definition series_count (s : list value) : nat :=
  List.length (filter notna s).

(** [Series.unique()]: distinct cells in order of first appearance. *)
Fixpoint unique (s : list value) : list value :=
  match s with
  | [] => []
  | x :: t => x :: filter (fun y => negb (key_eqb x y)) (unique t)
  end.

(** [a / b] with the division by zero made visible as an exception. *)
Definition truediv (a b : Q) : result Q :=
  if Qeq_bool b 0 then Raise ZeroDivisionError else Ok (a / b).

(** [(s / total) * 100], cell by cell. *)
Definition percent_of (total : Q) (v : value) : result value :=
  match v with
  | VNum q => (d <- truediv q total ;; Ok (VNum (d * 100)))%result
  | VNaN => Ok VNaN
  | VStr _ => Raise TypeError
  end.

(** ** Sorting *)

Section Sort.

Variable A : Type.
Variable leb : A -> A -> bool.

Fixpoint insert_sorted (x : A) (l : list A) : list A :=
  match l with
  | [] => [x]
  | y :: t => if leb x y then x :: l else y :: insert_sorted x t
  end.

(** A stable sort: equal elements keep their order. *)
Fixpoint stable_sort (l : list A) : list A :=
  match l with
  | [] => []
  | x :: t => insert_sorted x (stable_sort t)
  end.

End Sort.

Arguments insert_sorted {A} leb x l.
Arguments stable_sort {A} leb l.

(** Python's [sorted] on a list of cells: comparing a text with a number
    raises [TypeError]. *)
Definition sorted (l : list value) : result (list value) :=
  if existsb is_str l && existsb (fun v => negb (is_str v)) l
  then Raise TypeError
  else Ok (stable_sort value_leb l).

(** [sort_values(col, ascending=False)] on a two-column table.  The order
    among rows with equal sort value depends on the sort kind of the
    library; the model keeps their order. *)
Definition sort_by_count_desc (t : list (value * nat)) : list (value * nat) :=
  stable_sort (fun a b => (snd b <=? snd a)%nat) t.

Definition sort_by_amount_desc (t : list (value * Q)) : list (value * Q) :=
  stable_sort (fun a b => Qle_bool (snd b) (snd a)) t.

(** ** Group-by *)

Definition group : Type := (value * list row)%type.

(** The keys of [groupby]: distinct, missing keys dropped, sorted. *)
Definition group_keys (s : list value) : list value :=
  stable_sort value_leb (unique (filter notna s)).

(** How many keys of a list stand for the key [x]. *)
Definition key_matches (x : value) (keys : list value) : nat :=
  List.length (filter (key_eqb x) keys).

(** The rows that belong to a key, for any notion of belonging. *)
Definition bucket {K R : Type} (belongs : R -> K -> bool) (k : K) (rs : list R)
  : list R :=
  filter (fun r => belongs r k) rs.

Definition rows_of_key (i : nat) (k : value) (rs : list row) : list row :=
  filter (fun r => key_eqb (cell r i) k) rs.

(** [df.groupby(by)] *)
Definition groupby (df : DataFrame) (by_label : string) : result (list group) :=
  (i <- loc df by_label ;;
   Ok (map (fun k => (k, rows_of_key i k (rows df)))
           (group_keys (map (fun r => cell r i) (rows df)))))%result.

(** [df.groupby(by)[col].count().reset_index()] *)
Definition groupby_count (df : DataFrame) (by_label col : string)
  : result (list (value * nat)) :=
  (gs <- groupby df by_label ;;
   j <- loc df col ;;
   Ok (map (fun g : group =>
              (fst g, series_count (map (fun r => cell r j) (snd g)))) gs))%result.

(** [df.groupby(by)[col].sum().reset_index()] *)
Definition groupby_sum (df : DataFrame) (by_label col : string)
  : result (list (value * Q)) :=
  (gs <- groupby df by_label ;;
   j <- loc df col ;;
   mapM (fun g : group =>
           total <- series_sum (map (fun r => cell r j) (snd g)) ;;
           Ok (fst g, total)) gs)%result.

(** The size of each group: for every group key, the number of rows under
    it.  This is the count of records the grouped tables are compared with. *)
Definition group_sizes (i : nat) (rs : list row) : list (value * nat) :=
  map (fun k => (k, List.length (rows_of_key i k rs)))
      (group_keys (map (fun r => cell r i) rs)).

(** ** The main panel *)

Definition COMMUNITY : string := "Comunidad Autónoma".

Definition DATA_PATH : string :=
  "data/2025 Energy Audit summary - Sheet1 (1).csv".

Definition ALL : value := VStr "All".

Definition MADRID : value := VStr "Madrid".

(** [['All'] + sorted(df['Comunidad Autónoma'].unique().tolist())] *)
Definition community_list (df : DataFrame) : result (list value) :=
  (s <- getitem df COMMUNITY ;;
   names <- sorted (unique s) ;;
   Ok (ALL :: names))%result.

(** Filter data based on selection. *)
Definition df_filtered (df : DataFrame) (selected_community : value)
  : result DataFrame :=
  if value_eqb selected_community ALL then Ok df
  else
    (i <- loc df COMMUNITY ;;
     Ok (with_rows
           (filter (fun r => value_eqb (cell r i) selected_community) (rows df))
           df))%result.

(** [df_filtered[col].sum()] *)
Definition column_total (df : DataFrame) (col : string) : result Q :=
  (s <- getitem df col ;; series_sum s)%result.

Definition total_investment (dff : DataFrame) : result Q :=
  column_total dff "Investment".

Definition total_money_saved (dff : DataFrame) : result Q :=
  column_total dff "Money Saved".

Definition total_energy_saved (dff : DataFrame) : result Q :=
  column_total dff "Energy Saved".

(** Avoid division by zero. *)
Definition roi (total_investment total_money_saved : Q) : result Q :=
  if Qlt_bool 0 total_investment
  then (r <- truediv total_money_saved total_investment ;; Ok (r * 100))%result
  else Ok 0.

(** Chart 1: measures per community over the whole frame. *)
Definition measures_per_community (df : DataFrame) : result (list (value * nat)) :=
  groupby_count df COMMUNITY "Measure".

(** Chart 3 (adapted): measures per center in the selected community. *)
Definition measures_per_center (dff : DataFrame) : result (list (value * nat)) :=
  groupby_count dff "Center" "Measure".

(** The table behind [fig1]. *)
Definition fig1_data (df dff : DataFrame) (selected_community : value)
  : result (list (value * nat)) :=
  if value_eqb selected_community ALL
  then (t <- measures_per_community df ;; Ok (sort_by_count_desc t))%result
  else (t <- measures_per_center dff ;; Ok (sort_by_count_desc t))%result.

(** Chart 5: energy savings per community. *)
Definition energy_savings_community (dff : DataFrame) : result (list (value * Q)) :=
  groupby_sum dff COMMUNITY "Energy Saved".

(** The [lambda row: ...] of the summary table. *)
Definition average_investment (total : Q) (count : nat) : result Q :=
  if (0 <? count)%nat then truediv total (inject_Z (Z.of_nat count)) else Ok 0.

Definition regional_investment_summary (dff : DataFrame) : result (list summary_row) :=
  (gs <- groupby dff COMMUNITY ;;
   inv <- loc dff "Investment" ;;
   mea <- loc dff "Measure" ;;
   mapM (fun g : group =>
           total <- series_sum (map (fun r => cell r inv) (snd g)) ;;
           let count := series_count (map (fun r => cell r mea) (snd g)) in
           avg <- average_investment total count ;;
           Ok (mkSummaryRow (fst g) total count avg)) gs)%result.

(** Chart 6: economic savings. *)
Definition economic_savings_community (dff : DataFrame) : result (list (value * Q)) :=
  groupby_sum dff COMMUNITY "Money Saved".

(** Chart 7: investment against savings, one point per community. *)
Definition financial_summary (dff : DataFrame) : result (list (value * Q * Q)) :=
  (gs <- groupby dff COMMUNITY ;;
   inv <- loc dff "Investment" ;;
   mon <- loc dff "Money Saved" ;;
   mapM (fun g : group =>
           ti <- series_sum (map (fun r => cell r inv) (snd g)) ;;
           tm <- series_sum (map (fun r => cell r mon) (snd g)) ;;
           Ok (fst g, ti, tm)) gs)%result.

(** The [Energy_Saving_Percent] column of [df_madrid]. *)
Definition Energy_Saving_Percent (dff : DataFrame) : result (list value) :=
  (s <- getitem dff "Energy Saved" ;;
   total_energy_saved_madrid <- series_sum s ;;
   if Qlt_bool 0 total_energy_saved_madrid
   then mapM (percent_of total_energy_saved_madrid) s
   else Ok (map (fun _ => VNum 0) s))%result.

(** Extra chart, for Madrid only.  [df_madrid] is the filtered view with the
    [Energy_Saving_Percent] column added; the chart plots that column
    against the investment, with the measure and the center shown on hover.
    The result lists, per record, measure, center, investment and share. *)
Definition extra_fig1_data (dff : DataFrame) (selected_community : value)
  : result (option (list (value * value * value * value))) :=
  if value_eqb selected_community MADRID
  then
    (pct <- Energy_Saving_Percent dff ;;
     inv <- getitem dff "Investment" ;;
     mea <- getitem dff "Measure" ;;
     cen <- getitem dff "Center" ;;
     Ok (Some (combine (combine (combine mea cen) inv) pct)))%result
  else Ok None.

Definition LOAD_WARNING : string :=
  "Data could not be loaded. Please check the file path and try again.".

Section Script.

Variable parse_float : string -> option Q.

Variable fs : filesystem.

(** The choice the user makes in the sidebar, among the options shown. *)
Variable selectbox : list value -> value.

(** The key performance indicators. *)
Definition kpis (dff : DataFrame) : App unit :=
  (ti <- lift (total_investment dff) ;;
   tm <- lift (total_money_saved dff) ;;
   te <- lift (total_energy_saved dff) ;;
   r <- lift (roi ti tm) ;;
   draw (st_metric "Total Investment" ti) ;;
   draw (st_metric "Total Money Saved" tm) ;;
   draw (st_metric "Total Energy Saved" te) ;;
   draw (st_metric "Return on Investment (ROI)" r))%app.

(** [px.scatter] with [size='Total_Investment']: a marker size may not be
    negative, and the figure is refused with a [ValueError] when the total
    investment of some community is. *)
Definition px_scatter_sized (points : list (value * Q * Q)) : result figure :=
  if existsb (fun p : value * Q * Q => Qlt_bool (snd (fst p)) 0) points
  then Raise ValueError
  else Ok (fig7 points).

(** The two columns of charts and the Madrid detail. *)
Definition charts (df dff : DataFrame) (selected_community : value) : App unit :=
  (f1 <- lift (fig1_data df dff selected_community) ;;
   draw (st_plotly_chart (fig1 f1)) ;;
   f5 <- lift (energy_savings_community dff) ;;
   draw (st_plotly_chart (fig5 (sort_by_amount_desc f5))) ;;
   tab <- lift (regional_investment_summary dff) ;;
   draw (st_dataframe tab) ;;
   f6 <- lift (economic_savings_community dff) ;;
   draw (st_plotly_chart (fig6_donut f6)) ;;
   f7 <- lift (financial_summary dff) ;;
   scatter <- lift (px_scatter_sized f7) ;;
   draw (st_plotly_chart scatter) ;;
   extra <- lift (extra_fig1_data dff selected_community) ;;
   match extra with
   | Some pts => draw (st_plotly_chart (extra_fig1 pts))
   | None => ret tt
   end)%app.

(** The script, top to bottom. *)
Definition script : App unit :=
  (df <- cached_load_data parse_float fs DATA_PATH ;;
   if negb (empty df) then
     options <- lift (community_list df) ;;
     draw (st_selectbox "Select a Community" options) ;;
     let selected_community := selectbox options in
     dff <- lift (df_filtered df selected_community) ;;
     kpis dff ;;
     charts df dff selected_community
   else
     draw (st_warning LOAD_WARNING))%app.

End Script.

(** The part of the script below the load: the body of [if not df.empty]
    and its [else]. *)
Definition panel (selectbox : list value -> value) (df : DataFrame) : App unit :=
  (if negb (empty df) then
     options <- lift (community_list df) ;;
     draw (st_selectbox "Select a Community" options) ;;
     let selected_community := selectbox options in
     dff <- lift (df_filtered df selected_community) ;;
     kpis dff ;;
     charts df dff selected_community
   else
     draw (st_warning LOAD_WARNING))%app.

(** ** A concrete parser and the example of the specification *)

Definition digit_of (c : ascii) : option Z :=
  let n := nat_of_ascii c in
  if ((48 <=? n) && (n <=? 57))%nat then Some (Z.of_nat (n - 48)) else None.

Fixpoint parse_digits (s : string) (acc : Z) : option Z :=
  match s with
  | EmptyString => Some acc
  | String c t =>
      match digit_of c with
      | Some d => parse_digits t (10 * acc + d)%Z
      | None => None
      end
  end.

(** A parser of unsigned decimal integers, enough to run the examples:
    ["1000"] is a number, [""] and ["N/A"] are not. *)
Definition parse_decimal (s : string) : option Q :=
  match s with
  | EmptyString => None
  | _ =>
      match parse_digits s 0 with
      | Some z => Some (inject_Z z)
      | None => None
      end
  end.

Definition HEADER : list string :=
  [COMMUNITY; "Center"; "Measure"; "Energy Saved"; "Money Saved";
   "Investment"; "Pay back period"].

(** Three records: two in Madrid, one in Cataluña; the raw frame has padded
    labels, one investment given as the text "N/A"-like ["n.d."] and one
    missing center. *)
Definition example_raw : DataFrame :=
  mkDataFrame
    [(" " ++ COMMUNITY)%string; "Center"; "Measure "; "Energy Saved"; "Money Saved";
     "Investment"; "Pay back period "]
    [[VStr "Madrid"; VStr "Centro A"; VStr "LED"; VNum 500; VNum 200;
      VStr "1000"; VNum 5];
     [VStr "Madrid"; VNaN; VStr "HVAC"; VNum 250; VNum 100;
      VStr "500"; VNum 5];
     [VStr "Cataluña"; VStr "Centro C"; VStr "Solar"; VNum 0; VNum 0;
      VStr "2000"; VStr "n.d."]].

Definition example_fs : filesystem :=
  fun path =>
    if String.eqb path DATA_PATH then Readable (Ok example_raw)
    else if String.eqb path "secret.csv" then Unreadable
    else Missing.

Definition example_df : DataFrame :=
  mkDataFrame HEADER
    [[VStr "Madrid"; VStr "Centro A"; VStr "LED"; VNum 500; VNum 200;
      VNum 1000; VNum 5];
     [VStr "Madrid"; VNum 0; VStr "HVAC"; VNum 250; VNum 100;
      VNum 500; VNum 5];
     [VStr "Cataluña"; VStr "Centro C"; VStr "Solar"; VNum 0; VNum 0;
      VNum 2000; VNum 0]].

(** The Madrid view of the loaded example. *)
Definition example_madrid : DataFrame :=
  mkDataFrame HEADER
    [[VStr "Madrid"; VStr "Centro A"; VStr "LED"; VNum 500; VNum 200;
      VNum 1000; VNum 5];
     [VStr "Madrid"; VNum 0; VStr "HVAC"; VNum 250; VNum 100;
      VNum 500; VNum 5]].

(** The session after the example file has been read once. *)
Definition example_session : session := mkSession [] [DATA_PATH] [].

(** A file system without any file, and one where no file may be read. *)
Definition empty_fs : filesystem := fun _ => Missing.

Definition locked_fs : filesystem := fun _ => Unreadable.

(** ** The numeric columns over IEEE 754 binary64 *)

(** [pd.to_numeric(df[col], errors='coerce')] and [fillna(0)] on one
    column, with the cells of a float64 column as they are: zeros, finite
    numbers, the two infinities and NaN, which is also the missing cell. *)
Module Float64.

Definition float64 : Set := spec_float.

Definition NaN : float64 := S754_nan.

(** [0.0] *)
Definition zero : float64 := S754_zero false.

Definition inf : float64 := S754_infinity false.

(** A cell as [pd.read_csv] leaves it: a float, or a text in a column of
    dtype object. *)
Inductive cell : Type :=
| Num (x : float64)
| Text (s : string).

Definition isnan (x : float64) : bool :=
  match x with
  | S754_nan => true
  | _ => false
  end.

(** A float that is a real number: neither NaN nor infinite. *)
Definition isfinite (x : float64) : bool :=
  match x with
  | S754_zero _ | S754_finite _ _ _ => true
  | S754_infinity _ | S754_nan => false
  end.

(** [x + y] on float64, rounded to nearest even. *)
Definition add (x y : float64) : float64 := SFadd 53 1024 x y.

Section Column.

(** The parse of one text cell: the float it denotes, or nothing when the
    text is not numeric. *)
Variable parse_float : string -> option float64.

(** [pd.to_numeric(..., errors='coerce')] on one cell. *)
Definition to_numeric (c : cell) : float64 :=
  match c with
  | Num x => x
  | Text s =>
      match parse_float s with
      | Some x => x
      | None => NaN
      end
  end.

(** [fillna(x)] on one cell. *)
Definition fill (x v : float64) : float64 := if isnan v then x else v.

(** A numeric column of the file after [load_data]. *)
Definition load_column (s : list cell) : list float64 :=
  map (fun c => fill zero (to_numeric c)) s.

End Column.

(** The float of a whole number, rounded to nearest even. *)
Definition of_Z (z : Z) : float64 := binary_normalize 53 1024 z 0 false.

(** A parser of unsigned decimal integers and of the spellings of the
    infinities, enough to run the examples. *)
Definition parse_number (s : string) : option float64 :=
  if String.eqb s "inf" then Some inf
  else if String.eqb s "-inf" then Some (S754_infinity true)
  else match s with
       | EmptyString => None
       | _ =>
           match parse_digits s 0 with
           | Some z => Some (of_Z z)
           | None => None
           end
       end.

(** The cell of the exact model that stands for a float; an infinity has
    none. *)
Definition exact (x : float64) : option value :=
  match x with
  | S754_zero _ => Some (VNum 0)
  | S754_finite s m e => Some (VNum (inject_Z (cond_Zopp s (Zpos m)) * 2 ^ e))
  | S754_nan => Some VNaN
  | S754_infinity _ => None
  end.

Definition exact_cell (c : cell) : option value :=
  match c with
  | Num x => exact x
  | Text s => Some (VStr s)
  end.

(** The parser of the exact model that a parser of floats stands for. *)
Definition exact_parse (parse_float : string -> option float64) (s : string)
  : option Q :=
  match parse_float s with
  | Some x =>
      match exact x with
      | Some (VNum q) => Some q
      | _ => None
      end
  | None => None
  end.

(** A column with a text that is no number, a missing cell and the text
    ["inf"]. *)
Definition example_column : list cell :=
  [Num (of_Z 500); Text "n.d."; Num NaN; Text "250"; Text "inf"].

End Float64.

(** ** Totals used to compare tables with each other *)

(** The sum of a list of amounts. *)
Definition sum_Q (l : list Q) : Q := fold_right Qplus 0 l.

(** The sum of a list of counts. *)
Definition sum_nat (l : list nat) : nat := fold_right Nat.add 0%nat l.

(** The numbers of a series of cells that holds numbers only. *)
Fixpoint numbers_of (l : list value) : list Q :=
  match l with
  | [] => []
  | VNum q :: t => q :: numbers_of t
  | _ :: t => numbers_of t
  end.

(** The file system whose one file, at the path of the script, parses into
    the given frame. *)
Definition fs_of (raw : DataFrame) : filesystem :=
  fun path => if String.eqb path DATA_PATH then Readable (Ok raw) else Missing.

(** A file with the header and no record. *)
Definition header_only : DataFrame := mkDataFrame HEADER [].

(** A file without the four numeric columns. *)
Definition no_numeric : DataFrame :=
  mkDataFrame [COMMUNITY; "Center"; "Measure"]
    [[VStr "Madrid"; VStr "Centro A"; VStr "LED"]].

(** A file whose second record has no community, and the frame loaded from
    it. *)
Definition gap_raw : DataFrame :=
  mkDataFrame HEADER
    [[VStr "Madrid"; VStr "Centro A"; VStr "LED"; VNum 500; VNum 200;
      VNum 1000; VNum 5];
     [VNaN; VStr "Centro B"; VStr "HVAC"; VNum 250; VNum 100;
      VNum 500; VNum 5]].

Definition gap_df : DataFrame :=
  mkDataFrame HEADER
    [[VStr "Madrid"; VStr "Centro A"; VStr "LED"; VNum 500; VNum 200;
      VNum 1000; VNum 5];
     [VNum 0; VStr "Centro B"; VStr "HVAC"; VNum 250; VNum 100;
      VNum 500; VNum 5]].

(** A file without the center column; the load leaves it as it is. *)
Definition no_center : DataFrame :=
  mkDataFrame
    [COMMUNITY; "Measure"; "Energy Saved"; "Money Saved"; "Investment";
     "Pay back period"]
    [[VStr "Madrid"; VStr "LED"; VNum 500; VNum 200; VNum 1000; VNum 5];
     [VStr "Cataluña"; VStr "Solar"; VNum 0; VNum 0; VNum 2000; VNum 0]].

(** One record in Madrid whose investment is a refund. *)
Definition refund_df : DataFrame :=
  mkDataFrame HEADER
    [[VStr "Madrid"; VStr "Centro A"; VStr "LED"; VNum 500; VNum 200;
      VNum (-1000); VNum 5]].

(** One record in Madrid whose measure costs energy instead of saving it. *)
Definition loss_df : DataFrame :=
  mkDataFrame HEADER
    [[VStr "Madrid"; VStr "Centro A"; VStr "Heating"; VNum (-100); VNum 0;
      VNum 1000; VNum 0]].

(** The no-break space U+00A0 in UTF-8, and a file whose labels are padded
    with it, with tabs and with plain spaces. *)
Definition NBSP : string :=
  String (ascii_of_nat 194) (String (ascii_of_nat 160) EmptyString).

Definition TAB : string := String (ascii_of_nat 9) EmptyString.

Definition padded_raw : DataFrame :=
  mkDataFrame
    [(NBSP ++ COMMUNITY ++ " ")%string; "Center"; (TAB ++ "Measure")%string;
     "Energy Saved"; "Money Saved"; ("Investment" ++ NBSP)%string;
     (" " ++ NBSP ++ "Pay back period" ++ NBSP ++ TAB)%string]
    [[VStr "Madrid"; VStr "Centro A"; VStr "LED"; VNum 500; VNum 200;
      VNum 1000; VNum 5]].

Definition padded_df : DataFrame :=
  mkDataFrame HEADER
    [[VStr "Madrid"; VStr "Centro A"; VStr "LED"; VNum 500; VNum 200;
      VNum 1000; VNum 5]].

(** * Properties *)

(** ** The result monad *)

Lemma rbind_Ok {A B : Type} (r : result A) (k : A -> result B) (b : B) :
  rbind r k = Ok b -> exists a, r = Ok a /\ k a = Ok b.
Proof.
  destruct r as [a|e]; simpl; intros H; [eauto | discriminate].
Qed.

Lemma mapM_Ok {A B : Type} (f : A -> result B) (l : list A) :
  Forall (fun x => exists y, f x = Ok y) l ->
  exists ys, mapM f l = Ok ys /\ Forall2 (fun x y => f x = Ok y) l ys.
Proof.
  induction 1 as [|x l [y Hy] _ [ys [Hys HF]]]; simpl.
  - exists []. split; [reflexivity | constructor].
  - exists (y :: ys). rewrite Hy, Hys. simpl. split; [reflexivity|].
    constructor; assumption.
Qed.

(** ** Sorting *)

Section SortFacts.

Context {A : Type}.
Variable leb : A -> A -> bool.

Lemma insert_sorted_perm (x : A) (l : list A) :
  Permutation (insert_sorted leb x l) (x :: l).
Proof.
  induction l as [|y t IH]; simpl.
  - apply Permutation_refl.
  - destruct (leb x y).
    + apply Permutation_refl.
    + apply perm_trans with (y :: x :: t).
      * apply perm_skip, IH.
      * apply perm_swap.
Qed.

Lemma stable_sort_perm (l : list A) : Permutation (stable_sort leb l) l.
Proof.
  induction l as [|x t IH]; simpl.
  - apply perm_nil.
  - apply perm_trans with (x :: stable_sort leb t).
    + apply insert_sorted_perm.
    + apply perm_skip, IH.
Qed.

Hypothesis leb_total : forall x y, leb x y = true \/ leb y x = true.

Lemma insert_sorted_Sorted (x : A) (l : list A) :
  Sorted (fun a b => leb a b = true) l ->
  Sorted (fun a b => leb a b = true) (insert_sorted leb x l).
Proof.
  induction l as [|y t IH]; simpl; intros Hs.
  - repeat constructor.
  - destruct (leb x y) eqn:Hxy.
    + constructor; [assumption | constructor; exact Hxy].
    + inversion Hs as [|? ? Ht Hhd]; subst.
      constructor; [apply IH, Ht|].
      destruct t as [|z t']; simpl.
      * constructor.
        destruct (leb_total x y) as [H|H]; [congruence | exact H].
      * destruct (leb x z).
        -- constructor.
           destruct (leb_total x y) as [H|H]; [congruence | exact H].
        -- inversion Hhd; subst. constructor. assumption.
Qed.

Lemma stable_sort_Sorted (l : list A) :
  Sorted (fun a b => leb a b = true) (stable_sort leb l).
Proof.
  induction l as [|x t IH]; simpl.
  - constructor.
  - apply insert_sorted_Sorted, IH.
Qed.

End SortFacts.

Lemma filter_length_perm {A : Type} (f : A -> bool) (l l' : list A) :
  Permutation l l' -> List.length (filter f l) = List.length (filter f l').
Proof.
  induction 1 as [| x l l' _ IH | x y l | l l' l'' _ IH1 _ IH2]; simpl.
  - reflexivity.
  - destruct (f x); simpl; congruence.
  - destruct (f x), (f y); reflexivity.
  - congruence.
Qed.

(** ** Equality of keys *)

Lemma key_eqb_refl (a : value) : key_eqb a a = true.
Proof.
  destruct a; simpl.
  - apply Qeq_bool_refl.
  - apply String.eqb_refl.
  - reflexivity.
Qed.

Lemma key_eqb_sym (a b : value) : key_eqb a b = key_eqb b a.
Proof.
  destruct a, b; simpl; try reflexivity.
  - apply Qeq_bool_comm.
  - apply String.eqb_sym.
Qed.

Lemma key_eqb_trans (a b c : value) :
  key_eqb a b = true -> key_eqb b c = true -> key_eqb a c = true.
Proof.
  destruct a, b, c; simpl; try congruence.
  - apply Qeq_bool_trans.
  - intros H1 H2. apply String.eqb_eq in H1, H2. subst. apply String.eqb_refl.
Qed.

Lemma value_eqb_ALL (v : value) : value_eqb v ALL = true <-> v = ALL.
Proof.
  unfold ALL. destruct v; simpl; split; try congruence.
  - intros H. apply String.eqb_eq in H. congruence.
  - intros H. injection H as ->. reflexivity.
Qed.

(** ** Distinct keys *)

Lemma key_matches_none (x : value) (keys : list value) :
  Forall (fun k => key_eqb x k = false) keys -> key_matches x keys = 0%nat.
Proof.
  unfold key_matches. induction 1 as [|k t Hk _ IH]; simpl.
  - reflexivity.
  - rewrite Hk. exact IH.
Qed.

Lemma key_matches_filter_other (x a : value) (keys : list value) :
  key_eqb x a = false ->
  key_matches x (filter (fun y => negb (key_eqb a y)) keys) = key_matches x keys.
Proof.
  intros Hxa. unfold key_matches. induction keys as [|k t IH]; simpl.
  - reflexivity.
  - destruct (key_eqb a k) eqn:Hak; simpl.
    + destruct (key_eqb x k) eqn:Hxk; simpl; [|exact IH].
      rewrite key_eqb_sym in Hak.
      rewrite (key_eqb_trans _ _ _ Hxk Hak) in Hxa. discriminate.
    + destruct (key_eqb x k); simpl; congruence.
Qed.

Lemma key_matches_filter_same (x a : value) (keys : list value) :
  key_eqb x a = true ->
  key_matches x (filter (fun y => negb (key_eqb a y)) keys) = 0%nat.
Proof.
  intros Hxa. apply key_matches_none.
  apply Forall_forall. intros k Hk. apply filter_In in Hk as [_ Hk].
  destruct (key_eqb x k) eqn:Hxk; [|reflexivity].
  rewrite key_eqb_sym in Hxa.
  rewrite (key_eqb_trans _ _ _ Hxa Hxk) in Hk. discriminate.
Qed.

(** Every cell of a series is stood for by exactly one of its distinct
    keys. *)
Lemma unique_key_matches (x : value) (s : list value) :
  In x s -> key_matches x (unique s) = 1%nat.
Proof.
  induction s as [|a t IH]; simpl; [contradiction|].
  intros Hin. unfold key_matches. simpl.
  destruct (key_eqb x a) eqn:Hxa; simpl.
  - f_equal. apply key_matches_filter_same, Hxa.
  - fold (key_matches x (filter (fun y => negb (key_eqb a y)) (unique t))).
    rewrite key_matches_filter_other by exact Hxa.
    apply IH. destruct Hin as [->|Hin]; [|exact Hin].
    rewrite key_eqb_refl in Hxa. discriminate.
Qed.

Lemma unique_incl (s : list value) : incl (unique s) s.
Proof.
  induction s as [|a t IH]; simpl; intros x Hx; [exact Hx|].
  destruct Hx as [->|Hx]; [left; reflexivity|].
  right. apply IH. apply filter_In in Hx. tauto.
Qed.

Lemma group_keys_matches (x : value) (s : list value) :
  In x s -> isna x = false -> key_matches x (group_keys s) = 1%nat.
Proof.
  intros Hin Hna. unfold group_keys, key_matches.
  rewrite (filter_length_perm (key_eqb x) _ _ (stable_sort_perm value_leb _)).
  apply unique_key_matches. apply filter_In. split; [exact Hin|].
  unfold notna. rewrite Hna. reflexivity.
Qed.

Lemma group_keys_incl (k : value) (s : list value) :
  In k (group_keys s) -> In k s /\ isna k = false.
Proof.
  unfold group_keys. intros Hk.
  apply (Permutation_in _ (stable_sort_perm value_leb _)) in Hk.
  apply unique_incl in Hk. apply filter_In in Hk as [Hin Hn].
  split; [exact Hin|]. unfold notna in Hn. destruct (isna k); simpl in *; congruence.
Qed.

(** ** Buckets: rows distributed over keys *)

Section Buckets.

Context {K R : Type}.
Variable belongs : R -> K -> bool.

Lemma bucket_cons (k : K) (r : R) (rs : list R) :
  bucket belongs k (r :: rs) = if belongs r k then r :: bucket belongs k rs else bucket belongs k rs.
Proof. reflexivity. Qed.

Lemma buckets_cons_none (r : R) (rs : list R) (keys : list K) :
  List.length (filter (belongs r) keys) = 0%nat ->
  map (fun k => bucket belongs k (r :: rs)) keys = map (fun k => bucket belongs k rs) keys.
Proof.
  induction keys as [|k t IH]; cbn [map filter]; [reflexivity|].
  rewrite bucket_cons.
  destruct (belongs r k) eqn:Hk; cbn [List.length]; [discriminate|].
  intros H. f_equal. apply IH, H.
Qed.

Lemma buckets_cons_one (r : R) (rs : list R) (keys : list K) :
  List.length (filter (belongs r) keys) = 1%nat ->
  Permutation (List.concat (map (fun k => bucket belongs k (r :: rs)) keys))
              (r :: List.concat (map (fun k => bucket belongs k rs) keys)).
Proof.
  induction keys as [|k t IH]; cbn [map filter List.concat];
    [discriminate|].
  rewrite bucket_cons.
  destruct (belongs r k) eqn:Hk; cbn [List.length]; intros H.
  - rewrite buckets_cons_none by congruence.
    apply Permutation_refl.
  - apply perm_trans
      with (bucket belongs k rs ++ r :: List.concat (map (fun k0 => bucket belongs k0 rs) t)).
    + apply Permutation_app_head, IH, H.
    + apply Permutation_sym, Permutation_middle.
Qed.

(** When every row belongs to exactly one key, the buckets together are the
    rows: none lost, none repeated. *)
Lemma buckets_perm (rs : list R) (keys : list K) :
  (forall r, In r rs -> List.length (filter (belongs r) keys) = 1%nat) ->
  Permutation (List.concat (map (fun k => bucket belongs k rs) keys)) rs.
Proof.
  induction rs as [|r t IH]; intros H.
  - clear H. induction keys as [|k t IHk]; cbn [map List.concat];
      [constructor | exact IHk].
  - apply perm_trans with (r :: List.concat (map (fun k => bucket belongs k t) keys)).
    + apply buckets_cons_one, H. left; reflexivity.
    + apply perm_skip, IH. intros r' Hr'. apply H. right; exact Hr'.
Qed.

End Buckets.

(** ** Column positions and cells *)

Lemma positions_bounds (label : string) (cols : list string) (i j : nat) :
  In j (positions label cols i) -> (i <= j < i + List.length cols)%nat.
Proof.
  revert i. induction cols as [|c cs IH]; simpl; intros i H; [contradiction|].
  destruct (String.eqb c label).
  - destruct H as [<-|H]; [lia|]. apply IH in H. lia.
  - apply IH in H. lia.
Qed.

Lemma loc_lt (df : DataFrame) (label : string) (i : nat) :
  loc df label = Ok i -> (i < List.length (columns df))%nat.
Proof.
  unfold loc. intros H.
  destruct (positions label (columns df) 0) as [|j [|k l]] eqn:Hp;
    try discriminate.
  injection H as <-.
  assert (Hin : In j (positions label (columns df) 0)) by (rewrite Hp; left; reflexivity).
  apply positions_bounds in Hin. lia.
Qed.

Lemma loc_columns (df df' : DataFrame) (label : string) :
  columns df' = columns df -> loc df' label = loc df label.
Proof. unfold loc. intros ->. reflexivity. Qed.

Lemma cell_set_nth_same (i : nat) (x : value) (r : row) :
  (i < List.length r)%nat -> cell (set_nth i x r) i = x.
Proof.
  unfold cell. revert i. induction r as [|y t IH]; simpl; intros i Hi; [lia|].
  destruct i; simpl; [reflexivity|]. apply IH. lia.
Qed.

Lemma cell_set_nth_other (i j : nat) (x : value) (r : row) :
  i <> j -> cell (set_nth i x r) j = cell r j.
Proof.
  unfold cell. revert i j. induction r as [|y t IH]; intros i j Hij.
  - reflexivity.
  - destruct i, j; simpl; try reflexivity; [contradiction|].
    apply IH. lia.
Qed.

Lemma set_nth_length (i : nat) (x : value) (r : row) :
  List.length (set_nth i x r) = List.length r.
Proof.
  revert i. induction r as [|y t IH]; simpl; intros i; [reflexivity|].
  destruct i; simpl; [reflexivity|]. f_equal. apply IH.
Qed.

Lemma cell_map (f : value -> value) (r : row) (j : nat) :
  (j < List.length r)%nat -> cell (map f r) j = f (cell r j).
Proof.
  unfold cell. revert j. induction r as [|y t IH]; simpl; intros j Hj; [lia|].
  destruct j; [reflexivity|]. apply IH. lia.
Qed.

Lemma rectangular_row (df : DataFrame) (r : row) :
  rectangular df = true -> In r (rows df) ->
  List.length r = List.length (columns df).
Proof.
  unfold rectangular. intros H Hin.
  rewrite forallb_forall in H. apply H in Hin. apply Nat.eqb_eq, Hin.
Qed.

(** ** The loader *)

Section LoaderFacts.

Variable parse_float : string -> option Q.

Abbreviation to_num := (to_numeric parse_float).

Lemma to_numeric_idem (v : value) : to_num (to_num v) = to_num v.
Proof.
  destruct v as [q|s|]; simpl; try reflexivity.
  destruct (parse_float s); reflexivity.
Qed.

Lemma to_numeric_shape (v : value) :
  (exists q, to_num v = VNum q) \/ to_num v = VNaN.
Proof.
  destruct v as [q|s|]; simpl; eauto.
  destruct (parse_float s); eauto.
Qed.

Lemma convert_columns_spec (cols : list string) (df d : DataFrame) :
  convert_columns parse_float cols df = Ok d ->
  columns d = columns df /\
  Forall2 (row_converted parse_float df cols) (rows df) (rows d) /\
  (forall col, In col cols -> exists j, loc df col = Ok j).
Proof.
  revert df d. induction cols as [|c cs IH]; simpl; intros df d H.
  - injection H as <-. split; [reflexivity|]. split.
    + induction (rows df) as [|r t IHr]; constructor; [|exact IHr].
      split; [reflexivity|]. split; [auto|]. intros ? ? [].
    + intros ? [].
  - apply rbind_Ok in H as [df1 [H1 H2]].
    unfold convert_column in H1. apply rbind_Ok in H1 as [i [Hi H1]].
    injection H1 as <-.
    apply IH in H2 as [Hc [HF Hloc]]. simpl in Hc.
    split; [exact Hc|]. split.
    + simpl in HF. unfold map_column in HF. simpl in HF.
      revert HF. generalize (rows d). 
      induction (rows df) as [|r t IHr]; simpl; intros l HF;
        inversion HF as [|r1 r' t1 t' Hr Ht]; subst; constructor.
      * destruct Hr as [Hlen [Hany Hcols]].
        rewrite set_nth_length in Hlen.
        split; [exact Hlen|]. split.
        -- intros j. destruct (Nat.eq_dec i j) as [<-|Hij].
           ++ destruct (Nat.lt_ge_cases i (List.length r)) as [Hlt|Hge].
              ** destruct (Hany i) as [E|E]; rewrite E;
                   rewrite cell_set_nth_same by exact Hlt;
                   [right; reflexivity | right; apply to_numeric_idem].
              ** destruct (Hany i) as [E|E]; rewrite E;
                   unfold cell; rewrite !nth_overflow
                     by (try rewrite set_nth_length; lia);
                   left; reflexivity.
           ++ destruct (Hany j) as [E|E]; rewrite E;
                rewrite cell_set_nth_other by exact Hij; auto.
        -- intros col j [<-|Hin] Hj Hlt.
           ++ rewrite Hj in Hi. injection Hi as <-.
              destruct (Hany j) as [E|E]; rewrite E;
                rewrite cell_set_nth_same by exact Hlt;
                [reflexivity | apply to_numeric_idem].
           ++ rewrite (Hcols col j Hin).
              ** destruct (Nat.eq_dec i j) as [<-|Hij].
                 --- rewrite cell_set_nth_same by exact Hlt.
                     apply to_numeric_idem.
                 --- rewrite cell_set_nth_other by exact Hij. reflexivity.
              ** rewrite <- Hj. apply loc_columns. reflexivity.
              ** rewrite set_nth_length. exact Hlt.
      * apply IHr. exact Ht.
    + intros col [<-|Hin]; [eauto|].
      destruct (Hloc col Hin) as [j Hj]. exists j.
      rewrite <- Hj. symmetry. apply loc_columns. reflexivity.
Qed.

Lemma convert_columns_exn (cols : list string) (df : DataFrame) (e : exn) :
  convert_columns parse_float cols df = Raise e -> e <> FileNotFoundError.
Proof.
  revert df. induction cols as [|c cs IH]; simpl; intros df H; [discriminate|].
  unfold convert_column, loc in H.
  destruct (positions c (columns df) 0) as [|j [|k l]]; simpl in H.
  - injection H as <-. discriminate.
  - apply IH in H. exact H.
  - injection H as <-. discriminate.
Qed.

Variable fs : filesystem.

(** Reading a file that parses: the frame returned is the parsed frame
    with stripped labels, converted columns and filled gaps, and the
    session records one read. *)
Lemma load_data_readable (path : string) (raw df : DataFrame) (s s' : session) :
  fs path = Readable (Ok raw) ->
  load_data parse_float fs path s = (Ok df, s') ->
  exists d,
    convert_columns parse_float NUMERIC_COLUMNS
      (with_columns (map strip (columns raw)) raw) = Ok d /\
    df = fillna (VNum 0) d /\
    s' = mkSession (page s) (reads s ++ [path]) (cache s).
Proof.
  intros Hfile. unfold load_data, try_except_FileNotFoundError, bind, read_csv, lift, ret.
  rewrite Hfile.
  destruct (convert_columns parse_float NUMERIC_COLUMNS
              (with_columns (map strip (columns raw)) raw)) as [d|e] eqn:Hc.
  - intros H. injection H as <- <-. exists d. auto.
  - pose proof (convert_columns_exn _ _ _ Hc) as Hne.
    destruct e; intros H; try discriminate. contradiction.
Qed.

Lemma load_data_rows (path : string) (raw df : DataFrame) (s s' : session) :
  fs path = Readable (Ok raw) ->
  load_data parse_float fs path s = (Ok df, s') ->
  columns df = map strip (columns raw) /\
  Forall2 (row_loaded parse_float df) (rows raw) (rows df) /\
  (forall col, In col NUMERIC_COLUMNS -> exists j, loc df col = Ok j).
Proof.
  intros Hfile Hload.
  destruct (load_data_readable _ _ _ _ _ Hfile Hload) as [d [Hc [-> _]]].
  apply convert_columns_spec in Hc as [Hcols [HF Hloc]].
  simpl in Hcols, HF. split; [simpl; exact Hcols|]. split.
  - simpl. revert HF. generalize (rows d).
    induction (rows raw) as [|r t IHr]; intros l HF;
      inversion HF as [|r1 r' t1 t' Hr Ht]; subst; simpl; constructor.
    + destruct Hr as [Hlen [Hany Hnum]]. split; [|split].
      * rewrite length_map. exact Hlen.
      * intros j Hj. rewrite cell_map by lia.
        destruct (Hany j) as [E|E]; rewrite E; auto.
      * intros col j Hin Hj Hlt. rewrite cell_map by lia.
        rewrite (Hnum col j Hin); [reflexivity| |exact Hlt].
        rewrite <- Hj. symmetry. apply loc_columns. simpl. exact Hcols.
    + apply IHr, Ht.
  - intros col Hin. destruct (Hloc col Hin) as [j Hj]. exists j.
    rewrite <- Hj. apply loc_columns. simpl. exact Hcols.
Qed.

End LoaderFacts.

Lemma Forall2_In_r {A B : Type} (R : A -> B -> Prop) (l : list A) (l' : list B) :
  Forall2 R l l' -> forall y, In y l' -> exists x, In x l /\ R x y.
Proof.
  induction 1 as [|x y l l' Hxy _ IH]; simpl; intros z Hz; [contradiction|].
  destruct Hz as [<-|Hz]; [eauto|].
  destruct (IH z Hz) as [x' [Hin HR]]. eauto.
Qed.

Lemma fill_notna (v : value) : isna (fill (VNum 0) v) = false.
Proof. destruct v; reflexivity. Qed.

Lemma forallb_notna_cells (r : row) :
  (forall j, (j < List.length r)%nat -> isna (cell r j) = false) ->
  forallb notna r = true.
Proof.
  unfold cell. induction r as [|v t IH]; simpl; intros H; [reflexivity|].
  apply andb_true_intro. split.
  - unfold notna. rewrite (H 0%nat) by lia. reflexivity.
  - apply IH. intros j Hj. apply (H (S j)). lia.
Qed.

Lemma notna_cell (r : row) (j : nat) :
  forallb notna r = true -> (j < List.length r)%nat -> isna (cell r j) = false.
Proof.
  unfold cell. revert j. induction r as [|v t IH]; simpl; intros j H Hj; [lia|].
  apply andb_prop in H as [Hv Ht].
  destruct j; [|apply IH; [exact Ht | lia]].
  unfold notna in Hv. destruct (isna v); simpl in *; congruence.
Qed.

(** In a rectangular frame without gaps, the cell of any row at any column
    is present. *)
Lemma clean_cell (df : DataFrame) (label : string) (i : nat) (r : row) :
  rectangular df = true -> no_missing df = true ->
  loc df label = Ok i -> In r (rows df) ->
  isna (cell r i) = false.
Proof.
  intros Hrect Hfull Hloc Hin.
  apply notna_cell.
  - unfold no_missing in Hfull. rewrite forallb_forall in Hfull. apply Hfull, Hin.
  - rewrite (rectangular_row df r Hrect Hin). apply (loc_lt _ _ _ Hloc).
Qed.

Section LoadedFrame.

Variable parse_float : string -> option Q.
Variable fs : filesystem.
Variables (path : string) (raw df : DataFrame) (s s' : session).

Hypothesis Hfile : fs path = Readable (Ok raw).
Hypothesis Hrect : rectangular raw = true.
Hypothesis Hload : load_data parse_float fs path s = (Ok df, s').

Lemma loaded_row_length (r r' : row) :
  In r (rows raw) -> row_loaded parse_float df r r' ->
  List.length r' = List.length (columns df).
Proof.
  intros Hin [Hlen _].
  destruct (load_data_rows _ _ _ _ _ _ _ Hfile Hload) as [Hcols _].
  rewrite Hlen, Hcols, length_map.
  apply (rectangular_row raw r Hrect Hin).
Qed.

Lemma load_data_rectangular : rectangular df = true.
Proof.
  destruct (load_data_rows _ _ _ _ _ _ _ Hfile Hload) as [_ [HF _]].
  unfold rectangular. apply forallb_forall. intros r' Hr'.
  destruct (Forall2_In_r _ _ _ HF r' Hr') as [r [Hin HR]].
  apply Nat.eqb_eq. apply (loaded_row_length r r' Hin HR).
Qed.

Lemma load_data_no_missing : no_missing df = true.
Proof.
  destruct (load_data_rows _ _ _ _ _ _ _ Hfile Hload) as [_ [HF _]].
  unfold no_missing. apply forallb_forall. intros r' Hr'.
  destruct (Forall2_In_r _ _ _ HF r' Hr') as [r [Hin [Hlen [Hany _]]]].
  apply forallb_notna_cells. intros j Hj. rewrite Hlen in Hj.
  destruct (Hany j Hj) as [E|E]; rewrite E; apply fill_notna.
Qed.

(** The four converted columns exist and hold numbers only. *)
Lemma load_data_numeric (col : string) :
  In col NUMERIC_COLUMNS ->
  exists j, loc df col = Ok j /\
            forall r, In r (rows df) -> is_num (cell r j) = true.
Proof.
  intros Hcol.
  destruct (load_data_rows _ _ _ _ _ _ _ Hfile Hload) as [Hcols [HF Hloc]].
  destruct (Hloc col Hcol) as [j Hj]. exists j. split; [exact Hj|].
  intros r' Hr'.
  destruct (Forall2_In_r _ _ _ HF r' Hr') as [r [Hin HR]].
  pose proof (loaded_row_length r r' Hin HR) as Hw.
  destruct HR as [Hlen [_ Hnum]].
  rewrite (Hnum col j Hcol Hj).
  - destruct (to_numeric_shape parse_float (cell r j)) as [[q E]|E];
      rewrite E; reflexivity.
  - rewrite <- Hlen, Hw. apply (loc_lt _ _ _ Hj).
Qed.

End LoadedFrame.

(** ** Loading a path that cannot be opened *)

Lemma lookup_cache_head (path : string) (e : cache_entry)
      (c : list (string * cache_entry)) :
  lookup_cache path ((path, e) :: c) = Some e.
Proof.
  unfold lookup_cache. simpl. rewrite String.eqb_refl. reflexivity.
Qed.

Lemma load_data_missing (parse_float : string -> option Q) (fs : filesystem)
      (path : string) (s : session) :
  fs path = Missing ->
  load_data parse_float fs path s =
  (Ok empty_frame,
   mkSession (page s ++ [st_error (not_found_message path)])
             (reads s ++ [path]) (cache s)).
Proof.
  intros Hfile.
  unfold load_data, try_except_FileNotFoundError, bind, read_csv, draw, ret.
  rewrite Hfile. reflexivity.
Qed.

Lemma load_data_unreadable (parse_float : string -> option Q) (fs : filesystem)
      (path : string) (s : session) :
  fs path = Unreadable ->
  load_data parse_float fs path s =
  (Raise PermissionError, mkSession (page s) (reads s ++ [path]) (cache s)).
Proof.
  intros Hfile.
  unfold load_data, try_except_FileNotFoundError, bind, read_csv.
  rewrite Hfile. reflexivity.
Qed.

(** C1, as the code has it.  When the path does not exist, [load_data]
    returns the empty frame and draws the error message; the script then
    draws the warning and nothing else: no metric, no chart, no table.
    When the path exists but may not be read, nothing is recovered: the
    [PermissionError] of the read leaves [load_data], and nothing is drawn. *)
Theorem missing_path_gives_empty_frame_and_warning
        (parse_float : string -> option Q) (fs : filesystem)
        (selectbox : list value -> value) (path : string) (s : session) :
  (fs path = Missing ->
   load_data parse_float fs path s =
     (Ok empty_frame,
      mkSession (page s ++ [st_error (not_found_message path)])
                (reads s ++ [path]) (cache s)))
  /\ (fs DATA_PATH = Missing ->
      lookup_cache DATA_PATH (cache s) = None ->
      exists c,
        script parse_float fs selectbox s =
          (Ok tt,
           mkSession (page s ++ [st_error (not_found_message DATA_PATH);
                                 st_warning LOAD_WARNING])
                     (reads s ++ [DATA_PATH]) c))
  /\ (fs path = Unreadable ->
      load_data parse_float fs path s =
        (Raise PermissionError,
         mkSession (page s) (reads s ++ [path]) (cache s))).
Proof.
  split; [apply load_data_missing|]. split; [|apply load_data_unreadable].
  intros Hfile Hmiss.
  unfold script, cached_load_data, st_cache_data, bind at 1.
  rewrite Hmiss, load_data_missing by exact Hfile.
  simpl. unfold draw. simpl. rewrite <- app_assoc. simpl. eauto.
Qed.

(** ** The cache *)

Lemma load_data_result_pure (parse_float : string -> option Q) (fs : filesystem)
      (path : string) (s s' : session) :
  fst (load_data parse_float fs path s) = fst (load_data parse_float fs path s').
Proof.
  unfold load_data, try_except_FileNotFoundError, bind, read_csv, lift, ret, draw.
  destruct (fs path) as [| |[raw|e]]; try reflexivity.
  - cbv beta iota.
    destruct (convert_columns parse_float NUMERIC_COLUMNS
                (with_columns (map strip (columns raw)) raw)) as [d|e];
      [reflexivity|]. destruct e; reflexivity.
  - destruct e; reflexivity.
Qed.

(** C9.  The frame [load_data] returns depends on the path and on the file
    only, so two loads of one path give equal frames.  Under
    [@st.cache_data], once a call for a path has returned a frame, the next
    call for that path returns the same frame without reading any file and
    without touching the cache, whatever has become of the file. *)
Theorem cached_load_data_idempotent
        (parse_float : string -> option Q) (fs : filesystem) (path : string) :
  (forall s s' : session,
      fst (load_data parse_float fs path s) =
      fst (load_data parse_float fs path s'))
  /\ (forall (fs' : filesystem) (s0 s1 : session) (df : DataFrame),
         cached_load_data parse_float fs path s0 = (Ok df, s1) ->
         exists drawn,
           cached_load_data parse_float fs' path s1 =
             (Ok df, mkSession (page s1 ++ drawn) (reads s1) (cache s1))).
Proof.
  split; [apply load_data_result_pure|].
  intros fs' s0 s1 df. unfold cached_load_data, st_cache_data.
  destruct (lookup_cache path (cache s0)) as [[d drawn]|] eqn:Hhit.
  - intros H. injection H as <- <-. simpl. rewrite Hhit. eauto.
  - destruct (load_data parse_float fs path
                (mkSession [] (reads s0) (cache s0))) as [[d|e] s'];
      intros H; [|discriminate].
    injection H as <- <-. simpl. rewrite lookup_cache_head. eauto.
Qed.

(** ** Return on investment *)

(** C2.  [roi] is [(total_money_saved / total_investment) * 100] when the
    investment is positive and 0 when it is zero, and its one division is
    never by zero. *)
Theorem roi_spec (total_investment total_money_saved : Q) :
  (0 < total_investment ->
   roi total_investment total_money_saved =
     Ok (total_money_saved / total_investment * 100))
  /\ (total_investment == 0 -> roi total_investment total_money_saved = Ok 0)
  /\ roi total_investment total_money_saved <> Raise ZeroDivisionError.
Proof.
  unfold roi, Qlt_bool, truediv.
  destruct (Qle_bool total_investment 0) eqn:Hle; simpl.
  - apply Qle_bool_iff in Hle. repeat split.
    + intros Hlt. exfalso. apply (Qlt_not_le _ _ Hlt Hle).
    + discriminate.
  - assert (Hne : Qeq_bool total_investment 0 = false).
    { destruct (Qeq_bool total_investment 0) eqn:He; [|reflexivity].
      apply Qeq_bool_iff in He.
      assert (Hle' : Qle_bool total_investment 0 = true).
      { apply Qle_bool_iff. rewrite He. apply Qle_refl. }
      congruence. }
    rewrite Hne. simpl. repeat split.
    + intros He. apply Qeq_bool_iff in He. congruence.
    + discriminate.
Qed.

(** ** The filtered view *)

Lemma df_filtered_all (df : DataFrame) : df_filtered df ALL = Ok df.
Proof. reflexivity. Qed.

Lemma df_filtered_rows (df dff : DataFrame) (selected : value) :
  df_filtered df selected = Ok dff ->
  columns dff = columns df /\ incl (rows dff) (rows df).
Proof.
  unfold df_filtered. destruct (value_eqb selected ALL).
  - intros H. injection H as <-. split; [reflexivity | apply incl_refl].
  - intros H. apply rbind_Ok in H as [i [_ H]]. injection H as <-.
    split; [reflexivity|]. simpl. intros r Hr. apply filter_In in Hr. tauto.
Qed.

Lemma df_filtered_rectangular (df dff : DataFrame) (selected : value) :
  df_filtered df selected = Ok dff ->
  rectangular df = true -> rectangular dff = true.
Proof.
  intros H Hrect. destruct (df_filtered_rows _ _ _ H) as [Hc Hincl].
  unfold rectangular in *. rewrite forallb_forall in *.
  intros r Hr. rewrite Hc. apply Hrect, Hincl, Hr.
Qed.

Lemma df_filtered_no_missing (df dff : DataFrame) (selected : value) :
  df_filtered df selected = Ok dff ->
  no_missing df = true -> no_missing dff = true.
Proof.
  intros H Hfull. destruct (df_filtered_rows _ _ _ H) as [_ Hincl].
  unfold no_missing in *. rewrite forallb_forall in *.
  intros r Hr. apply Hfull, Hincl, Hr.
Qed.

(** C4.  With the sentinel "All" selected the filtered view is the whole
    frame.  With any other selection, and the community column present, the
    filtered view keeps the columns and holds exactly the records whose
    community equals the selection, in their order and as often as they
    occur. *)
Theorem df_filtered_spec (df : DataFrame) (selected : value) :
  (selected = ALL -> df_filtered df selected = Ok df)
  /\ (selected <> ALL ->
      forall i, loc df COMMUNITY = Ok i ->
      exists dff,
        df_filtered df selected = Ok dff /\
        columns dff = columns df /\
        rows dff = filter (fun r => value_eqb (cell r i) selected) (rows df) /\
        (forall r, In r (rows dff) <->
                   In r (rows df) /\ value_eqb (cell r i) selected = true)).
Proof.
  split.
  - intros ->. apply df_filtered_all.
  - intros Hsel i Hi. unfold df_filtered.
    destruct (value_eqb selected ALL) eqn:Hall.
    + apply value_eqb_ALL in Hall. contradiction.
    + rewrite Hi. simpl. eexists. split; [reflexivity|]. simpl.
      split; [reflexivity|]. split; [reflexivity|].
      intros r. apply filter_In.
Qed.

(** ** Groups *)

Lemma groupby_Ok (df : DataFrame) (by_label : string) (i : nat) :
  loc df by_label = Ok i ->
  groupby df by_label =
  Ok (map (fun k => (k, rows_of_key i k (rows df)))
          (group_keys (map (fun r => cell r i) (rows df)))).
Proof. unfold groupby. intros ->. reflexivity. Qed.

Lemma filter_one {A : Type} (f : A -> bool) (l : list A) :
  List.length (filter f l) = 1%nat -> exists x, In x l /\ f x = true.
Proof.
  intros H. destruct (filter f l) as [|x t] eqn:E; [discriminate|].
  assert (Hin : In x (filter f l)) by (rewrite E; left; reflexivity).
  apply filter_In in Hin. eauto.
Qed.

Lemma filter_groups_keys (x : value) (i : nat) (rs : list row) (keys : list value) :
  filter (fun g : group => key_eqb x (fst g))
         (map (fun k => (k, rows_of_key i k rs)) keys)
  = map (fun k => (k, rows_of_key i k rs)) (filter (key_eqb x) keys).
Proof.
  induction keys as [|k t IH]; simpl; [reflexivity|].
  destruct (key_eqb x k); simpl; rewrite IH; reflexivity.
Qed.

(** Every row with a present key lies under exactly one group key. *)
Lemma row_in_one_group (i : nat) (rs : list row) (r : row) :
  In r rs -> isna (cell r i) = false ->
  key_matches (cell r i) (group_keys (map (fun r0 => cell r0 i) rs)) = 1%nat.
Proof.
  intros Hin Hna. apply group_keys_matches; [|exact Hna].
  apply in_map_iff. eauto.
Qed.

Lemma groups_perm (i : nat) (rs : list row) :
  (forall r, In r rs -> isna (cell r i) = false) ->
  Permutation
    (List.concat (map (fun k => rows_of_key i k rs)
                      (group_keys (map (fun r => cell r i) rs))))
    rs.
Proof.
  intros Hna.
  apply (buckets_perm (fun (r : row) (k : value) => key_eqb (cell r i) k)).
  intros r Hr. apply (row_in_one_group i rs r Hr (Hna r Hr)).
Qed.

(** No group of [groupby] is empty. *)
Lemma group_nonempty (i : nat) (rs : list row) (k : value) :
  In k (group_keys (map (fun r => cell r i) rs)) ->
  (0 < List.length (rows_of_key i k rs))%nat.
Proof.
  intros Hk. apply group_keys_incl in Hk as [Hin _].
  apply in_map_iff in Hin as [r [<- Hr]].
  assert (H : In r (rows_of_key i (cell r i) rs)).
  { apply filter_In. split; [exact Hr | apply key_eqb_refl]. }
  destruct (rows_of_key i (cell r i) rs); [contradiction | simpl; lia].
Qed.

Section CleanFrame.

Variable dff : DataFrame.
Hypothesis Hrect : rectangular dff = true.
Hypothesis Hfull : no_missing dff = true.

(** Grouping a frame without gaps by any of its columns: the groups are a
    partition of the rows. *)
Lemma groupby_partition (by_label : string) (i : nat) :
  loc dff by_label = Ok i ->
  exists gs,
    groupby dff by_label = Ok gs /\
    Permutation (List.concat (map snd gs)) (rows dff) /\
    (forall r, In r (rows dff) ->
               List.length (filter (fun g : group => key_eqb (cell r i) (fst g)) gs)
               = 1%nat) /\
    (forall g r, In g gs ->
                 (In r (snd g) <->
                  In r (rows dff) /\ key_eqb (cell r i) (fst g) = true)) /\
    (forall g, In g gs -> isna (fst g) = false).
Proof.
  intros Hloc. rewrite (groupby_Ok _ _ _ Hloc). eexists. split; [reflexivity|].
  assert (Hna : forall r, In r (rows dff) -> isna (cell r i) = false).
  { intros r Hr. apply (clean_cell dff by_label i r Hrect Hfull Hloc Hr). }
  split; [|split; [|split]].
  - rewrite map_map. simpl. apply groups_perm, Hna.
  - intros r Hr. rewrite filter_groups_keys, length_map.
    apply (row_in_one_group i _ r Hr (Hna r Hr)).
  - intros g r Hg. apply in_map_iff in Hg as [k [<- Hk]].
    simpl. apply filter_In.
  - intros g Hg. apply in_map_iff in Hg as [k [<- Hk]]. simpl.
    apply group_keys_incl in Hk. tauto.
Qed.

End CleanFrame.

(** ** Counts and sums over clean columns *)

Lemma series_count_full (l : list value) :
  (forall v, In v l -> isna v = false) -> series_count l = List.length l.
Proof.
  unfold series_count. induction l as [|v t IH]; simpl; intros H; [reflexivity|].
  unfold notna at 1. rewrite (H v) by (left; reflexivity). simpl.
  f_equal. apply IH. intros w Hw. apply H. right; exact Hw.
Qed.

Lemma series_sum_numbers (l : list value) :
  (forall v, In v l -> is_num v = true) -> exists total, series_sum l = Ok total.
Proof.
  induction l as [|v t IH]; simpl; intros H; [eauto|].
  destruct IH as [rest Hrest]; [intros w Hw; apply H; right; exact Hw|].
  pose proof (H v (or_introl eq_refl)) as Hv.
  destruct v as [q| |]; try discriminate.
  rewrite Hrest. simpl. eauto.
Qed.

Lemma Qlt_bool_iff (x y : Q) : Qlt_bool x y = true <-> x < y.
Proof.
  unfold Qlt_bool. split.
  - intros H. apply Qnot_le_lt. intros Hle. apply Qle_bool_iff in Hle.
    rewrite Hle in H. discriminate.
  - intros Hlt. destruct (Qle_bool y x) eqn:Hle; [|reflexivity].
    apply Qle_bool_iff in Hle. exfalso. apply (Qlt_not_le _ _ Hlt Hle).
Qed.

Lemma Qeq_bool_pos (x : Q) : 0 < x -> Qeq_bool x 0 = false.
Proof.
  intros Hlt. destruct (Qeq_bool x 0) eqn:He; [|reflexivity].
  apply Qeq_bool_iff in He. rewrite He in Hlt.
  exfalso. apply (Qlt_irrefl _ Hlt).
Qed.

Lemma average_investment_pos (total : Q) (count : nat) :
  (0 < count)%nat ->
  average_investment total count = Ok (total / inject_Z (Z.of_nat count)).
Proof.
  intros Hc. unfold average_investment, truediv.
  destruct (Nat.ltb_spec 0 count) as [_|Hge]; [|lia].
  rewrite Qeq_bool_pos; [reflexivity|].
  unfold Qlt, inject_Z. simpl. lia.
Qed.

Lemma map_snd_combine {A B : Type} (l : list A) (l' : list B) :
  List.length l = List.length l' -> map snd (combine l l') = l'.
Proof.
  revert l'. induction l as [|x t IH]; intros [|y t']; simpl; intros H;
    try discriminate; [reflexivity|].
  f_equal. apply IH. lia.
Qed.

Lemma sort_by_count_desc_sorted (t : list (value * nat)) :
  StronglySorted (fun a b => (snd b <= snd a)%nat) (sort_by_count_desc t).
Proof.
  apply Sorted_StronglySorted.
  - intros a b c Hab Hbc. lia.
  - unfold sort_by_count_desc.
    pose proof (stable_sort_Sorted (fun a b : value * nat => (snd b <=? snd a)%nat)) as H.
    eapply Sorted_ind with (P := fun l => Sorted (fun a b => (snd b <= snd a)%nat) l);
      [constructor | | apply H].
    + intros a l _ IH Hhd. constructor; [exact IH|].
      destruct Hhd as [|b l' Hab]; constructor. apply Nat.leb_le, Hab.
    + intros x y. destruct (Nat.le_ge_cases (snd y) (snd x)) as [Hle|Hle];
        [left | right]; apply Nat.leb_le, Hle.
Qed.

Lemma groupby_count_clean (df : DataFrame) (by_label col : string) (i j : nat) :
  rectangular df = true -> no_missing df = true ->
  loc df by_label = Ok i -> loc df col = Ok j ->
  groupby_count df by_label col = Ok (group_sizes i (rows df)).
Proof.
  intros Hrect Hfull Hi Hj. unfold groupby_count.
  rewrite (groupby_Ok _ _ _ Hi), Hj. simpl. f_equal.
  unfold group_sizes. rewrite map_map. apply map_ext. intros k. simpl.
  f_equal. rewrite series_count_full, length_map; [reflexivity|].
  intros v Hv. apply in_map_iff in Hv as [r [<- Hr]].
  apply filter_In in Hr as [Hr _].
  apply (clean_cell df col j r Hrect Hfull Hj Hr).
Qed.

Lemma Forall2_map_left_In {A B C : Type} (F : A -> B) (R : B -> C -> Prop)
      (S : A -> C -> Prop) (l : list A) (l' : list C) :
  (forall x y, In x l -> R (F x) y -> S x y) ->
  Forall2 R (map F l) l' -> Forall2 S l l'.
Proof.
  revert l'. induction l as [|x t IH]; simpl; intros l' HRS HF;
    inversion HF; subst; constructor.
  - apply HRS; [left; reflexivity | assumption].
  - apply IH; [|assumption]. intros x' y' Hin. apply HRS. right; exact Hin.
Qed.

Lemma Forall2_map_right_In {A B : Type} (G : A -> B) (S : A -> B -> Prop)
      (l : list A) :
  (forall x, In x l -> S x (G x)) -> Forall2 S l (map G l).
Proof.
  induction l as [|x t IH]; simpl; intros H; constructor.
  - apply H. left; reflexivity.
  - apply IH. intros x' Hin. apply H. right; exact Hin.
Qed.

Lemma value_eqb_VStr (v : value) (s : string) :
  value_eqb v (VStr s) = true <-> v = VStr s.
Proof.
  destruct v as [q|t|]; simpl; split; try congruence.
  - intros H. apply String.eqb_eq in H. congruence.
  - intros H. injection H as ->. apply String.eqb_refl.
Qed.

Lemma percent_of_number (total q : Q) :
  0 < total -> percent_of total (VNum q) = Ok (VNum (q / total * 100)).
Proof.
  intros Hpos. unfold percent_of, truediv.
  rewrite (Qeq_bool_pos total Hpos). reflexivity.
Qed.

(** ** Sums over series *)

Lemma series_sum_numbers_of (l : list value) :
  (forall v, In v l -> is_num v = true) ->
  series_sum l = Ok (sum_Q (numbers_of l)).
Proof.
  induction l as [|v t IH]; simpl; intros H; [reflexivity|].
  pose proof (H v (or_introl eq_refl)) as Hv.
  destruct v as [q| |]; try discriminate.
  rewrite IH by (intros w Hw; apply H; right; exact Hw). reflexivity.
Qed.

Lemma mapM_map_Ok {A B : Type} (f : A -> result B) (g : A -> B) (l : list A) :
  (forall x, In x l -> f x = Ok (g x)) -> mapM f l = Ok (map g l).
Proof.
  induction l as [|x t IH]; simpl; intros H; [reflexivity|].
  rewrite (H x (or_introl eq_refl)), IH by (intros y Hy; apply H; right; exact Hy).
  reflexivity.
Qed.

Lemma length_concat_groups {A : Type} (gs : list (list A)) :
  List.length (List.concat gs) = sum_nat (map (@List.length A) gs).
Proof.
  induction gs as [|g t IH]; simpl; [reflexivity|].
  rewrite length_app, IH. reflexivity.
Qed.

Lemma sum_nat_perm (l l' : list nat) :
  Permutation l l' -> sum_nat l = sum_nat l'.
Proof.
  induction 1; simpl; lia.
Qed.

Lemma value_eqb_refl (v : value) : isna v = false -> value_eqb v v = true.
Proof.
  destruct v as [q|x|]; simpl; intros H; try discriminate.
  - apply Qeq_bool_refl.
  - apply String.eqb_refl.
Qed.


(** ** Grouped sums, in closed form *)

(** The sum of the numbers of column [j] over the rows under key [k]. *)
Lemma groupby_sum_clean (df : DataFrame) (by_label col : string) (i j : nat) :
  loc df by_label = Ok i -> loc df col = Ok j ->
  (forall r, In r (rows df) -> is_num (cell r j) = true) ->
  groupby_sum df by_label col =
  Ok (map (fun k =>
             (k, sum_Q (numbers_of (map (fun r => cell r j)
                                        (rows_of_key i k (rows df))))))
          (group_keys (map (fun r => cell r i) (rows df)))).
Proof.
  intros Hi Hj Hnum. unfold groupby_sum.
  rewrite (groupby_Ok _ _ _ Hi), Hj. cbn [rbind].
  rewrite (mapM_map_Ok _
             (fun g : group =>
                (fst g, sum_Q (numbers_of (map (fun r => cell r j) (snd g)))))).
  - rewrite map_map. reflexivity.
  - intros g Hg. apply in_map_iff in Hg as [k [<- _]]. cbn [fst snd].
    rewrite series_sum_numbers_of; [reflexivity|].
    intros v Hv. apply in_map_iff in Hv as [r [<- Hr]].
    apply filter_In in Hr as [Hr _]. apply Hnum, Hr.
Qed.

Lemma numbers_of_app (l1 l2 : list value) :
  numbers_of (l1 ++ l2) = numbers_of l1 ++ numbers_of l2.
Proof.
  induction l1 as [|v t IH]; simpl; [reflexivity|].
  destruct v; simpl; rewrite IH; reflexivity.
Qed.

Lemma sum_Q_app (l1 l2 : list Q) : sum_Q (l1 ++ l2) == sum_Q l1 + sum_Q l2.
Proof.
  induction l1 as [|q t IH]; simpl.
  - rewrite Qplus_0_l. reflexivity.
  - rewrite IH. apply Qplus_assoc.
Qed.

Lemma numbers_of_perm (l l' : list value) :
  Permutation l l' -> Permutation (numbers_of l) (numbers_of l').
Proof.
  induction 1 as [| x l l' _ IH | x y l | l l' l'' _ IH1 _ IH2]; simpl.
  - constructor.
  - destruct x; [constructor|..]; exact IH.
  - destruct x, y; try apply Permutation_refl; constructor.
  - eapply perm_trans; eassumption.
Qed.

Lemma column_total_clean (df : DataFrame) (col : string) (j : nat) :
  loc df col = Ok j ->
  (forall r, In r (rows df) -> is_num (cell r j) = true) ->
  column_total df col = Ok (sum_Q (numbers_of (map (fun r => cell r j) (rows df)))).
Proof.
  intros Hj Hnum. unfold column_total, getitem. rewrite Hj. cbn [rbind].
  apply series_sum_numbers_of.
  intros v Hv. apply in_map_iff in Hv as [r [<- Hr]]. apply Hnum, Hr.
Qed.

Lemma group_sizes_total (i : nat) (rs : list row) :
  (forall r, In r rs -> isna (cell r i) = false) ->
  sum_nat (map snd (group_sizes i rs)) = List.length rs.
Proof.
  intros Hna. unfold group_sizes. rewrite map_map. cbn [snd].
  rewrite <- (Permutation_length (groups_perm i rs Hna)), length_concat_groups,
    map_map.
  reflexivity.
Qed.

Lemma sort_by_amount_desc_sorted (t : list (value * Q)) :
  StronglySorted (fun a b => snd b <= snd a) (sort_by_amount_desc t).
Proof.
  apply Sorted_StronglySorted.
  - intros a b c Hab Hbc. apply (Qle_trans _ _ _ Hbc Hab).
  - unfold sort_by_amount_desc.
    pose proof (stable_sort_Sorted
                  (fun a b : value * Q => Qle_bool (snd b) (snd a))) as H.
    eapply Sorted_ind with (P := fun l => Sorted (fun a b => snd b <= snd a) l);
      [constructor | | apply H].
    + intros a l _ IH Hhd. constructor; [exact IH|].
      destruct Hhd as [|b l' Hab]; constructor. apply Qle_bool_iff, Hab.
    + intros x y. destruct (Qlt_le_dec (snd x) (snd y)) as [Hlt|Hle].
      * right. apply Qle_bool_iff, Qlt_le_weak, Hlt.
      * left. apply Qle_bool_iff, Hle.
Qed.

(** The summary table of a clean frame, in closed form. *)
Lemma regional_investment_summary_clean (dff : DataFrame) (c inv m : nat) :
  rectangular dff = true -> no_missing dff = true ->
  loc dff COMMUNITY = Ok c -> loc dff "Investment" = Ok inv ->
  loc dff "Measure" = Ok m ->
  (forall r, In r (rows dff) -> is_num (cell r inv) = true) ->
  regional_investment_summary dff =
  Ok (map (fun k =>
             let g := rows_of_key c k (rows dff) in
             let total := sum_Q (numbers_of (map (fun r => cell r inv) g)) in
             mkSummaryRow k total (List.length g)
                          (total / inject_Z (Z.of_nat (List.length g))))
          (group_keys (map (fun r => cell r c) (rows dff)))).
Proof.
  intros Hr Hf Hc Hinv Hm Hnum. unfold regional_investment_summary.
  rewrite (groupby_Ok _ _ _ Hc), Hinv, Hm. cbn [rbind].
  rewrite (mapM_map_Ok _
             (fun g : group =>
                let total := sum_Q (numbers_of (map (fun r => cell r inv) (snd g))) in
                mkSummaryRow (fst g) total (List.length (snd g))
                  (total / inject_Z (Z.of_nat (List.length (snd g)))))).
  - rewrite map_map. reflexivity.
  - intros g Hg. apply in_map_iff in Hg as [k [<- Hk]]. cbn [fst snd].
    rewrite series_sum_numbers_of.
    + cbn [rbind]. rewrite series_count_full, length_map.
      * rewrite (average_investment_pos _ _ (group_nonempty c (rows dff) k Hk)).
        reflexivity.
      * intros v Hv. apply in_map_iff in Hv as [r [<- Hin]].
        apply filter_In in Hin as [Hin _].
        apply (clean_cell dff "Measure" m r Hr Hf Hm Hin).
    + intros v Hv. apply in_map_iff in Hv as [r [<- Hin]].
      apply filter_In in Hin as [Hin _]. apply Hnum, Hin.
Qed.

(** The scatter table of a clean frame, in closed form. *)
Lemma financial_summary_clean (dff : DataFrame) (c inv mon : nat) :
  loc dff COMMUNITY = Ok c -> loc dff "Investment" = Ok inv ->
  loc dff "Money Saved" = Ok mon ->
  (forall r, In r (rows dff) -> is_num (cell r inv) = true) ->
  (forall r, In r (rows dff) -> is_num (cell r mon) = true) ->
  financial_summary dff =
  Ok (map (fun k =>
             let g := rows_of_key c k (rows dff) in
             (k, sum_Q (numbers_of (map (fun r => cell r inv) g)),
                 sum_Q (numbers_of (map (fun r => cell r mon) g))))
          (group_keys (map (fun r => cell r c) (rows dff)))).
Proof.
  intros Hc Hinv Hmon Hni Hnm. unfold financial_summary.
  rewrite (groupby_Ok _ _ _ Hc), Hinv, Hmon. cbn [rbind].
  rewrite (mapM_map_Ok _
             (fun g : group =>
                (fst g, sum_Q (numbers_of (map (fun r => cell r inv) (snd g))),
                        sum_Q (numbers_of (map (fun r => cell r mon) (snd g)))))).
  - rewrite map_map. reflexivity.
  - intros g Hg. apply in_map_iff in Hg as [k [<- Hk]]. cbn [fst snd].
    rewrite !series_sum_numbers_of; [reflexivity| |];
      intros v Hv; apply in_map_iff in Hv as [r [<- Hin]];
      apply filter_In in Hin as [Hin _]; auto.
Qed.

Lemma Energy_Saving_Percent_clean (dff : DataFrame) (e : nat) :
  loc dff "Energy Saved" = Ok e ->
  (forall r, In r (rows dff) -> is_num (cell r e) = true) ->
  Energy_Saving_Percent dff =
  Ok (let s := map (fun r => cell r e) (rows dff) in
      let total := sum_Q (numbers_of s) in
      if Qlt_bool 0 total
      then map (fun v => match v with
                         | VNum q => VNum (q / total * 100)
                         | _ => v
                         end) s
      else map (fun _ => VNum 0) s).
Proof.
  intros He Hnum. unfold Energy_Saving_Percent, getitem. rewrite He.
  cbn [rbind]. rewrite series_sum_numbers_of.
  - cbn [rbind]. cbv zeta.
    destruct (Qlt_bool 0 _) eqn:Hlt; [|reflexivity].
    apply Qlt_bool_iff in Hlt. apply mapM_map_Ok.
    intros v Hv. apply in_map_iff in Hv as [r [<- Hr]].
    pose proof (Hnum r Hr) as Hn. destruct (cell r e) as [q| |]; try discriminate.
    apply percent_of_number, Hlt.
  - intros v Hv. apply in_map_iff in Hv as [r [<- Hr]]. apply Hnum, Hr.
Qed.

(** The shares of a column of numbers, for a total fixed beforehand. *)
Lemma shares_of_numbers (e : nat) (total : Q) (rs : list row) (qs : list Q) :
  Forall2 (fun (r : row) (q : Q) => cell r e = VNum q) rs qs ->
  Forall2 (fun (q : Q) (p : value) => p = VNum (q / total * 100)) qs
          (map (fun v => match v with
                         | VNum q => VNum (q / total * 100)
                         | _ => v
                         end)
               (map (fun r => cell r e) rs))
  /\ Forall2 (fun (q : Q) (p : value) => p = VNum 0) qs
             (map (fun _ => VNum 0) (map (fun r => cell r e) rs)).
Proof.
  induction 1 as [|r q rs qs Hq _ [IH1 IH2]]; cbn [map];
    split; constructor; try assumption; try reflexivity.
  rewrite Hq. reflexivity.
Qed.

(** ** Tables with one line per group *)

Lemma filter_map_length {A B : Type} (p : B -> bool) (f : A -> B) (l : list A) :
  List.length (filter p (map f l)) = List.length (filter (fun x => p (f x)) l).
Proof.
  induction l as [|x t IH]; simpl; [reflexivity|].
  destruct (p (f x)); simpl; rewrite IH; reflexivity.
Qed.

Lemma filter_nonempty {A : Type} (p : A -> bool) (l : list A) :
  (0 < List.length (filter p l))%nat -> exists x, In x l /\ p x = true.
Proof.
  destruct (filter p l) as [|x t] eqn:E; simpl; [lia|]. intros _.
  assert (Hx : In x (filter p l)) by (rewrite E; left; reflexivity).
  apply filter_In in Hx. eauto.
Qed.

(** A table built with one line per group key, in any order: every record
    finds its key on exactly one line, and every line is the line of a key
    carried by some record. *)
Lemma table_lines {A : Type} (key : A -> value) (f : value -> A)
      (i : nat) (rs : list row) (t : list A) :
  (forall k, key (f k) = k) ->
  Permutation t (map f (group_keys (map (fun r => cell r i) rs))) ->
  (forall r, In r rs -> isna (cell r i) = false) ->
  (forall r, In r rs ->
     List.length (filter (fun line => key_eqb (cell r i) (key line)) t) = 1%nat)
  /\ (forall line, In line t ->
        exists k, line = f k /\
                  exists r, In r rs /\ key_eqb (cell r i) k = true).
Proof.
  intros Hkey Hperm Hna. split.
  - intros r Hr.
    rewrite (filter_length_perm _ _ _ Hperm), filter_map_length.
    rewrite (filter_ext _ (key_eqb (cell r i)))
      by (intros k; rewrite Hkey; reflexivity).
    apply (row_in_one_group i rs r Hr (Hna r Hr)).
  - intros line Hline. apply (Permutation_in _ Hperm) in Hline.
    apply in_map_iff in Hline. destruct Hline as [k [<- Hk]].
    exists k. split; [reflexivity|].
    apply (filter_nonempty _ _ (group_nonempty i rs k Hk)).
Qed.

(** The cells of a numeric column, read as numbers. *)
Lemma numeric_cells (j : nat) (rs : list row) :
  (forall r, In r rs -> is_num (cell r j) = true) ->
  Forall2 (fun (r : row) (q : Q) => cell r j = VNum q)
          rs (numbers_of (map (fun r => cell r j) rs)).
Proof.
  induction rs as [|r t IH]; intros H; cbn [map numbers_of]; [constructor|].
  pose proof (H r (or_introl eq_refl)) as Hr.
  destruct (cell r j) as [q| |] eqn:E; try discriminate.
  constructor; [exact E|]. apply IH. intros r0 Hr0. apply H. right. exact Hr0.
Qed.

(** The table of counts: one line per group, with the number of records
    that carry the key of the line. *)
Lemma count_table_lines (i : nat) (rs : list row) (t : list (value * nat)) :
  Permutation t (group_sizes i rs) ->
  (forall r, In r rs -> isna (cell r i) = false) ->
  (forall r, In r rs ->
     List.length (filter (fun line : value * nat =>
                            key_eqb (cell r i) (fst line)) t) = 1%nat)
  /\ (forall line, In line t ->
        (exists r, In r rs /\ key_eqb (cell r i) (fst line) = true) /\
        snd line =
          List.length (filter (fun r => key_eqb (cell r i) (fst line)) rs)).
Proof.
  intros Hperm Hna.
  destruct (table_lines fst
              (fun k => (k, List.length (rows_of_key i k rs))) i rs t
              (fun k => eq_refl) Hperm Hna) as [Hone Hline].
  split; [exact Hone|]. intros line Hin.
  destruct (Hline line Hin) as [k [-> Hex]]. split; [exact Hex|].
  reflexivity.
Qed.

(** ** After a successful load *)

Section AfterLoad.

Variable parse_float : string -> option Q.
Variable fs : filesystem.
Variables (path : string) (raw df : DataFrame) (s s' : session).

Hypothesis Hfile : fs path = Readable (Ok raw).
Hypothesis Hrect : rectangular raw = true.
Hypothesis Hload : load_data parse_float fs path s = (Ok df, s').

Local Ltac loaded_frame :=
  pose proof (load_data_rectangular _ _ _ _ _ _ _ Hfile Hrect Hload) as df_rect;
  pose proof (load_data_no_missing _ _ _ _ _ _ _ Hfile Hload) as df_full.

(** C8.  Grouping any filtered view of a loaded frame by one of its
    columns (the community, the center) gives groups whose rows together
    are exactly the rows of the view: every record lies under exactly one
    group key, and a group holds the records of the view with its key and
    no others. *)
Theorem grouping_complete (selected : value) (dff : DataFrame)
        (by_label : string) (i : nat) :
  df_filtered df selected = Ok dff ->
  loc df by_label = Ok i ->
  exists gs,
    groupby dff by_label = Ok gs /\
    Permutation (List.concat (map snd gs)) (rows dff) /\
    (forall r, In r (rows dff) ->
               List.length (filter (fun g : group => key_eqb (cell r i) (fst g)) gs)
               = 1%nat) /\
    (forall g r, In g gs ->
                 (In r (snd g) <->
                  In r (rows dff) /\ key_eqb (cell r i) (fst g) = true)).
Proof.
  intros Hsel Hloc. loaded_frame.
  pose proof (df_filtered_rectangular _ _ _ Hsel df_rect) as Hr.
  pose proof (df_filtered_no_missing _ _ _ Hsel df_full) as Hf.
  destruct (df_filtered_rows _ _ _ Hsel) as [Hc _].
  rewrite <- (loc_columns df dff by_label Hc) in Hloc.
  destruct (groupby_partition dff Hr Hf by_label i Hloc)
    as [gs [Hg [Hp [Hone [Hmem _]]]]].
  exists gs. auto.
Qed.

(** C10.  [fillna(0)] reaches every column: no cell of the loaded frame is
    missing, and a cell missing in the parsed file is 0 after the load,
    whatever its column.  Hence, in any group-by of any filtered view, no
    group key is missing and every record of the view is in a group. *)
Theorem fillna_reaches_every_column :
  Forall2 (fun r r' : row =>
             List.length r' = List.length (columns df) /\
             forall j, (j < List.length r')%nat ->
                       isna (cell r' j) = false /\
                       (isna (cell r j) = true -> cell r' j = VNum 0))
          (rows raw) (rows df)
  /\ (forall (selected : value) (dff : DataFrame) (by_label : string) (i : nat),
         df_filtered df selected = Ok dff ->
         loc df by_label = Ok i ->
         exists gs,
           groupby dff by_label = Ok gs /\
           (forall g, In g gs -> isna (fst g) = false) /\
           (forall r, In r (rows dff) ->
                      isna (cell r i) = false /\
                      exists g, In g gs /\ In r (snd g))).
Proof.
  split.
  - destruct (load_data_rows _ _ _ _ _ _ _ Hfile Hload) as [Hcols [HF _]].
    assert (Hraw : Forall (fun r => List.length r = List.length (columns raw)) (rows raw)).
    { apply Forall_forall. intros r Hr. apply (rectangular_row raw r Hrect Hr). }
    revert Hraw. induction HF as [|r r' t t' [Hlen [Hany _]] _ IH];
      intros Hraw; constructor.
    + inversion Hraw as [|? ? Hr0 _]; subst. split.
      * rewrite Hlen, Hr0, Hcols, length_map. reflexivity.
      * intros j Hj. rewrite Hlen in Hj. split.
        -- destruct (Hany j Hj) as [E|E]; rewrite E; apply fill_notna.
        -- intros Hna.
           destruct (Hany j Hj) as [E|E]; rewrite E;
             destruct (cell r j); try discriminate; reflexivity.
    + apply IH. inversion Hraw; assumption.
  - intros selected dff by_label i Hsel Hloc. loaded_frame.
    pose proof (df_filtered_rectangular _ _ _ Hsel df_rect) as Hr.
    pose proof (df_filtered_no_missing _ _ _ Hsel df_full) as Hf.
    destruct (df_filtered_rows _ _ _ Hsel) as [Hc _].
    rewrite <- (loc_columns df dff by_label Hc) in Hloc.
    destruct (groupby_partition dff Hr Hf by_label i Hloc)
      as [gs [Hg [_ [Hone [Hmem Hkeys]]]]].
    exists gs. split; [exact Hg|]. split; [exact Hkeys|].
    intros r Hin. split.
    + apply (clean_cell dff by_label i r Hr Hf Hloc Hin).
    + destruct (filter_one _ _ (Hone r Hin)) as [g [Hgin Hk]].
      exists g. split; [exact Hgin|]. apply (Hmem g r Hgin). auto.
Qed.

(** C7.  The table behind the first chart counts the records of each
    group: the groups of the whole frame by community when "All" is
    selected, the groups of the filtered view by center otherwise.  Every
    record of the grouped rows finds its key on exactly one line of the
    table, every line has the key of some record, and the count of a line
    is the number of records that carry its key; in both cases the table
    is in descending order of count.  The center column is needed only
    when the choice is not "All". *)
Theorem measure_counts_by_group (selected : value) (dff : DataFrame) (m : nat) :
  df_filtered df selected = Ok dff ->
  loc df "Measure" = Ok m ->
  (selected = ALL -> exists c, loc df COMMUNITY = Ok c) ->
  (selected <> ALL -> exists z, loc df "Center" = Ok z) ->
  exists t,
    fig1_data df dff selected = Ok t /\
    StronglySorted (fun a b => (snd b <= snd a)%nat) t /\
    (forall (i : nat) (view : list row),
       (selected = ALL /\ loc df COMMUNITY = Ok i /\ view = rows df) \/
       (selected <> ALL /\ loc df "Center" = Ok i /\ view = rows dff) ->
       (forall r, In r view ->
          List.length (filter (fun line : value * nat =>
                                 key_eqb (cell r i) (fst line)) t) = 1%nat) /\
       (forall line, In line t ->
          (exists r, In r view /\ key_eqb (cell r i) (fst line) = true) /\
          snd line =
            List.length (filter (fun r => key_eqb (cell r i) (fst line)) view))).
Proof.
  intros Hsel Hm Hcom Hcen. loaded_frame.
  pose proof (df_filtered_rectangular _ _ _ Hsel df_rect) as Hr.
  pose proof (df_filtered_no_missing _ _ _ Hsel df_full) as Hf.
  destruct (df_filtered_rows _ _ _ Hsel) as [Hcols _].
  unfold fig1_data. destruct (value_eqb selected ALL) eqn:Hall.
  - apply value_eqb_ALL in Hall. destruct (Hcom Hall) as [c Hc].
    unfold measures_per_community.
    rewrite (groupby_count_clean df COMMUNITY "Measure" c m df_rect df_full Hc Hm).
    cbn [rbind]. eexists. split; [reflexivity|].
    split; [apply sort_by_count_desc_sorted|].
    intros i view [[_ [Hi ->]]|[Hne _]]; [|contradiction].
    assert (i = c) by congruence. subst i.
    apply count_table_lines; [apply stable_sort_perm|].
    intros r Hin. apply (clean_cell df COMMUNITY c r df_rect df_full Hc Hin).
  - assert (Hne : selected <> ALL) by (intros ->; discriminate).
    destruct (Hcen Hne) as [z Hz].
    unfold measures_per_center.
    assert (Hz' : loc dff "Center" = Ok z)
      by (rewrite (loc_columns df dff "Center" Hcols); exact Hz).
    rewrite <- (loc_columns df dff "Measure" Hcols) in Hm.
    rewrite (groupby_count_clean dff "Center" "Measure" z m Hr Hf Hz' Hm).
    cbn [rbind]. eexists. split; [reflexivity|].
    split; [apply sort_by_count_desc_sorted|].
    intros i view [[Heq _]|[_ [Hi ->]]]; [contradiction|].
    assert (i = z) by congruence. subst i.
    apply count_table_lines; [apply stable_sort_perm|].
    intros r Hin. apply (clean_cell dff "Center" z r Hr Hf Hz' Hin).
Qed.

(** C5.  The summary table has one row per community of the filtered
    view: every record of the view finds its community on exactly one row,
    and every row is the row of a community that has records in the view.
    The row reports the number of the records of its community, the sum of
    their investments and the average, which is the sum divided by the
    count when the count is positive and 0 when the count is 0; the count
    of a row is always positive. *)
Theorem investment_summary_by_community (selected : value) (dff : DataFrame)
        (c m : nat) :
  df_filtered df selected = Ok dff ->
  loc df COMMUNITY = Ok c ->
  loc df "Measure" = Ok m ->
  exists inv tab,
    loc df "Investment" = Ok inv /\
    regional_investment_summary dff = Ok tab /\
    (forall r, In r (rows dff) ->
       List.length
         (filter (fun line => key_eqb (cell r c) (summary_community line)) tab)
       = 1%nat) /\
    (forall line, In line tab ->
       exists (g : list row) (investments : list Q),
         g = filter (fun r => key_eqb (cell r c) (summary_community line))
                    (rows dff) /\
         g <> [] /\
         Forall2 (fun (r : row) (q : Q) => cell r inv = VNum q) g investments /\
         Measure_Count line = List.length g /\
         (0 < Measure_Count line)%nat /\
         Total_Investment line = sum_Q investments /\
         average_investment (Total_Investment line) (Measure_Count line)
           = Ok (Average_Investment_per_Measure line) /\
         ((0 < Measure_Count line)%nat ->
          Average_Investment_per_Measure line =
            Total_Investment line / inject_Z (Z.of_nat (Measure_Count line))) /\
         (Measure_Count line = 0%nat -> Average_Investment_per_Measure line = 0)) /\
    (forall total, average_investment total 0 = Ok 0).
Proof.
  intros Hsel Hc Hm. loaded_frame.
  pose proof (df_filtered_rectangular _ _ _ Hsel df_rect) as Hr.
  pose proof (df_filtered_no_missing _ _ _ Hsel df_full) as Hf.
  destruct (df_filtered_rows _ _ _ Hsel) as [Hcols Hincl].
  destruct (load_data_numeric _ _ _ _ _ _ _ Hfile Hrect Hload "Investment")
    as [inv [Hinv Hnum]]; [simpl; tauto|].
  exists inv.
  assert (Hc' : loc dff COMMUNITY = Ok c)
    by (rewrite (loc_columns df dff COMMUNITY Hcols); exact Hc).
  assert (Hm' : loc dff "Measure" = Ok m)
    by (rewrite (loc_columns df dff "Measure" Hcols); exact Hm).
  assert (Hinv' : loc dff "Investment" = Ok inv)
    by (rewrite (loc_columns df dff "Investment" Hcols); exact Hinv).
  assert (Hnum' : forall r, In r (rows dff) -> is_num (cell r inv) = true)
    by (intros r Hin; apply Hnum, Hincl, Hin).
  rewrite (regional_investment_summary_clean dff c inv m Hr Hf Hc' Hinv' Hm' Hnum').
  eexists. split; [exact Hinv|]. split; [reflexivity|].
  match goal with |- context [map ?f (group_keys _)] =>
    destruct (table_lines summary_community f c (rows dff) _
                (fun k => eq_refl) (Permutation_refl _)
                (fun r Hin => clean_cell dff COMMUNITY c r Hr Hf Hc' Hin))
      as [Hone Hline]
  end.
  split; [exact Hone|]. split; [|reflexivity]. intros line Hin.
  destruct (Hline line Hin) as [k [-> [r [Hrin Hrk]]]].
  cbn [summary_community Measure_Count Total_Investment
       Average_Investment_per_Measure].
  fold (rows_of_key c k (rows dff)).
  set (g := rows_of_key c k (rows dff)).
  assert (Hg : In r g) by (apply filter_In; split; assumption).
  assert (Hpos : (0 < List.length g)%nat)
    by (destruct g; [destruct Hg | simpl; lia]).
  exists g, (numbers_of (map (fun r0 => cell r0 inv) g)).
  split; [reflexivity|].
  split; [intros E; rewrite E in Hg; destruct Hg|].
  split.
  { apply numeric_cells. intros r0 Hr0. apply filter_In in Hr0.
    apply Hnum'. tauto. }
  split; [reflexivity|]. split; [exact Hpos|]. split; [reflexivity|].
  split; [apply average_investment_pos, Hpos|].
  split; [reflexivity|]. intros E. rewrite E in Hpos. lia.
Qed.

(** C6.  The share column is computed for the selection "Madrid" and for
    no other.  For Madrid, with [total] the sum of the energy saved over the
    records of the filtered view, every record gets
    [(energy_saved / total) * 100] when [total] is positive and 0 when it
    is not: when it is 0, and also when it is negative. *)
Theorem energy_saving_percent_madrid (selected : value) (dff : DataFrame) :
  df_filtered df selected = Ok dff ->
  (selected <> MADRID -> extra_fig1_data dff selected = Ok None)
  /\ (selected = MADRID ->
      forall m z, loc df "Measure" = Ok m -> loc df "Center" = Ok z ->
      exists (e : nat) (energies : list Q) pcts pts,
        loc df "Energy Saved" = Ok e /\
        Forall2 (fun (r : row) (q : Q) => cell r e = VNum q)
                (rows dff) energies /\
        total_energy_saved dff = Ok (sum_Q energies) /\
        Energy_Saving_Percent dff = Ok pcts /\
        extra_fig1_data dff selected = Ok (Some pts) /\
        map snd pts = pcts /\
        Forall2
          (fun (q : Q) (p : value) =>
             (0 < sum_Q energies -> p = VNum (q / sum_Q energies * 100)) /\
             (sum_Q energies == 0 -> p = VNum 0) /\
             (sum_Q energies < 0 -> p = VNum 0))
          energies pcts).
Proof.
  intros Hsel. split.
  - intros Hne. unfold extra_fig1_data.
    destruct (value_eqb selected MADRID) eqn:E; [|reflexivity].
    apply value_eqb_VStr in E. contradiction.
  - intros -> m z Hm Hz. loaded_frame.
    destruct (df_filtered_rows _ _ _ Hsel) as [Hcols Hincl].
    destruct (load_data_numeric _ _ _ _ _ _ _ Hfile Hrect Hload "Energy Saved")
      as [e [He Hnum]]; [simpl; tauto|].
    destruct (load_data_numeric _ _ _ _ _ _ _ Hfile Hrect Hload "Investment")
      as [inv [Hinv _]]; [simpl; tauto|].
    assert (He' : loc dff "Energy Saved" = Ok e)
      by (rewrite (loc_columns df dff _ Hcols); exact He).
    assert (Hm' : loc dff "Measure" = Ok m)
      by (rewrite (loc_columns df dff _ Hcols); exact Hm).
    assert (Hinv' : loc dff "Investment" = Ok inv)
      by (rewrite (loc_columns df dff _ Hcols); exact Hinv).
    assert (Hz' : loc dff "Center" = Ok z)
      by (rewrite (loc_columns df dff _ Hcols); exact Hz).
    assert (Hnum' : forall r, In r (rows dff) -> is_num (cell r e) = true)
      by (intros r Hin; apply Hnum, Hincl, Hin).
    pose proof (numeric_cells e (rows dff) Hnum') as Hcells.
    pose proof (Energy_Saving_Percent_clean dff e He' Hnum') as Hp.
    cbv zeta in Hp.
    set (energies := numbers_of (map (fun r => cell r e) (rows dff))) in *.
    exists e, energies.
    unfold extra_fig1_data. simpl value_eqb. rewrite Hp. cbn [rbind].
    unfold getitem. rewrite Hinv', Hm', Hz'. cbn [rbind].
    do 2 eexists. split; [exact He|]. split; [exact Hcells|].
    split; [apply (column_total_clean dff "Energy Saved" e He' Hnum')|].
    split; [reflexivity|]. split; [reflexivity|]. split.
    { apply map_snd_combine.
      rewrite !length_combine, !length_map, !Nat.min_id.
      destruct (Qlt_bool 0 (sum_Q energies)); rewrite !length_map; reflexivity. }
    destruct (shares_of_numbers e (sum_Q energies) _ _ Hcells) as [Hpos Hzero].
    destruct (Qlt_bool 0 (sum_Q energies)) eqn:Hlt.
    + apply Qlt_bool_iff in Hlt.
      apply (Forall2_impl _ (R1 := fun q p => p = VNum (q / sum_Q energies * 100)));
        [|exact Hpos].
      intros q p ->. split; [reflexivity|]. split.
      * intros E. rewrite E in Hlt. exfalso. apply (Qlt_irrefl _ Hlt).
      * intros Hneg. exfalso. apply (Qlt_irrefl 0).
        apply (Qlt_trans _ _ _ Hlt Hneg).
    + assert (Hno : ~ 0 < sum_Q energies).
      { intros H. apply Qlt_bool_iff in H. congruence. }
      apply (Forall2_impl _ (R1 := fun q p => p = VNum 0)); [|exact Hzero].
      intros q p ->. split; [intros H; contradiction|]. split; reflexivity.
Qed.

(** The cells of a numeric column after the load, record by record. *)
Lemma loaded_numeric_cells (col : string) :
  In col NUMERIC_COLUMNS ->
  exists j,
    loc df col = Ok j /\
    Forall2 (fun r r' : row =>
               cell r' j = fill (VNum 0) (to_numeric parse_float (cell r j)))
            (rows raw) (rows df).
Proof.
  intros Hcol.
  destruct (load_data_rows _ _ _ _ _ _ _ Hfile Hload) as [Hcols [HF Hloc]].
  destruct (Hloc col Hcol) as [j Hj]. exists j. split; [exact Hj|].
  assert (Hlt : forall r, In r (rows raw) -> (j < List.length r)%nat).
  { intros r Hr. rewrite (rectangular_row raw r Hrect Hr).
    pose proof (loc_lt _ _ _ Hj) as H. rewrite Hcols, length_map in H. exact H. }
  revert Hlt. induction HF as [|r r' t t' [_ [_ Hnum]] _ IH];
    intros Hlt; constructor.
  - apply (Hnum col j Hcol Hj). apply Hlt. left; reflexivity.
  - apply IH. intros r0 Hr0. apply Hlt. right; exact Hr0.
Qed.

End AfterLoad.

(** ** The numeric columns over binary64 *)

(** The binary64 reading of the conversion and the exact model agree cell
    by cell, wherever no infinity comes in: the exact model is the
    conversion restricted to the cells that denote reals. *)
Lemma load_column_exact (parse_float : string -> option Float64.float64)
      (c : Float64.cell) (v : value) :
  Float64.exact_cell c = Some v ->
  (forall sign, Float64.to_numeric parse_float c <> S754_infinity sign) ->
  Float64.exact (Float64.fill Float64.zero (Float64.to_numeric parse_float c))
  = Some (fill (VNum 0) (to_numeric (Float64.exact_parse parse_float) v)).
Proof.
  intros Hv Hinf. destruct c as [x|t]; cbn in Hv, Hinf |- *.
  - destruct x; cbn in Hv |- *; try discriminate;
      injection Hv as <-; reflexivity.
  - injection Hv as <-. cbn. unfold Float64.exact_parse.
    destruct (parse_float t) as [x|]; [|reflexivity].
    destruct x as [sg|sg| |sg mx ex]; cbn; try reflexivity.
    exfalso. apply (Hinf sg). reflexivity.
Qed.

(** A numeric column of the loaded frame is the column that
    [Float64.load_column] gives, read exactly, when the parsed file holds
    no infinity in it. *)
Lemma load_data_column_exact
      (parse_float : string -> option Float64.float64) (fs : filesystem)
      (path : string) (raw df : DataFrame) (s s' : session)
      (col : string) (column : list Float64.cell) :
  fs path = Readable (Ok raw) ->
  rectangular raw = true ->
  load_data (Float64.exact_parse parse_float) fs path s = (Ok df, s') ->
  In col NUMERIC_COLUMNS ->
  exists j,
    loc df col = Ok j /\
    (Forall2 (fun (c : Float64.cell) (r : row) =>
                Float64.exact_cell c = Some (cell r j)) column (rows raw) ->
     (forall c sign, In c column ->
                     Float64.to_numeric parse_float c <> S754_infinity sign) ->
     Forall2 (fun (x : Float64.float64) (r' : row) =>
                Float64.exact x = Some (cell r' j))
             (Float64.load_column parse_float column) (rows df)).
Proof.
  intros Hfile Hrect Hload Hcol.
  destruct (loaded_numeric_cells _ _ _ _ _ _ _ Hfile Hrect Hload col Hcol)
    as [j [Hj HF]].
  exists j. split; [exact Hj|]. intros Hcells Hinf.
  revert Hinf HF. generalize (rows df).
  induction Hcells as [|c r column rs Hc _ IH]; intros rs' Hinf HF.
  - inversion HF; subst. constructor.
  - inversion HF as [|r0 r' t t' Hr' HF']; subst. cbn [Float64.load_column map].
    constructor.
    + rewrite Hr'. apply load_column_exact; [exact Hc|].
      intros sign. apply Hinf. left. reflexivity.
    + apply IH; [|exact HF'].
      intros c0 sign Hc0. apply Hinf. right. exact Hc0.
Qed.

(** C3.  After the load every cell of a numeric column is a float that is
    not NaN, one per record.  A cell that did not parse as a number
    (missing, or a text that the parser refuses or reads as NaN) is exactly
    0.0; any other cell keeps its float, so that a cell that reads as an
    infinity stays infinite and is no real number: the loaded cell is a
    real exactly when the cell of the file is not an infinity.  A cell
    equal to 0.0 adds nothing to a sum: [x + 0.0] and [0.0 + x] are [x],
    but for [-0.0], where they are [0.0]. *)
Theorem numeric_cells_are_not_nan
        (parse_float : string -> option Float64.float64)
        (s : list Float64.cell) :
  List.length (Float64.load_column parse_float s) = List.length s
  /\ Forall2
       (fun (c : Float64.cell) (x : Float64.float64) =>
          x <> Float64.NaN /\
          (c = Float64.Num Float64.NaN -> x = Float64.zero) /\
          (forall t, c = Float64.Text t -> parse_float t = None ->
                     x = Float64.zero) /\
          (forall t, c = Float64.Text t ->
                     parse_float t = Some Float64.NaN -> x = Float64.zero) /\
          (forall y, c = Float64.Num y -> y <> Float64.NaN -> x = y) /\
          (forall t y, c = Float64.Text t -> parse_float t = Some y ->
                       y <> Float64.NaN -> x = y) /\
          (Float64.isfinite x = false <->
           exists sign,
             c = Float64.Num (S754_infinity sign) \/
             exists t, c = Float64.Text t /\
                       parse_float t = Some (S754_infinity sign)))
       s (Float64.load_column parse_float s)
  /\ (forall x : Float64.float64,
        (Float64.add x Float64.zero = x /\ Float64.add Float64.zero x = x)
        \/ (x = S754_zero true /\
            Float64.add x Float64.zero = Float64.zero /\
            Float64.add Float64.zero x = Float64.zero)).
Proof.
  split; [apply length_map|]. split.
  - unfold Float64.load_column. apply Forall2_map_right_In. intros c _.
    unfold Float64.fill, Float64.to_numeric, Float64.NaN, Float64.zero.
    destruct c as [y|t];
      [destruct y as [sg|sg| |sg mx ex]
      |destruct (parse_float t) as [y|] eqn:E;
         [destruct y as [sg|sg| |sg mx ex]|]];
      cbn;
      repeat match goal with |- _ /\ _ => split end;
      try discriminate; try congruence;
      (split;
       [ intros H; try discriminate H; eexists;
         first [ left; reflexivity
               | right; eexists; split; [reflexivity | eassumption] ]
       | intros [sign [H|[t0 [H1 H2]]]]; congruence ]).
  - intros x. destruct x as [[|]|sg| |sg mx ex].
    + right. repeat split.
    + left. split; reflexivity.
    + left. split; reflexivity.
    + left. split; reflexivity.
    + left. split; reflexivity.
Qed.


(** * The example of the specification, run *)

Example load_example :
  load_data parse_decimal example_fs DATA_PATH new_session
  = (Ok example_df, example_session).
Proof. reflexivity. Qed.

Example script_example_all :
  page (snd (script parse_decimal example_fs (fun _ => ALL) new_session))
  = [st_selectbox "Select a Community" [ALL; VStr "Cataluña"; VStr "Madrid"];
     st_metric "Total Investment" 3500;
     st_metric "Total Money Saved" 300;
     st_metric "Total Energy Saved" 750;
     st_metric "Return on Investment (ROI)" (30000 # 3500);
     st_plotly_chart (fig1 [(VStr "Madrid", 2%nat); (VStr "Cataluña", 1%nat)]);
     st_plotly_chart (fig5 [(VStr "Madrid", 750); (VStr "Cataluña", 0)]);
     st_dataframe [mkSummaryRow (VStr "Cataluña") 2000 1 2000;
                   mkSummaryRow (VStr "Madrid") 1500 2 (1500 # 2)];
     st_plotly_chart (fig6_donut [(VStr "Cataluña", 0); (VStr "Madrid", 300)]);
     st_plotly_chart (fig7 [(VStr "Cataluña", 2000, 0); (VStr "Madrid", 1500, 300)])].
Proof. reflexivity. Qed.

Example roi_example_madrid :
  exists r, roi 1500 300 = Ok r /\ r == 20.
Proof. eexists. split; reflexivity. Qed.

Example percent_example_madrid :
  exists a b,
    Energy_Saving_Percent example_madrid = Ok [VNum a; VNum b]
    /\ a == 200 # 3 /\ b == 100 # 3.
Proof. do 2 eexists. repeat split; reflexivity. Qed.

(** A missing community next to named ones: the cell loads as 0, and the
    list of the select box cannot be sorted. *)
Example community_list_mixed :
  community_list (mkDataFrame [COMMUNITY] [[VStr "Madrid"]; [VNum 0]])
  = Raise TypeError.
Proof. reflexivity. Qed.

(** * Instances *)

(** C1 at a file system without files and at one whose files may not be
    read. *)
Lemma missing_path_witness :
  load_data parse_decimal empty_fs DATA_PATH new_session =
    (Ok empty_frame,
     mkSession [st_error (not_found_message DATA_PATH)] [DATA_PATH] [])
  /\ (exists c,
      script parse_decimal empty_fs (fun _ => ALL) new_session =
        (Ok tt,
         mkSession [st_error (not_found_message DATA_PATH);
                    st_warning LOAD_WARNING] [DATA_PATH] c))
  /\ load_data parse_decimal locked_fs "secret.csv" new_session =
      (Raise PermissionError, mkSession [] ["secret.csv"] []).
Proof.
  destruct (missing_path_gives_empty_frame_and_warning
              parse_decimal empty_fs (fun _ => ALL) DATA_PATH new_session)
    as [H1 [H2 _]].
  destruct (missing_path_gives_empty_frame_and_warning
              parse_decimal locked_fs (fun _ => ALL) "secret.csv" new_session)
    as [_ [_ H3]].
  split; [exact (H1 eq_refl)|].
  split; [exact (H2 eq_refl eq_refl) | exact (H3 eq_refl)].
Defined.

(** C1 as stated fails where the path exists but may not be read: the
    load raises [PermissionError] instead of returning the empty frame, and
    the script stops without any warning on the page. *)
Lemma unreadable_path_propagates :
  locked_fs DATA_PATH = Unreadable
  /\ load_data parse_decimal locked_fs DATA_PATH new_session
     = (Raise PermissionError, mkSession [] [DATA_PATH] [])
  /\ script parse_decimal locked_fs (fun _ => ALL) new_session
     = (Raise PermissionError, mkSession [] [DATA_PATH] []).
Proof. repeat split. Qed.

(** C9 at the example file, deleted between the two calls. *)
Lemma cached_load_data_witness :
  exists drawn,
    cached_load_data parse_decimal empty_fs DATA_PATH
      (mkSession [] [DATA_PATH] [(DATA_PATH, (example_df, []))])
    = (Ok example_df,
       mkSession ([] ++ drawn) [DATA_PATH] [(DATA_PATH, (example_df, []))]).
Proof.
  exact (proj2 (cached_load_data_idempotent parse_decimal example_fs DATA_PATH)
               empty_fs new_session
               (mkSession [] [DATA_PATH] [(DATA_PATH, (example_df, []))])
               example_df eq_refl).
Defined.

(** C2 at the totals of the Madrid view and at a zero investment. *)
Lemma roi_witness :
  roi 1500 300 = Ok (300 / 1500 * 100) /\ roi 0 300 = Ok 0.
Proof.
  split.
  - apply (proj1 (roi_spec 1500 300)). reflexivity.
  - apply (proj1 (proj2 (roi_spec 0 300))). reflexivity.
Defined.

(** C4 at the example frame, for "All" and for "Madrid". *)
Lemma df_filtered_witness :
  df_filtered example_df ALL = Ok example_df /\
  exists dff,
    df_filtered example_df MADRID = Ok dff /\
    columns dff = columns example_df /\
    rows dff = filter (fun r => value_eqb (cell r 0) MADRID) (rows example_df) /\
    (forall r, In r (rows dff) <->
               In r (rows example_df) /\ value_eqb (cell r 0) MADRID = true).
Proof.
  split.
  - apply (proj1 (df_filtered_spec example_df ALL)). reflexivity.
  - apply (proj2 (df_filtered_spec example_df MADRID)).
    + discriminate.
    + reflexivity.
Defined.

(** C8 at the Madrid view of the example, grouped by center. *)
Lemma grouping_complete_witness :
  exists gs,
    groupby example_madrid "Center" = Ok gs /\
    Permutation (List.concat (map snd gs)) (rows example_madrid) /\
    (forall r, In r (rows example_madrid) ->
               List.length (filter (fun g : group => key_eqb (cell r 1) (fst g)) gs)
               = 1%nat) /\
    (forall g r, In g gs ->
                 (In r (snd g) <->
                  In r (rows example_madrid) /\ key_eqb (cell r 1) (fst g) = true)).
Proof.
  exact (grouping_complete parse_decimal example_fs DATA_PATH example_raw
           example_df new_session example_session eq_refl eq_refl eq_refl
           MADRID example_madrid "Center" 1%nat eq_refl eq_refl).
Defined.

(** C10 at the example, whose second record has no center. *)
Lemma fillna_witness :
  Forall2 (fun r r' : row =>
             List.length r' = List.length (columns example_df) /\
             forall j, (j < List.length r')%nat ->
                       isna (cell r' j) = false /\
                       (isna (cell r j) = true -> cell r' j = VNum 0))
          (rows example_raw) (rows example_df)
  /\ exists gs,
      groupby example_madrid "Center" = Ok gs /\
      (forall g, In g gs -> isna (fst g) = false) /\
      (forall r, In r (rows example_madrid) ->
                 isna (cell r 1) = false /\
                 exists g, In g gs /\ In r (snd g)).
Proof.
  destruct (fillna_reaches_every_column parse_decimal example_fs DATA_PATH
              example_raw example_df new_session example_session
              eq_refl eq_refl eq_refl) as [H1 H2].
  split; [exact H1|].
  exact (H2 MADRID example_madrid "Center" 1%nat eq_refl eq_refl).
Defined.

(** C7 at the example, for "All" and for "Madrid". *)
Lemma measure_counts_witness :
  (exists t,
     fig1_data no_center no_center ALL = Ok t /\
     StronglySorted (fun a b => (snd b <= snd a)%nat) t /\
     (forall (i : nat) (view : list row),
        (ALL = ALL /\ loc no_center COMMUNITY = Ok i /\ view = rows no_center) \/
        (ALL <> ALL /\ loc no_center "Center" = Ok i /\ view = rows no_center) ->
        (forall r, In r view ->
           List.length (filter (fun line : value * nat =>
                                  key_eqb (cell r i) (fst line)) t) = 1%nat) /\
        (forall line, In line t ->
           (exists r, In r view /\ key_eqb (cell r i) (fst line) = true) /\
           snd line =
             List.length (filter (fun r => key_eqb (cell r i) (fst line)) view))))
  /\
  (exists t,
     fig1_data example_df example_madrid MADRID = Ok t /\
     StronglySorted (fun a b => (snd b <= snd a)%nat) t /\
     (forall (i : nat) (view : list row),
        (MADRID = ALL /\ loc example_df COMMUNITY = Ok i /\
         view = rows example_df) \/
        (MADRID <> ALL /\ loc example_df "Center" = Ok i /\
         view = rows example_madrid) ->
        (forall r, In r view ->
           List.length (filter (fun line : value * nat =>
                                  key_eqb (cell r i) (fst line)) t) = 1%nat) /\
        (forall line, In line t ->
           (exists r, In r view /\ key_eqb (cell r i) (fst line) = true) /\
           snd line =
             List.length (filter (fun r => key_eqb (cell r i) (fst line)) view)))).
Proof.
  assert (Hcom : ALL = ALL -> exists c, loc no_center COMMUNITY = Ok c)
    by (intros _; exists 0%nat; reflexivity).
  assert (Hcen : ALL <> ALL -> exists z, loc no_center "Center" = Ok z)
    by (intros H; exfalso; apply H; reflexivity).
  assert (Hcom' : MADRID = ALL -> exists c, loc example_df COMMUNITY = Ok c)
    by (intros _; exists 0%nat; reflexivity).
  assert (Hcen' : MADRID <> ALL -> exists z, loc example_df "Center" = Ok z)
    by (intros _; exists 1%nat; reflexivity).
  split.
  - exact (measure_counts_by_group parse_decimal (fs_of no_center) DATA_PATH
             no_center no_center new_session example_session
             eq_refl eq_refl eq_refl
             ALL no_center 1%nat eq_refl eq_refl Hcom Hcen).
  - exact (measure_counts_by_group parse_decimal example_fs DATA_PATH example_raw
             example_df new_session example_session eq_refl eq_refl eq_refl
             MADRID example_madrid 2%nat eq_refl eq_refl Hcom' Hcen').
Defined.

Lemma investment_summary_witness :
  exists inv tab,
    loc example_df "Investment" = Ok inv /\
    regional_investment_summary example_df = Ok tab /\
    (forall r, In r (rows example_df) ->
       List.length
         (filter (fun line => key_eqb (cell r 0) (summary_community line)) tab)
       = 1%nat) /\
    (forall line, In line tab ->
       exists (g : list row) (investments : list Q),
         g = filter (fun r => key_eqb (cell r 0) (summary_community line))
                    (rows example_df) /\
         g <> [] /\
         Forall2 (fun (r : row) (q : Q) => cell r inv = VNum q) g investments /\
         Measure_Count line = List.length g /\
         (0 < Measure_Count line)%nat /\
         Total_Investment line = sum_Q investments /\
         average_investment (Total_Investment line) (Measure_Count line)
           = Ok (Average_Investment_per_Measure line) /\
         ((0 < Measure_Count line)%nat ->
          Average_Investment_per_Measure line =
            Total_Investment line / inject_Z (Z.of_nat (Measure_Count line))) /\
         (Measure_Count line = 0%nat -> Average_Investment_per_Measure line = 0)) /\
    (forall total, average_investment total 0 = Ok 0).
Proof.
  exact (investment_summary_by_community parse_decimal example_fs DATA_PATH
           example_raw example_df new_session example_session
           eq_refl eq_refl eq_refl
           ALL example_df 0%nat 2%nat eq_refl eq_refl eq_refl).
Defined.

Lemma energy_saving_percent_witness :
  extra_fig1_data example_df ALL = Ok None
  /\ (exists a b,
        Energy_Saving_Percent example_madrid = Ok [VNum a; VNum b] /\
        a == 200 # 3 /\ b == 100 # 3)
  /\ Energy_Saving_Percent loss_df = Ok [VNum 0].
Proof.
  split; [|split].
  - apply (proj1 (energy_saving_percent_madrid parse_decimal example_fs DATA_PATH
                    example_raw example_df new_session example_session
                    eq_refl eq_refl eq_refl ALL example_df eq_refl)).
    discriminate.
  - destruct (proj2 (energy_saving_percent_madrid parse_decimal example_fs
                       DATA_PATH example_raw example_df new_session
                       example_session eq_refl eq_refl eq_refl
                       MADRID example_madrid eq_refl)
                    eq_refl 2%nat 1%nat eq_refl eq_refl)
      as [e [energies [pcts [pts [He [HF [_ [Hp [_ [_ HS]]]]]]]]]].
    cbv in He. injection He as <-.
    unfold example_madrid in HF. cbn [rows] in HF.
    inversion HF as [|r1 q1 rs1 qs1 H1 HF1]; subst.
    inversion HF1 as [|r2 q2 rs2 qs2 H2 HF2]; subst.
    inversion HF2; subst.
    cbv in H1, H2. injection H1 as <-. injection H2 as <-.
    assert (Hpos : 0 < sum_Q [500; 250]) by reflexivity.
    inversion HS as [|q1 p1 qs1 ps1 [E1 _] HS1]; subst.
    inversion HS1 as [|q2 p2 qs2 ps2 [E2 _] HS2]; subst.
    inversion HS2; subst.
    rewrite (E1 Hpos), (E2 Hpos) in Hp.
    do 2 eexists. split; [exact Hp|]. split; reflexivity.
  - destruct (proj2 (energy_saving_percent_madrid parse_decimal (fs_of loss_df)
                       DATA_PATH loss_df loss_df new_session
                       example_session eq_refl eq_refl eq_refl
                       MADRID loss_df eq_refl)
                    eq_refl 2%nat 1%nat eq_refl eq_refl)
      as [e [energies [pcts [pts [He [HF [_ [Hp [_ [_ HS]]]]]]]]]].
    cbv in He. injection He as <-.
    unfold loss_df in HF. cbn [rows] in HF.
    inversion HF as [|r1 q1 rs1 qs1 H1 HF1]; subst.
    inversion HF1; subst.
    cbv in H1. injection H1 as <-.
    assert (Hneg : sum_Q [-100] < 0) by reflexivity.
    inversion HS as [|q1 p1 qs1 ps1 [_ [_ E1]] HS1]; subst.
    inversion HS1; subst.
    rewrite (E1 Hneg) in Hp. exact Hp.
Defined.

(** C6 as first stated, with 0 for a total equal to 0 only, fails where
    the total is negative: the one record of the view has a share of 0,
    not [(energy_saved / total) * 100], which is 100. *)
Lemma negative_total_gives_zero_share :
  load_data parse_decimal (fs_of loss_df) DATA_PATH new_session
  = (Ok loss_df, example_session)
  /\ df_filtered loss_df MADRID = Ok loss_df
  /\ (exists total,
        total_energy_saved loss_df = Ok total /\
        total == -100 /\ ~ total == 0 /\
        -100 / total * 100 == 100)
  /\ Energy_Saving_Percent loss_df = Ok [VNum 0]
  /\ ~ 0 == 100.
Proof.
  split; [reflexivity|]. split; [reflexivity|]. split.
  - eexists. split; [reflexivity|]. split; [reflexivity|].
    split; [intros H; discriminate H | reflexivity].
  - split; [reflexivity | intros H; discriminate H].
Qed.


(** C3 on the example column: the text that is no number and the missing
    cell are 0.0, the text ["inf"] is an infinity. *)
Lemma numeric_cells_witness :
  List.length (Float64.load_column Float64.parse_number Float64.example_column)
  = List.length Float64.example_column
  /\ Forall2
       (fun (c : Float64.cell) (x : Float64.float64) =>
          x <> Float64.NaN /\
          (c = Float64.Num Float64.NaN -> x = Float64.zero) /\
          (forall t, c = Float64.Text t -> Float64.parse_number t = None ->
                     x = Float64.zero) /\
          (forall t, c = Float64.Text t ->
                     Float64.parse_number t = Some Float64.NaN ->
                     x = Float64.zero) /\
          (forall y, c = Float64.Num y -> y <> Float64.NaN -> x = y) /\
          (forall t y, c = Float64.Text t -> Float64.parse_number t = Some y ->
                       y <> Float64.NaN -> x = y) /\
          (Float64.isfinite x = false <->
           exists sign,
             c = Float64.Num (S754_infinity sign) \/
             exists t, c = Float64.Text t /\
                       Float64.parse_number t = Some (S754_infinity sign)))
       Float64.example_column
       (Float64.load_column Float64.parse_number Float64.example_column)
  /\ (forall x : Float64.float64,
        (Float64.add x Float64.zero = x /\ Float64.add Float64.zero x = x)
        \/ (x = S754_zero true /\
            Float64.add x Float64.zero = Float64.zero /\
            Float64.add Float64.zero x = Float64.zero)).
Proof.
  exact (numeric_cells_are_not_nan Float64.parse_number Float64.example_column).
Defined.

(** C3 as first stated, with every numeric cell a real number, fails on a
    cell that reads ["inf"]: it parses, it is not NaN, [fillna] leaves it,
    and the loaded cell is an infinity.  A sum over its column is infinite,
    and with an infinity of the other sign in the column it is NaN. *)
Lemma infinite_cell_is_no_real :
  Float64.load_column Float64.parse_number Float64.example_column
  = [Float64.of_Z 500; Float64.zero; Float64.zero; Float64.of_Z 250;
     Float64.inf]
  /\ Float64.isnan Float64.inf = false
  /\ Float64.isfinite Float64.inf = false
  /\ Float64.add (Float64.of_Z 500) Float64.inf = Float64.inf
  /\ Float64.load_column Float64.parse_number
       [Float64.Text "inf"; Float64.Text "-inf"]
     = [Float64.inf; S754_infinity true]
  /\ Float64.add Float64.inf (S754_infinity true) = Float64.NaN.
Proof. repeat split. Qed.

(** * Further properties of the script *)

(** ** Views of a loaded frame *)

Section LoadedViews.

Variable parse_float : string -> option Q.
Variable fs : filesystem.
Variables (path : string) (raw df : DataFrame) (s s' : session).

Hypothesis Hfile : fs path = Readable (Ok raw).
Hypothesis Hrect : rectangular raw = true.
Hypothesis Hload : load_data parse_float fs path s = (Ok df, s').

(** What every filtered view inherits from the load. *)
Lemma view_clean (selected : value) (dff : DataFrame) :
  df_filtered df selected = Ok dff ->
  rectangular dff = true /\ no_missing dff = true /\
  (forall label, loc dff label = loc df label) /\
  (forall col, In col NUMERIC_COLUMNS ->
     exists j, loc dff col = Ok j /\
               forall r, In r (rows dff) -> is_num (cell r j) = true).
Proof.
  intros Hsel.
  pose proof (load_data_rectangular _ _ _ _ _ _ _ Hfile Hrect Hload) as df_rect.
  pose proof (load_data_no_missing _ _ _ _ _ _ _ Hfile Hload) as df_full.
  destruct (df_filtered_rows _ _ _ Hsel) as [Hcols Hincl].
  split; [apply (df_filtered_rectangular _ _ _ Hsel df_rect)|].
  split; [apply (df_filtered_no_missing _ _ _ Hsel df_full)|].
  split; [intros label; apply loc_columns, Hcols|].
  intros col Hcol.
  destruct (load_data_numeric _ _ _ _ _ _ _ Hfile Hrect Hload col Hcol)
    as [j [Hj Hnum]].
  exists j. split; [rewrite (loc_columns df dff col Hcols); exact Hj|].
  intros r Hr. apply Hnum, Hincl, Hr.
Qed.

Lemma view_keys_present (selected : value) (dff : DataFrame)
      (label : string) (i : nat) :
  df_filtered df selected = Ok dff -> loc df label = Ok i ->
  forall r, In r (rows dff) -> isna (cell r i) = false.
Proof.
  intros Hsel Hi r Hr.
  destruct (view_clean selected dff Hsel) as [Hr' [Hf [Hloc _]]].
  apply (clean_cell dff label i r Hr' Hf); [rewrite Hloc; exact Hi | exact Hr].
Qed.

(** X2.  The bars of chart 1 add up to the number of records of the view (which
    is the whole frame when "All" is selected). *)
Theorem measure_counts_add_up (selected : value) (dff : DataFrame) (c z m : nat) :
  df_filtered df selected = Ok dff ->
  loc df COMMUNITY = Ok c ->
  loc df "Center" = Ok z ->
  loc df "Measure" = Ok m ->
  exists t,
    fig1_data df dff selected = Ok t /\
    sum_nat (map snd t) = List.length (rows dff).
Proof.
  intros Hsel Hc Hz Hm.
  destruct (view_clean selected dff Hsel) as [Hr [Hf [Hloc _]]].
  unfold fig1_data. destruct (value_eqb selected ALL) eqn:Hall.
  - apply value_eqb_ALL in Hall. subst selected.
    rewrite df_filtered_all in Hsel. injection Hsel as <-.
    unfold measures_per_community.
    rewrite (groupby_count_clean df COMMUNITY "Measure" c m Hr Hf Hc Hm).
    cbn [rbind]. eexists. split; [reflexivity|]. unfold sort_by_count_desc.
    rewrite (sum_nat_perm _ _
               (Permutation_map snd (stable_sort_perm _ (group_sizes c (rows df))))).
    apply group_sizes_total.
    apply (view_keys_present ALL df COMMUNITY c (df_filtered_all df) Hc).
  - unfold measures_per_center.
    pose proof (view_keys_present selected dff "Center" z Hsel Hz) as Hna.
    rewrite <- Hloc in Hz, Hm.
    rewrite (groupby_count_clean dff "Center" "Measure" z m Hr Hf Hz Hm).
    cbn [rbind]. eexists. split; [reflexivity|]. unfold sort_by_count_desc.
    rewrite (sum_nat_perm _ _
               (Permutation_map snd (stable_sort_perm _ (group_sizes z (rows dff))))).
    apply group_sizes_total, Hna.
Qed.

(** X3.  Chart 5 shows one bar per community of the view, in descending
    order of energy saved: every record of the view finds its community on
    exactly one bar, every bar is the bar of a community that has records
    in the view, and the height of a bar is the sum of the energy saved
    over the records of its community.  The bars are the rows of the energy
    table, rearranged. *)
Theorem energy_chart_sorted (selected : value) (dff : DataFrame) (c : nat) :
  df_filtered df selected = Ok dff ->
  loc df COMMUNITY = Ok c ->
  exists (e : nat) f5,
    loc df "Energy Saved" = Ok e /\
    energy_savings_community dff = Ok f5 /\
    Permutation (sort_by_amount_desc f5) f5 /\
    StronglySorted (fun a b => snd b <= snd a) (sort_by_amount_desc f5) /\
    (forall r, In r (rows dff) ->
       List.length (filter (fun bar : value * Q => key_eqb (cell r c) (fst bar))
                           (sort_by_amount_desc f5)) = 1%nat) /\
    (forall bar, In bar (sort_by_amount_desc f5) ->
       exists (g : list row) (energies : list Q),
         g = filter (fun r => key_eqb (cell r c) (fst bar)) (rows dff) /\
         g <> [] /\
         Forall2 (fun (r : row) (q : Q) => cell r e = VNum q) g energies /\
         snd bar = sum_Q energies).
Proof.
  intros Hsel Hc.
  destruct (view_clean selected dff Hsel) as [Hr [Hf [Hloc Hnum]]].
  pose proof (view_keys_present selected dff COMMUNITY c Hsel Hc) as Hna.
  rewrite <- Hloc in Hc.
  destruct (Hnum "Energy Saved") as [e [He Hen]]; [simpl; tauto|].
  unfold energy_savings_community.
  rewrite (groupby_sum_clean dff COMMUNITY "Energy Saved" c e Hc He Hen).
  exists e. eexists. split; [rewrite <- Hloc; exact He|].
  split; [reflexivity|]. split; [apply stable_sort_perm|].
  split; [apply sort_by_amount_desc_sorted|].
  match goal with |- context [sort_by_amount_desc (map ?f ?keys)] =>
    destruct (table_lines fst f c (rows dff) (sort_by_amount_desc (map f keys))
                (fun k => eq_refl) (stable_sort_perm _ _) Hna)
      as [Hone Hline]
  end.
  split; [exact Hone|]. intros bar Hin.
  destruct (Hline bar Hin) as [k [-> [r [Hrin Hrk]]]]. cbn [fst snd].
  fold (rows_of_key c k (rows dff)).
  set (g := rows_of_key c k (rows dff)).
  assert (Hg : In r g) by (apply filter_In; split; assumption).
  exists g, (numbers_of (map (fun r0 => cell r0 e) g)).
  split; [reflexivity|].
  split; [intros E; rewrite E in Hg; destruct Hg|].
  split; [|reflexivity].
  apply numeric_cells. intros r0 Hr0. apply filter_In in Hr0.
  apply Hen. tauto.
Qed.

(** X4.  The three community tables agree: each point of chart 7 has the
    investment total of the summary table's row for that community and the
    money total of chart 6's slice for it, community by community and in the
    same order. *)
Theorem community_tables_agree (selected : value) (dff : DataFrame) (c m : nat) :
  df_filtered df selected = Ok dff ->
  loc df COMMUNITY = Ok c ->
  loc df "Measure" = Ok m ->
  exists f7 tab f6,
    financial_summary dff = Ok f7 /\
    regional_investment_summary dff = Ok tab /\
    economic_savings_community dff = Ok f6 /\
    map (fun p : value * Q * Q => (fst (fst p), snd (fst p))) f7 =
      map (fun l => (summary_community l, Total_Investment l)) tab /\
    map (fun p : value * Q * Q => (fst (fst p), snd p)) f7 = f6.
Proof.
  intros Hsel Hc Hm.
  destruct (view_clean selected dff Hsel) as [Hr [Hf [Hloc Hnum]]].
  rewrite <- Hloc in Hc, Hm.
  destruct (Hnum "Investment") as [inv [Hinv Hin]]; [simpl; tauto|].
  destruct (Hnum "Money Saved") as [mo [Hmo Hmn]]; [simpl; tauto|].
  unfold economic_savings_community.
  rewrite (financial_summary_clean dff c inv mo Hc Hinv Hmo Hin Hmn),
    (regional_investment_summary_clean dff c inv m Hr Hf Hc Hinv Hm Hin),
    (groupby_sum_clean dff COMMUNITY "Money Saved" c mo Hc Hmo Hmn).
  do 3 eexists. repeat split; rewrite !map_map; reflexivity.
Qed.

End LoadedViews.

(** ** When the load succeeds, and what it leaves alone *)

Lemma loc_raises (df : DataFrame) (label : string) (e : exn) :
  loc df label = Raise e -> e = KeyError label \/ e = TypeError.
Proof.
  unfold loc. destruct (positions label (columns df) 0) as [|j [|k l]];
    intros H; try discriminate; injection H as <-; auto.
Qed.

Lemma positions_label (label : string) (cols : list string) (i j : nat) :
  In j (positions label cols i) -> nth_error cols (j - i) = Some label.
Proof.
  revert i. induction cols as [|c cs IH]; simpl; intros i H; [contradiction|].
  destruct (String.eqb c label) eqn:E.
  - destruct H as [<-|H].
    + rewrite Nat.sub_diag. simpl. apply String.eqb_eq in E. congruence.
    + pose proof (positions_bounds _ _ _ _ H) as Hb.
      apply IH in H. replace (j - i)%nat with (S (j - S i)) by lia. exact H.
  - pose proof (positions_bounds _ _ _ _ H) as Hb.
    apply IH in H. replace (j - i)%nat with (S (j - S i)) by lia. exact H.
Qed.

(** A position carries one label. *)
Lemma loc_label (df : DataFrame) (label : string) (j : nat) :
  loc df label = Ok j -> nth_error (columns df) j = Some label.
Proof.
  unfold loc. intros H.
  destruct (positions label (columns df) 0) as [|k [|k' l]] eqn:Hp;
    try discriminate.
  injection H as <-.
  rewrite <- (Nat.sub_0_r k). apply positions_label. rewrite Hp. left; reflexivity.
Qed.

Section ConvertFacts.

Variable parse_float : string -> option Q.

Lemma convert_columns_Ok (cols : list string) (df : DataFrame) :
  (forall col, In col cols -> exists j, loc df col = Ok j) ->
  exists d, convert_columns parse_float cols df = Ok d.
Proof.
  revert df. induction cols as [|c cs IH]; simpl; intros df H; [eauto|].
  destruct (H c (or_introl eq_refl)) as [j Hj].
  unfold convert_column. rewrite Hj. cbn [rbind].
  apply IH. intros col Hcol. destruct (H col (or_intror Hcol)) as [k Hk].
  exists k. rewrite <- Hk. apply loc_columns. reflexivity.
Qed.

Lemma convert_columns_Raise (cols : list string) (df : DataFrame) (col : string) :
  In col cols -> (forall j, loc df col <> Ok j) ->
  exists e, convert_columns parse_float cols df = Raise e /\
            (e = TypeError \/ exists c, In c cols /\ e = KeyError c).
Proof.
  revert df. induction cols as [|c cs IH]; simpl; intros df Hin Hno;
    [contradiction|].
  unfold convert_column. destruct (loc df c) as [j|e] eqn:Hc; cbn [rbind].
  - destruct Hin as [->|Hin]; [exfalso; apply (Hno j Hc)|].
    destruct (IH (map_column (to_numeric parse_float) j df) Hin) as [e [He Hk]].
    { intros k Hk. apply (Hno k). rewrite <- Hk. symmetry.
      apply loc_columns. reflexivity. }
    exists e. split; [exact He|].
    destruct Hk as [Hk|[c' [Hc' Hk]]]; [left; exact Hk | right; eauto].
  - exists e. split; [reflexivity|].
    destruct (loc_raises _ _ _ Hc) as [->| ->]; [right; eauto | left; reflexivity].
Qed.

Lemma convert_columns_other (cols : list string) (df d : DataFrame) :
  convert_columns parse_float cols df = Ok d ->
  Forall2 (fun r r' : row =>
             forall j, (forall col, In col cols -> loc df col <> Ok j) ->
                       cell r' j = cell r j)
          (rows df) (rows d).
Proof.
  revert df d. induction cols as [|c cs IH]; simpl; intros df d H.
  - injection H as <-. induction (rows df); constructor; auto.
  - apply rbind_Ok in H as [df1 [H1 H2]].
    unfold convert_column in H1. apply rbind_Ok in H1 as [i [Hi H1]].
    injection H1 as <-. apply IH in H2. simpl in H2.
    eapply Forall2_map_left_In; [|exact H2].
    intros r r' _ Hrr j Hj. cbv beta in Hrr. rewrite Hrr.
    + apply cell_set_nth_other. intros ->.
      apply (Hj c (or_introl eq_refl) Hi).
    + intros col Hcol Hk. apply (Hj col (or_intror Hcol)).
      rewrite <- Hk. symmetry. apply loc_columns. reflexivity.
Qed.

Variable fs : filesystem.

(** X5.  The load of a parsed file succeeds exactly when each of the four numeric
    labels names one column after the labels are stripped.  Otherwise the
    [KeyError] (or, for a repeated label, the [TypeError]) leaves
    [load_data]: it is not the recovered kind, so no empty frame is
    substituted and nothing is drawn. *)
Theorem load_data_needs_numeric_columns
        (path : string) (raw : DataFrame) (s : session) :
  fs path = Readable (Ok raw) ->
  ((forall col, In col NUMERIC_COLUMNS ->
      exists j, loc (with_columns (map strip (columns raw)) raw) col = Ok j) ->
   exists df,
     load_data parse_float fs path s =
       (Ok df, mkSession (page s) (reads s ++ [path]) (cache s)))
  /\ (forall col, In col NUMERIC_COLUMNS ->
      (forall j, loc (with_columns (map strip (columns raw)) raw) col <> Ok j) ->
      exists e,
        load_data parse_float fs path s =
          (Raise e, mkSession (page s) (reads s ++ [path]) (cache s)) /\
        (e = TypeError \/ exists c, In c NUMERIC_COLUMNS /\ e = KeyError c)).
Proof.
  intros Hfile.
  unfold load_data, try_except_FileNotFoundError, bind, read_csv, lift, ret.
  rewrite Hfile. split.
  - intros Hall. destruct (convert_columns_Ok NUMERIC_COLUMNS _ Hall) as [d Hd].
    rewrite Hd. eauto.
  - intros col Hcol Hno.
    destruct (convert_columns_Raise NUMERIC_COLUMNS _ col Hcol Hno)
      as [e [He Hk]].
    rewrite He. exists e. split; [|exact Hk].
    destruct Hk as [->|[c [_ ->]]]; reflexivity.
Qed.

Lemma load_data_other_cells
      (path : string) (raw df : DataFrame) (s s' : session) (label : string) (j : nat) :
  fs path = Readable (Ok raw) ->
  rectangular raw = true ->
  load_data parse_float fs path s = (Ok df, s') ->
  ~ In label NUMERIC_COLUMNS -> loc df label = Ok j ->
  Forall2 (fun r r' : row => cell r' j = fill (VNum 0) (cell r j))
          (rows raw) (rows df).
Proof.
  intros Hfile Hrect Hload Hnot Hj.
  destruct (load_data_readable _ _ _ _ _ _ _ Hfile Hload) as [d [Hc [-> _]]].
  pose proof (convert_columns_spec _ _ _ _ Hc) as [Hcols [HF _]].
  pose proof (convert_columns_other _ _ _ Hc) as HO.
  simpl in Hcols, HF, HO |- *.
  assert (Hj' : loc (with_columns (map strip (columns raw)) raw) label = Ok j).
  { rewrite <- Hj. symmetry. apply loc_columns. simpl. exact Hcols. }
  assert (Hlt : forall r, In r (rows raw) -> (j < List.length r)%nat).
  { intros r Hr. rewrite (rectangular_row raw r Hrect Hr).
    pose proof (loc_lt _ _ _ Hj') as H. simpl in H.
    rewrite length_map in H. exact H. }
  revert HF HO Hlt. generalize (rows d).
  induction (rows raw) as [|r t IH]; intros l HF HO Hlt;
    inversion HF as [|? r1 ? t1 [Hlen _] HFt]; subst;
    inversion HO as [|? ? ? ? Hr HOt]; subst; simpl; constructor.
  - rewrite cell_map by (rewrite Hlen; apply Hlt; left; reflexivity).
    rewrite Hr; [reflexivity|].
    intros col Hcol Hk. apply Hnot.
    pose proof (loc_label _ _ _ Hk) as E1.
    pose proof (loc_label _ _ _ Hj') as E2.
    rewrite E1 in E2. injection E2 as <-. exact Hcol.
  - apply IH; [exact HFt | exact HOt |].
    intros r0 Hr0. apply Hlt. right; exact Hr0.
Qed.


Lemma load_data_readable_Ok (path : string) (raw d : DataFrame) (s : session) :
  fs path = Readable (Ok raw) ->
  convert_columns parse_float NUMERIC_COLUMNS
    (with_columns (map strip (columns raw)) raw) = Ok d ->
  load_data parse_float fs path s =
  (Ok (fillna (VNum 0) d), mkSession (page s) (reads s ++ [path]) (cache s)).
Proof.
  intros Hfile Hc.
  unfold load_data, try_except_FileNotFoundError, bind, read_csv, lift, ret.
  rewrite Hfile, Hc. reflexivity.
Qed.

End ConvertFacts.

(** ** The options of the select box *)

Lemma value_leb_total (a b : value) :
  value_leb a b = true \/ value_leb b a = true.
Proof.
  destruct a as [p|x|], b as [q|y|]; simpl; auto.
  - destruct (Qlt_le_dec q p) as [H|H].
    + right. apply Qle_bool_iff, Qlt_le_weak, H.
    + left. apply Qle_bool_iff, H.
  - apply String.leb_total.
Qed.

Lemma key_eqb_is_str (a b : value) : key_eqb a b = true -> is_str a = is_str b.
Proof. destruct a, b; simpl; congruence. Qed.

(** A property of cells that holds of a series holds of its distinct keys,
    and the other way round, when equal keys share it. *)
Lemma existsb_unique (f : value -> bool) (s : list value) :
  (forall a b, key_eqb a b = true -> f a = f b) ->
  existsb f (unique s) = existsb f s.
Proof.
  intros Hf. destruct (existsb f s) eqn:E.
  - apply existsb_exists in E as [x [Hx Hfx]].
    destruct (filter_one _ _ (unique_key_matches x s Hx)) as [k [Hk Hxk]].
    apply existsb_exists. exists k. split; [exact Hk|].
    rewrite <- (Hf x k Hxk). exact Hfx.
  - destruct (existsb f (unique s)) eqn:E'; [|reflexivity].
    apply existsb_exists in E' as [x [Hx Hfx]].
    assert (H : existsb f s = true)
      by (apply existsb_exists; exists x; split; [apply unique_incl, Hx | exact Hfx]).
    congruence.
Qed.

Lemma community_list_text (df : DataFrame) (c : nat) :
  loc df COMMUNITY = Ok c ->
  (forall r, In r (rows df) -> is_str (cell r c) = true) ->
  community_list df =
  Ok (ALL :: stable_sort value_leb (unique (map (fun r => cell r c) (rows df)))).
Proof.
  intros Hc Htext. unfold community_list, getitem. rewrite Hc. cbn [rbind].
  unfold sorted.
  rewrite (existsb_unique (fun v => negb (is_str v))).
  - assert (E : existsb (fun v => negb (is_str v))
                        (map (fun r => cell r c) (rows df)) = false).
    { destruct (existsb _ _) eqn:E; [|reflexivity].
      apply existsb_exists in E as [v [Hv Hn]].
      apply in_map_iff in Hv as [r [<- Hr]]. rewrite (Htext r Hr) in Hn.
      discriminate. }
    rewrite E, andb_false_r. reflexivity.
  - intros a b Hab. rewrite (key_eqb_is_str a b Hab). reflexivity.
Qed.

(** X7.  When every community cell is a text, the select box offers "All" first
    and then the communities of the frame in ascending order, each exactly
    once and nothing else. *)
Theorem community_list_offers_each_community (df : DataFrame) (c : nat) :
  loc df COMMUNITY = Ok c ->
  (forall r, In r (rows df) -> is_str (cell r c) = true) ->
  exists names,
    community_list df = Ok (ALL :: names) /\
    Sorted (fun a b => value_leb a b = true) names /\
    (forall r, In r (rows df) -> key_matches (cell r c) names = 1%nat) /\
    (forall n, In n names -> exists r, In r (rows df) /\ cell r c = n).
Proof.
  intros Hc Htext. rewrite (community_list_text df c Hc Htext).
  eexists. split; [reflexivity|]. split; [|split].
  - apply stable_sort_Sorted, value_leb_total.
  - intros r Hr. unfold key_matches.
    rewrite (filter_length_perm _ _ _ (stable_sort_perm value_leb _)).
    apply unique_key_matches, in_map_iff. eauto.
  - intros n Hn.
    apply (Permutation_in _ (stable_sort_perm value_leb _)) in Hn.
    apply unique_incl, in_map_iff in Hn as [r [E Hr]]. eauto.
Qed.

Lemma community_list_mixed_raises (df : DataFrame) (c : nat) (r1 r2 : row) :
  loc df COMMUNITY = Ok c ->
  In r1 (rows df) -> is_str (cell r1 c) = true ->
  In r2 (rows df) -> is_str (cell r2 c) = false ->
  community_list df = Raise TypeError.
Proof.
  intros Hc H1 Hs1 H2 Hs2. unfold community_list, getitem. rewrite Hc.
  cbn [rbind]. unfold sorted.
  rewrite (existsb_unique is_str), (existsb_unique (fun v => negb (is_str v)));
    try (intros a b Hab; rewrite (key_eqb_is_str a b Hab); reflexivity).
  assert (E1 : existsb is_str (map (fun r => cell r c) (rows df)) = true).
  { apply existsb_exists. exists (cell r1 c). split; [|exact Hs1].
    apply in_map_iff. eauto. }
  assert (E2 : existsb (fun v => negb (is_str v))
                       (map (fun r => cell r c) (rows df)) = true).
  { apply existsb_exists. exists (cell r2 c). split; [|rewrite Hs2; reflexivity].
    apply in_map_iff. eauto. }
  rewrite E1, E2. reflexivity.
Qed.

(** ** Shares, and the view of one community *)




Section LoadedShares.

Variable parse_float : string -> option Q.
Variable fs : filesystem.
Variables (path : string) (raw df : DataFrame) (s s' : session).

Hypothesis Hfile : fs path = Readable (Ok raw).
Hypothesis Hrect : rectangular raw = true.
Hypothesis Hload : load_data parse_float fs path s = (Ok df, s').

(** X9.  Every option of the select box other than "All" selects a view that is
    not empty and holds records of that community only. *)
Theorem options_select_records (options : list value) (selected : value) (c : nat) :
  loc df COMMUNITY = Ok c ->
  community_list df = Ok options ->
  In selected options -> selected <> ALL ->
  exists dff,
    df_filtered df selected = Ok dff /\
    rows dff <> [] /\
    (forall r, In r (rows dff) ->
               In r (rows df) /\ value_eqb (cell r c) selected = true).
Proof.
  intros Hc Hopts Hin Hne.
  pose proof (load_data_rectangular _ _ _ _ _ _ _ Hfile Hrect Hload) as df_rect.
  pose proof (load_data_no_missing _ _ _ _ _ _ _ Hfile Hload) as df_full.
  unfold community_list, getitem in Hopts. rewrite Hc in Hopts.
  cbn [rbind] in Hopts. apply rbind_Ok in Hopts as [names [Hnames Hopts]].
  injection Hopts as <-. unfold sorted in Hnames.
  destruct (existsb is_str _ && existsb _ _); [discriminate|].
  injection Hnames as <-.
  destruct Hin as [E|Hin]; [symmetry in E; contradiction|].
  apply (Permutation_in _ (stable_sort_perm value_leb _)) in Hin.
  apply unique_incl, in_map_iff in Hin as [r0 [E0 Hr0]].
  unfold df_filtered. destruct (value_eqb selected ALL) eqn:Hall;
    [apply value_eqb_ALL in Hall; contradiction|].
  rewrite Hc. cbn [rbind]. eexists. split; [reflexivity|]. cbn [rows with_rows].
  split.
  - assert (H : In r0 (filter (fun r => value_eqb (cell r c) selected) (rows df))).
    { apply filter_In. split; [exact Hr0|]. rewrite E0.
      apply value_eqb_refl. rewrite <- E0.
      apply (clean_cell df COMMUNITY c r0 df_rect df_full Hc Hr0). }
    intros E. rewrite E in H. contradiction.
  - intros r Hr. apply filter_In in Hr. exact Hr.
Qed.


End LoadedShares.

(** ** The script as a whole *)

Lemma script_panel (parse_float : string -> option Q) (fs : filesystem)
      (selectbox : list value -> value) :
  script parse_float fs selectbox =
  (df <- cached_load_data parse_float fs DATA_PATH ;; panel selectbox df)%app.
Proof. reflexivity. Qed.

Lemma Forall2_In_l {A B : Type} (R : A -> B -> Prop) (l : list A) (l' : list B) :
  Forall2 R l l' -> forall x, In x l -> exists y, In y l' /\ R x y.
Proof.
  induction 1 as [|x y l l' Hxy _ IH]; simpl; intros z Hz; [contradiction|].
  destruct Hz as [<-|Hz]; [eauto|].
  destruct (IH z Hz) as [y' [Hin HR]]. eauto.
Qed.

Section ScriptFacts.

Variable parse_float : string -> option Q.
Variable fs : filesystem.
Variable selectbox : list value -> value.

(** A first call for a file that parses and loads: the frame is returned,
    one read is logged, nothing is drawn and the frame is stored. *)
Lemma cached_load_data_first (raw df : DataFrame) (s s0 s0' : session) :
  fs DATA_PATH = Readable (Ok raw) ->
  lookup_cache DATA_PATH (cache s) = None ->
  load_data parse_float fs DATA_PATH s0 = (Ok df, s0') ->
  cached_load_data parse_float fs DATA_PATH s =
  (Ok df, mkSession (page s) (reads s ++ [DATA_PATH])
                    ((DATA_PATH, (df, [])) :: cache s)).
Proof.
  intros Hfile Hmiss Hload.
  destruct (load_data_readable _ _ _ _ _ _ _ Hfile Hload) as [d [Hc [-> _]]].
  unfold cached_load_data, st_cache_data. rewrite Hmiss.
  unfold load_data, try_except_FileNotFoundError, bind, read_csv, lift, ret.
  rewrite Hfile, Hc. cbn. rewrite app_nil_r. reflexivity.
Qed.

Lemma not_empty (df : DataFrame) (label : string) (c : nat) :
  loc df label = Ok c -> rows df <> [] -> empty df = false.
Proof.
  intros Hc Hrows. unfold empty. apply loc_lt in Hc.
  destruct (columns df); [simpl in Hc; lia|].
  destruct (rows df); [contradiction | reflexivity].
Qed.

(** X11.  A file with its header and no record: the load succeeds, the frame is
    empty, and the script draws the warning alone, without the error
    message of the missing file. *)
Theorem script_file_without_records (raw : DataFrame) (s : session) :
  fs DATA_PATH = Readable (Ok raw) ->
  rows raw = [] ->
  (forall col, In col NUMERIC_COLUMNS ->
     exists j, loc (with_columns (map strip (columns raw)) raw) col = Ok j) ->
  lookup_cache DATA_PATH (cache s) = None ->
  exists c,
    script parse_float fs selectbox s =
      (Ok tt,
       mkSession (page s ++ [st_warning LOAD_WARNING])
                 (reads s ++ [DATA_PATH]) c).
Proof.
  intros Hfile Hrows Hcols Hmiss.
  destruct (convert_columns_Ok parse_float NUMERIC_COLUMNS _ Hcols) as [d Hd].
  pose proof (load_data_readable_Ok parse_float fs DATA_PATH raw d s Hfile Hd)
    as Hload.
  assert (Hd0 : rows d = []).
  { pose proof (convert_columns_spec _ _ _ _ Hd) as [_ [HF _]].
    simpl in HF. rewrite Hrows in HF. inversion HF. reflexivity. }
  rewrite script_panel. unfold bind.
  rewrite (cached_load_data_first raw _ s s _ Hfile Hmiss Hload).
  assert (Hempty : empty (fillna (VNum 0) d) = true).
  { unfold empty, fillna, with_rows. cbn [rows columns]. rewrite Hd0.
    apply orb_true_r. }
  unfold panel. rewrite Hempty. cbn [negb]. unfold draw. cbn. eauto.
Qed.

(** X12.  The empty frame substituted for a missing file is cached like any other
    result: once a run has found the file missing, a later run shows the
    same error and warning again without reading anything, whatever the
    file system has become (the file may exist by then). *)
Theorem missing_file_result_is_cached
        (fs' : filesystem) (selectbox' : list value -> value) (s : session) :
  fs DATA_PATH = Missing ->
  lookup_cache DATA_PATH (cache s) = None ->
  exists s1,
    script parse_float fs selectbox s = (Ok tt, s1) /\
    script parse_float fs' selectbox' s1 =
      (Ok tt,
       mkSession (page s1 ++ [st_error (not_found_message DATA_PATH);
                              st_warning LOAD_WARNING])
                 (reads s1) (cache s1)).
Proof.
  intros Hfile Hmiss. rewrite !script_panel. unfold bind.
  unfold cached_load_data at 1. unfold st_cache_data.
  rewrite Hmiss, (load_data_missing parse_float fs DATA_PATH _ Hfile).
  cbn [page reads cache app]. unfold panel at 1. cbn. unfold draw. cbn.
  eexists. split; [reflexivity|].
  unfold cached_load_data, st_cache_data. cbn [cache].
  rewrite lookup_cache_head. cbn. unfold draw. cbn.
  rewrite <- !app_assoc. reflexivity.
Qed.

(** X13.  A record without community next to a record with a named one: the gap
    loads as 0, the options of the select box cannot be sorted, and the
    script stops with [TypeError] before it draws anything. *)
Theorem missing_community_stops_script
        (raw df : DataFrame) (s s0 s0' : session) (c : nat)
        (r1 r2 : row) (name : string) :
  fs DATA_PATH = Readable (Ok raw) ->
  rectangular raw = true ->
  lookup_cache DATA_PATH (cache s) = None ->
  load_data parse_float fs DATA_PATH s0 = (Ok df, s0') ->
  loc df COMMUNITY = Ok c ->
  In r1 (rows raw) -> cell r1 c = VStr name ->
  In r2 (rows raw) -> cell r2 c = VNaN ->
  community_list df = Raise TypeError /\
  script parse_float fs selectbox s =
    (Raise TypeError,
     mkSession (page s) (reads s ++ [DATA_PATH])
               ((DATA_PATH, (df, [])) :: cache s)).
Proof.
  intros Hfile Hrect Hmiss Hload Hc H1 E1 H2 E2.
  assert (Hnot : ~ In COMMUNITY NUMERIC_COLUMNS).
  { simpl. intros [H|[H|[H|[H|[]]]]]; discriminate. }
  pose proof (load_data_other_cells parse_float fs DATA_PATH raw df s0 s0'
                COMMUNITY c Hfile Hrect Hload Hnot Hc) as HF.
  destruct (Forall2_In_l _ _ _ HF r1 H1) as [r1' [H1' E1']].
  destruct (Forall2_In_l _ _ _ HF r2 H2) as [r2' [H2' E2']].
  rewrite E1 in E1'. rewrite E2 in E2'. cbn in E1', E2'.
  assert (Hlist : community_list df = Raise TypeError).
  { apply (community_list_mixed_raises df c r1' r2' Hc H1'); [|exact H2'|].
    - rewrite E1'. reflexivity.
    - rewrite E2'. reflexivity. }
  split; [exact Hlist|].
  rewrite script_panel. unfold bind.
  rewrite (cached_load_data_first raw df s s0 s0' Hfile Hmiss Hload).
  unfold panel. rewrite (not_empty df COMMUNITY c Hc).
  - cbn. unfold bind, lift. rewrite Hlist. reflexivity.
  - intros E. rewrite E in H1'. contradiction.
Qed.

End ScriptFacts.

Lemma roi_defined (ti tm : Q) : exists r, roi ti tm = Ok r.
Proof.
  unfold roi, truediv. destruct (Qlt_bool 0 ti) eqn:Hlt; [|eauto].
  apply Qlt_bool_iff in Hlt. rewrite (Qeq_bool_pos ti Hlt). cbn. eauto.
Qed.

(** A sum of cells that are not negative is not negative. *)
Lemma sum_cells_nonneg (j : nat) (rs : list row) :
  (forall r x, In r rs -> cell r j = VNum x -> 0 <= x) ->
  0 <= sum_Q (numbers_of (map (fun r => cell r j) rs)).
Proof.
  induction rs as [|r t IH]; intros H; [apply Qle_refl|].
  cbn [map numbers_of]. destruct (cell r j) as [x| |] eqn:E.
  - cbn [sum_Q fold_right]. fold (sum_Q (numbers_of (map (fun r => cell r j) t))).
    rewrite <- (Qplus_0_l 0).
    apply Qplus_le_compat; [apply (H r x); [left; reflexivity | exact E]|].
    apply IH. intros r0 x0 Hin. apply H. right. exact Hin.
  - apply IH. intros r0 x0 Hin. apply H. right. exact Hin.
  - apply IH. intros r0 x0 Hin. apply H. right. exact Hin.
Qed.

(** The scatter chart is drawn when no size is negative, and refused when
    one is. *)
Lemma px_scatter_sized_Ok (points : list (value * Q * Q)) :
  (forall p, In p points -> 0 <= snd (fst p)) ->
  px_scatter_sized points = Ok (fig7 points).
Proof.
  intros H. unfold px_scatter_sized.
  destruct (existsb _ points) eqn:E; [|reflexivity].
  apply existsb_exists in E. destruct E as [p [Hin Hneg]].
  apply Qlt_bool_iff in Hneg. apply H in Hin.
  exfalso. exact (Qlt_not_le _ _ Hneg Hin).
Qed.

Lemma px_scatter_sized_Raise (points : list (value * Q * Q)) (p : value * Q * Q) :
  In p points -> snd (fst p) < 0 ->
  px_scatter_sized points = Raise ValueError.
Proof.
  intros Hin Hneg. unfold px_scatter_sized.
  assert (E : existsb (fun p : value * Q * Q => Qlt_bool (snd (fst p)) 0) points
              = true).
  { apply existsb_exists. exists p. split; [exact Hin|].
    apply Qlt_bool_iff. exact Hneg. }
  rewrite E. reflexivity.
Qed.

Section ScriptRuns.

Variable parse_float : string -> option Q.
Variable fs : filesystem.
Variable selectbox : list value -> value.
Variables (raw df : DataFrame) (s s0 s0' : session).

Hypothesis Hfile : fs DATA_PATH = Readable (Ok raw).
Hypothesis Hrect : rectangular raw = true.
Hypothesis Hmiss : lookup_cache DATA_PATH (cache s) = None.
Hypothesis Hload : load_data parse_float fs DATA_PATH s0 = (Ok df, s0').

(** The key performance indicators of any view of the loaded frame are
    defined: the three sums and the ratio never raise. *)
Lemma kpis_defined (selected : value) (dff : DataFrame) (st : session) :
  df_filtered df selected = Ok dff ->
  exists ti tm te r,
    total_investment dff = Ok ti /\
    total_money_saved dff = Ok tm /\
    total_energy_saved dff = Ok te /\
    roi ti tm = Ok r /\
    kpis dff st =
      (Ok tt,
       mkSession (page st ++ [st_metric "Total Investment" ti;
                              st_metric "Total Money Saved" tm;
                              st_metric "Total Energy Saved" te;
                              st_metric "Return on Investment (ROI)" r])
                 (reads st) (cache st)).
Proof.
  intros Hsel.
  destruct (view_clean _ _ _ _ _ _ _ Hfile Hrect Hload selected dff Hsel)
    as [_ [_ [_ Hnum]]].
  destruct (Hnum "Investment") as [inv [Hinv Hin]]; [simpl; tauto|].
  destruct (Hnum "Money Saved") as [mo [Hmo Hmn]]; [simpl; tauto|].
  destruct (Hnum "Energy Saved") as [e [He Hen]]; [simpl; tauto|].
  pose proof (column_total_clean dff "Investment" inv Hinv Hin) as Hti.
  pose proof (column_total_clean dff "Money Saved" mo Hmo Hmn) as Htm.
  pose proof (column_total_clean dff "Energy Saved" e He Hen) as Hte.
  destruct (roi_defined (sum_Q (numbers_of (map (fun r => cell r inv) (rows dff))))
                        (sum_Q (numbers_of (map (fun r => cell r mo) (rows dff)))))
    as [r Hr].
  do 4 eexists. split; [exact Hti|]. split; [exact Htm|]. split; [exact Hte|].
  split; [exact Hr|].
  unfold kpis, bind, lift, total_investment, total_money_saved, total_energy_saved.
  rewrite Hti, Htm, Hte, Hr. unfold draw. cbn [page reads cache].
  rewrite <- !app_assoc. reflexivity.
Qed.

(** The run of the script on a loaded frame with records, up to the
    scatter chart and, when that chart is accepted, to the end. *)
Lemma script_run (options : list value) (c m : nat) :
  rows df <> [] ->
  loc df COMMUNITY = Ok c ->
  loc df "Measure" = Ok m ->
  community_list df = Ok options ->
  (selectbox options <> ALL -> exists z, loc df "Center" = Ok z) ->
  exists dff ti tm te r f1 f5 tab f6 f7 extra,
    df_filtered df (selectbox options) = Ok dff /\
    total_investment dff = Ok ti /\
    total_money_saved dff = Ok tm /\
    total_energy_saved dff = Ok te /\
    roi ti tm = Ok r /\
    fig1_data df dff (selectbox options) = Ok f1 /\
    energy_savings_community dff = Ok f5 /\
    regional_investment_summary dff = Ok tab /\
    economic_savings_community dff = Ok f6 /\
    financial_summary dff = Ok f7 /\
    extra_fig1_data dff (selectbox options) = Ok extra /\
    (extra <> None <-> selectbox options = MADRID) /\
    script parse_float fs selectbox s =
      match px_scatter_sized f7 with
      | Ok scatter =>
          (Ok tt,
           mkSession
             (page s ++
              [st_selectbox "Select a Community" options;
               st_metric "Total Investment" ti;
               st_metric "Total Money Saved" tm;
               st_metric "Total Energy Saved" te;
               st_metric "Return on Investment (ROI)" r;
               st_plotly_chart (fig1 f1);
               st_plotly_chart (fig5 (sort_by_amount_desc f5));
               st_dataframe tab;
               st_plotly_chart (fig6_donut f6);
               st_plotly_chart scatter] ++
              match extra with
              | Some pts => [st_plotly_chart (extra_fig1 pts)]
              | None => []
              end)
             (reads s ++ [DATA_PATH])
             ((DATA_PATH, (df, [])) :: cache s))
      | Raise e =>
          (Raise e,
           mkSession
             (page s ++
              [st_selectbox "Select a Community" options;
               st_metric "Total Investment" ti;
               st_metric "Total Money Saved" tm;
               st_metric "Total Energy Saved" te;
               st_metric "Return on Investment (ROI)" r;
               st_plotly_chart (fig1 f1);
               st_plotly_chart (fig5 (sort_by_amount_desc f5));
               st_dataframe tab;
               st_plotly_chart (fig6_donut f6)])
             (reads s ++ [DATA_PATH])
             ((DATA_PATH, (df, [])) :: cache s))
      end.
Proof.
  intros Hrows Hc Hm Hopts Hcenter.
  set (sel := selectbox options) in *.
  pose proof (load_data_rectangular _ _ _ _ _ _ _ Hfile Hrect Hload) as df_rect.
  pose proof (load_data_no_missing _ _ _ _ _ _ _ Hfile Hload) as df_full.
  assert (Hsel : exists dff, df_filtered df sel = Ok dff).
  { unfold df_filtered. destruct (value_eqb sel ALL); [eauto|].
    rewrite Hc. cbn. eauto. }
  destruct Hsel as [dff Hsel].
  destruct (view_clean _ _ _ _ _ _ _ Hfile Hrect Hload sel dff Hsel)
    as [Hr [Hf [Hloc Hnum]]].
  destruct (Hnum "Investment") as [inv [Hinv Hin]]; [simpl; tauto|].
  destruct (Hnum "Money Saved") as [mo [Hmo Hmn]]; [simpl; tauto|].
  destruct (Hnum "Energy Saved") as [e [He Hen]]; [simpl; tauto|].
  assert (Hc' : loc dff COMMUNITY = Ok c) by (rewrite Hloc; exact Hc).
  assert (Hm' : loc dff "Measure" = Ok m) by (rewrite Hloc; exact Hm).
  (* chart 1 *)
  assert (Hf1 : exists f1, fig1_data df dff sel = Ok f1).
  { unfold fig1_data. destruct (value_eqb sel ALL) eqn:Hall.
    - unfold measures_per_community.
      rewrite (groupby_count_clean df COMMUNITY "Measure" c m df_rect df_full Hc Hm).
      cbn. eauto.
    - destruct Hcenter as [z Hz].
      { intros E. apply value_eqb_ALL in E. congruence. }
      unfold measures_per_center. rewrite <- Hloc in Hz.
      rewrite (groupby_count_clean dff "Center" "Measure" z m Hr Hf Hz Hm').
      cbn. eauto. }
  destruct Hf1 as [f1 Hf1].
  pose proof (groupby_sum_clean dff COMMUNITY "Energy Saved" c e Hc' He Hen) as Hf5.
  pose proof (regional_investment_summary_clean dff c inv m Hr Hf Hc' Hinv Hm' Hin)
    as Htab.
  pose proof (groupby_sum_clean dff COMMUNITY "Money Saved" c mo Hc' Hmo Hmn) as Hf6.
  pose proof (financial_summary_clean dff c inv mo Hc' Hinv Hmo Hin Hmn) as Hf7.
  (* the Madrid chart *)
  assert (Hextra : exists extra,
             extra_fig1_data dff sel = Ok extra /\
             (extra <> None <-> sel = MADRID)).
  { unfold extra_fig1_data. destruct (value_eqb sel MADRID) eqn:Hmad.
    - apply value_eqb_VStr in Hmad.
      destruct Hcenter as [z Hz]; [rewrite Hmad; discriminate|].
      rewrite <- Hloc in Hz.
      rewrite (Energy_Saving_Percent_clean dff e He Hen). cbn [rbind].
      unfold getitem. rewrite Hinv, Hm', Hz. cbn [rbind].
      eexists. split; [reflexivity|]. split; [intros _; exact Hmad | discriminate].
    - exists None. split; [reflexivity|]. split.
      + intros H. exfalso. apply H. reflexivity.
      + intros E. rewrite E in Hmad. cbv in Hmad. discriminate Hmad. }
  destruct Hextra as [extra [Hextra Hiff]].
  destruct (kpis_defined sel dff
              (mkSession (page s ++ [st_selectbox "Select a Community" options])
                         (reads s ++ [DATA_PATH])
                         ((DATA_PATH, (df, [])) :: cache s)) Hsel)
    as [ti [tm [te [r [Hti [Htm [Hte [Hroi Hk]]]]]]]].
  exists dff, ti, tm, te, r, f1. do 5 eexists.
  split; [exact Hsel|]. split; [exact Hti|]. split; [exact Htm|].
  split; [exact Hte|]. split; [exact Hroi|]. split; [exact Hf1|].
  split; [exact Hf5|]. split; [exact Htab|]. split; [exact Hf6|].
  split; [exact Hf7|]. split; [exact Hextra|]. split; [exact Hiff|].
  rewrite script_panel. unfold bind at 1.
  rewrite (cached_load_data_first parse_float fs raw df s s0 s0' Hfile Hmiss Hload).
  unfold panel. rewrite (not_empty df COMMUNITY c Hc Hrows). cbn [negb].
  unfold bind at 1. unfold lift at 1. rewrite Hopts.
  unfold bind at 1. unfold draw at 1. cbn [page reads cache].
  unfold bind at 1. unfold lift at 1. fold sel. rewrite Hsel.
  unfold bind at 1. rewrite Hk.
  unfold charts, bind, lift, draw.
  unfold energy_savings_community, economic_savings_community in *.
  rewrite Hf1, Hf5, Htab, Hf6, Hf7, Hextra. cbn [page reads cache].
  destruct (px_scatter_sized _) as [scatter|err]; cbn [page reads cache].
  - destruct extra as [pts|]; cbn [page reads cache]; unfold ret;
      rewrite <- !app_assoc; reflexivity.
  - rewrite <- !app_assoc. reflexivity.
Qed.

(** The total investment of a community of the view, as chart 7 has it. *)
Lemma financial_summary_investments (selected : value) (dff : DataFrame)
      (c inv : nat) (f7 : list (value * Q * Q)) :
  df_filtered df selected = Ok dff ->
  loc df COMMUNITY = Ok c ->
  loc df "Investment" = Ok inv ->
  financial_summary dff = Ok f7 ->
  map (fun p : value * Q * Q => (fst (fst p), snd (fst p))) f7 =
  map (fun k => (k, sum_Q (numbers_of (map (fun r => cell r inv)
                                           (rows_of_key c k (rows dff))))))
      (group_keys (map (fun r => cell r c) (rows dff))).
Proof.
  intros Hsel Hc Hinv Hf7.
  destruct (view_clean _ _ _ _ _ _ _ Hfile Hrect Hload selected dff Hsel)
    as [_ [_ [Hloc Hnum]]].
  destruct (Hnum "Investment") as [inv' [Hinv' Hin]]; [simpl; tauto|].
  destruct (Hnum "Money Saved") as [mo [Hmo Hmn]]; [simpl; tauto|].
  assert (inv' = inv) by (rewrite Hloc, Hinv in Hinv'; congruence). subst inv'.
  rewrite <- Hloc in Hc.
  rewrite (financial_summary_clean dff c inv mo Hc Hinv' Hmo Hin Hmn) in Hf7.
  injection Hf7 as <-. rewrite map_map. reflexivity.
Qed.

(** X14.  With the file loaded, records in it, the community and measure columns
    present, the options of the select box sortable and no negative
    investment in the file, the script runs to its end for any choice of
    the user: it draws the select box, the four metrics, the five charts and
    tables in their order, and the Madrid chart when Madrid is chosen; no
    step raises.  The center column is needed only when the choice is not
    "All".  The investments must not be negative because the scatter chart
    takes the total investment of a community as the size of its marker. *)
Theorem script_runs_to_the_end (options : list value) (c m inv : nat) :
  rows df <> [] ->
  loc df COMMUNITY = Ok c ->
  loc df "Measure" = Ok m ->
  loc df "Investment" = Ok inv ->
  (forall r x, In r (rows df) -> cell r inv = VNum x -> 0 <= x) ->
  community_list df = Ok options ->
  (selectbox options <> ALL -> exists z, loc df "Center" = Ok z) ->
  exists dff ti tm te r f1 f5 tab f6 f7 extra,
    df_filtered df (selectbox options) = Ok dff /\
    total_investment dff = Ok ti /\
    total_money_saved dff = Ok tm /\
    total_energy_saved dff = Ok te /\
    roi ti tm = Ok r /\
    fig1_data df dff (selectbox options) = Ok f1 /\
    energy_savings_community dff = Ok f5 /\
    regional_investment_summary dff = Ok tab /\
    economic_savings_community dff = Ok f6 /\
    financial_summary dff = Ok f7 /\
    extra_fig1_data dff (selectbox options) = Ok extra /\
    (extra <> None <-> selectbox options = MADRID) /\
    script parse_float fs selectbox s =
      (Ok tt,
       mkSession
         (page s ++
          [st_selectbox "Select a Community" options;
           st_metric "Total Investment" ti;
           st_metric "Total Money Saved" tm;
           st_metric "Total Energy Saved" te;
           st_metric "Return on Investment (ROI)" r;
           st_plotly_chart (fig1 f1);
           st_plotly_chart (fig5 (sort_by_amount_desc f5));
           st_dataframe tab;
           st_plotly_chart (fig6_donut f6);
           st_plotly_chart (fig7 f7)] ++
          match extra with
          | Some pts => [st_plotly_chart (extra_fig1 pts)]
          | None => []
          end)
         (reads s ++ [DATA_PATH])
         ((DATA_PATH, (df, [])) :: cache s)).
Proof.
  intros Hrows Hc Hm Hinv Hpos Hopts Hcenter.
  destruct (script_run options c m Hrows Hc Hm Hopts Hcenter)
    as [dff [ti [tm [te [r [f1 [f5 [tab [f6 [f7 [extra H]]]]]]]]]]].
  destruct H as [Hsel [Hti [Htm [Hte [Hroi [Hf1 [Hf5 [Htab [Hf6 [Hf7 [Hex [Hiff Hrun]]]]]]]]]]]].
  exists dff, ti, tm, te, r, f1, f5, tab, f6, f7, extra.
  repeat (split; [assumption|]).
  rewrite Hrun, px_scatter_sized_Ok; [reflexivity|].
  intros p Hp.
  pose proof (financial_summary_investments _ dff c inv f7 Hsel Hc Hinv Hf7) as E.
  apply (in_map (fun p : value * Q * Q => (fst (fst p), snd (fst p)))) in Hp.
  rewrite E in Hp. apply in_map_iff in Hp. destruct Hp as [k [Hk _]].
  injection Hk as _ <-.
  apply sum_cells_nonneg. intros r0 x Hr0 Hx.
  apply filter_In in Hr0. destruct Hr0 as [Hr0 _].
  apply (Hpos r0 x); [|exact Hx].
  apply (proj2 (df_filtered_rows _ _ _ Hsel)). exact Hr0.
Qed.

(** X19.  When the investments of some community of the view add up to less
    than nothing, the scatter chart is refused: the script stops with
    [ValueError] after the select box, the four metrics, the two bar
    charts, the summary table and the donut; the scatter chart and the
    Madrid chart are not drawn. *)
Theorem negative_investment_stops_script
        (options : list value) (c m inv : nat) (dff : DataFrame) (k : value) :
  rows df <> [] ->
  loc df COMMUNITY = Ok c ->
  loc df "Measure" = Ok m ->
  loc df "Investment" = Ok inv ->
  community_list df = Ok options ->
  (selectbox options <> ALL -> exists z, loc df "Center" = Ok z) ->
  df_filtered df (selectbox options) = Ok dff ->
  (exists r, In r (rows dff) /\ cell r c = k) ->
  sum_Q (numbers_of
           (map (fun r => cell r inv)
                (filter (fun r => key_eqb (cell r c) k) (rows dff)))) < 0 ->
  exists ti tm te r f1 f5 tab f6,
    script parse_float fs selectbox s =
      (Raise ValueError,
       mkSession
         (page s ++
          [st_selectbox "Select a Community" options;
           st_metric "Total Investment" ti;
           st_metric "Total Money Saved" tm;
           st_metric "Total Energy Saved" te;
           st_metric "Return on Investment (ROI)" r;
           st_plotly_chart (fig1 f1);
           st_plotly_chart (fig5 (sort_by_amount_desc f5));
           st_dataframe tab;
           st_plotly_chart (fig6_donut f6)])
         (reads s ++ [DATA_PATH])
         ((DATA_PATH, (df, [])) :: cache s)).
Proof.
  intros Hrows Hc Hm Hinv Hopts Hcenter Hsel0 [r0 [Hr0 Hk0]] Hneg.
  destruct (script_run options c m Hrows Hc Hm Hopts Hcenter)
    as [dff' [ti [tm [te [r [f1 [f5 [tab [f6 [f7 [extra H]]]]]]]]]]].
  destruct H as [Hsel [_ [_ [_ [_ [_ [_ [_ [_ [Hf7 [_ [_ Hrun]]]]]]]]]]]].
  assert (dff' = dff) by congruence. subst dff'.
  exists ti, tm, te, r, f1, f5, tab, f6.
  pose proof (financial_summary_investments _ dff c inv f7 Hsel Hc Hinv Hf7) as E.
  pose proof (view_keys_present _ _ _ _ _ _ _ Hfile Hrect Hload
                _ dff COMMUNITY c Hsel Hc) as Hna.
  (* the key of the group of [r0] *)
  pose proof (row_in_one_group c (rows dff) r0 Hr0 (Hna r0 Hr0)) as Hone.
  unfold key_matches in Hone.
  destruct (filter_one _ _ Hone) as [k' [Hk' Hkk']].
  rewrite Hk0 in Hkk'.
  assert (Hsym : key_eqb k' k = true) by (rewrite key_eqb_sym; exact Hkk').
  assert (Hrows_k : rows_of_key c k' (rows dff)
                    = filter (fun r => key_eqb (cell r c) k) (rows dff)).
  { unfold rows_of_key. apply filter_ext. intros r1.
    destruct (key_eqb (cell r1 c) k) eqn:E1.
    - apply (key_eqb_trans _ _ _ E1 Hkk').
    - destruct (key_eqb (cell r1 c) k') eqn:E2; [|reflexivity].
      rewrite (key_eqb_trans _ _ _ E2 Hsym) in E1. discriminate E1. }
  assert (Hin : In (k', sum_Q (numbers_of
                                 (map (fun r => cell r inv)
                                      (rows_of_key c k' (rows dff)))))
                   (map (fun p : value * Q * Q => (fst (fst p), snd (fst p))) f7)).
  { rewrite E. apply in_map_iff. exists k'. split; [reflexivity | exact Hk']. }
  apply in_map_iff in Hin. destruct Hin as [p [Hp Hpin]].
  injection Hp as _ Hp2.
  rewrite Hrun, (px_scatter_sized_Raise f7 p Hpin); [reflexivity|].
  rewrite Hp2, Hrows_k. exact Hneg.
Qed.

(** X15.  Without a center column the script still shows the metrics of a chosen
    community, then stops at the first chart with [KeyError]: the select box
    and the four metrics are on the page and nothing else. *)
Theorem script_without_center (options : list value) (c : nat) :
  rows df <> [] ->
  loc df COMMUNITY = Ok c ->
  community_list df = Ok options ->
  selectbox options <> ALL ->
  loc df "Center" = Raise (KeyError "Center") ->
  exists ti tm te r,
    script parse_float fs selectbox s =
      (Raise (KeyError "Center"),
       mkSession
         (page s ++
          [st_selectbox "Select a Community" options;
           st_metric "Total Investment" ti;
           st_metric "Total Money Saved" tm;
           st_metric "Total Energy Saved" te;
           st_metric "Return on Investment (ROI)" r])
         (reads s ++ [DATA_PATH])
         ((DATA_PATH, (df, [])) :: cache s)).
Proof.
  intros Hrows Hc Hopts Hne Hz.
  set (sel := selectbox options) in *.
  assert (Hsel : exists dff, df_filtered df sel = Ok dff).
  { unfold df_filtered. destruct (value_eqb sel ALL); [eauto|].
    rewrite Hc. cbn. eauto. }
  destruct Hsel as [dff Hsel].
  destruct (view_clean _ _ _ _ _ _ _ Hfile Hrect Hload sel dff Hsel)
    as [_ [_ [Hloc _]]].
  destruct (kpis_defined sel dff
              (mkSession (page s ++ [st_selectbox "Select a Community" options])
                         (reads s ++ [DATA_PATH])
                         ((DATA_PATH, (df, [])) :: cache s)) Hsel)
    as [ti [tm [te [r [_ [_ [_ [_ Hk]]]]]]]].
  exists ti, tm, te, r.
  assert (Hf1 : fig1_data df dff sel = Raise (KeyError "Center")).
  { unfold fig1_data. destruct (value_eqb sel ALL) eqn:Hall.
    - apply value_eqb_ALL in Hall. contradiction.
    - unfold measures_per_center, groupby_count, groupby.
      rewrite Hloc, Hz. reflexivity. }
  rewrite script_panel. unfold bind at 1.
  rewrite (cached_load_data_first parse_float fs raw df s s0 s0' Hfile Hmiss Hload).
  unfold panel. rewrite (not_empty df COMMUNITY c Hc Hrows). cbn [negb].
  unfold bind at 1. unfold lift at 1. rewrite Hopts.
  unfold bind at 1. unfold draw at 1. cbn [page reads cache].
  unfold bind at 1. unfold lift at 1. fold sel. rewrite Hsel.
  unfold bind at 1. rewrite Hk.
  unfold charts, bind, lift. rewrite Hf1. cbn [page reads cache].
  rewrite <- !app_assoc. reflexivity.
Qed.

End ScriptRuns.

(** ** Column labels after the load *)

Section StripByFacts.

Variable sp1 : ascii -> bool.
Variable sp2 : ascii -> ascii -> bool.
Variable sp3 : ascii -> ascii -> ascii -> bool.

Abbreviation lstrip' := (lstrip_by sp1 sp2 sp3).
Abbreviation blank' := (starts_blank_by sp1 sp2 sp3).

(** What is left by [lstrip_by] does not begin with a blank, and what was
    removed is made of blanks only. *)
Lemma lstrip_by_spec (n : nat) (l : list ascii) :
  (List.length l <= n)%nat ->
  blank' (lstrip' l) = false /\
  exists pre, l = pre ++ lstrip' l /\ lstrip' pre = [].
Proof.
  revert l. induction n as [|n IH]; intros l Hlen.
  - destruct l; [|simpl in Hlen; lia]. split; [reflexivity|].
    exists []. split; reflexivity.
  - destruct l as [|a t]; [split; [reflexivity | exists []; split; reflexivity]|].
    cbn [lstrip_by]. destruct (sp1 a) eqn:E1.
    + destruct (IH t) as [Hb [pre [Hp Hpre]]]; [simpl in Hlen; lia|].
      split; [exact Hb|]. exists (a :: pre). split.
      * simpl. f_equal. exact Hp.
      * cbn [lstrip_by]. rewrite E1. exact Hpre.
    + destruct t as [|b u].
      * split; [cbn; rewrite E1; reflexivity|]. exists []. split; reflexivity.
      * destruct (sp2 a b) eqn:E2.
        -- destruct (IH u) as [Hb [pre [Hp Hpre]]]; [simpl in Hlen; lia|].
           split; [exact Hb|]. exists (a :: b :: pre). split.
           ++ simpl. do 2 f_equal. exact Hp.
           ++ cbn [lstrip_by]. rewrite E1, E2. exact Hpre.
        -- destruct u as [|c v].
           ++ split; [cbn; rewrite E1, E2; reflexivity|].
              exists []. split; reflexivity.
           ++ destruct (sp3 a b c) eqn:E3.
              ** destruct (IH v) as [Hb [pre [Hp Hpre]]]; [simpl in Hlen; lia|].
                 split; [exact Hb|]. exists (a :: b :: c :: pre). split.
                 --- simpl. do 3 f_equal. exact Hp.
                 --- cbn [lstrip_by]. rewrite E1, E2, E3. exact Hpre.
              ** split; [cbn; rewrite E1, E2, E3; reflexivity|].
                 exists []. split; reflexivity.
Qed.

(** A list that begins with a blank still does when it is extended. *)
Lemma starts_blank_by_app (p x : list ascii) :
  blank' p = true -> blank' (p ++ x) = true.
Proof.
  destruct p as [|a [|b [|c v]]]; cbn; try discriminate.
  - intros H. rewrite orb_false_r in H. rewrite H. reflexivity.
  - destruct (sp1 a); [reflexivity|]. cbn. intros H.
    rewrite orb_false_r in H. rewrite H. reflexivity.
  - auto.
Qed.

End StripByFacts.

Lemma string_of_list_ascii_app (l1 l2 : list ascii) :
  string_of_list_ascii (l1 ++ l2) =
  (string_of_list_ascii l1 ++ string_of_list_ascii l2)%string.
Proof.
  induction l1 as [|a t IH]; simpl; [reflexivity|]. rewrite IH. reflexivity.
Qed.

(** [strip] removes a run of white space at each end and leaves a label that
    neither begins nor ends with white space. *)
Lemma strip_spec (label : string) :
  exists pre post,
    label = (pre ++ strip label ++ post)%string /\
    lstrip pre = EmptyString /\
    rstrip post = EmptyString /\
    starts_blank (strip label) = false /\
    ends_blank (strip label) = false.
Proof.
  unfold strip, lstrip, rstrip, starts_blank, ends_blank.
  rewrite !list_ascii_of_string_of_list_ascii.
  set (bytes := list_ascii_of_string label).
  destruct (lstrip_by_spec is_space is_space2 is_space3 _ bytes (Nat.le_refl _))
    as [Hb [pre [Hp Hpre]]].
  fold (lstrip_bytes bytes) in Hb, Hp. fold (lstrip_bytes pre) in Hpre.
  set (u := lstrip_bytes bytes) in *.
  destruct (lstrip_by_spec is_space (fun a b => is_space2 b a)
              (fun a b c => is_space3 c b a) _ (rev u) (Nat.le_refl _))
    as [Hr [post [Hq Hpost]]].
  assert (Hu : u = rstrip_bytes u ++ rev post).
  { unfold rstrip_bytes. rewrite <- rev_app_distr, <- Hq, rev_involutive.
    reflexivity. }
  exists (string_of_list_ascii pre), (string_of_list_ascii (rev post)).
  rewrite !list_ascii_of_string_of_list_ascii.
  split; [|split; [|split; [|split]]].
  - rewrite <- !string_of_list_ascii_app, <- Hu, <- Hp.
    unfold bytes. symmetry. apply string_of_list_ascii_of_string.
  - rewrite Hpre. reflexivity.
  - unfold rstrip_bytes. rewrite rev_involutive, Hpost. reflexivity.
  - destruct (starts_blank_by is_space is_space2 is_space3 (rstrip_bytes u))
      eqn:E; [|reflexivity].
    apply (starts_blank_by_app _ _ _ _ (rev post)) in E.
    rewrite <- Hu in E. congruence.
  - unfold rstrip_bytes. rewrite rev_involutive. exact Hr.
Qed.

(** X16.  The labels of a loaded frame are the labels of the file with the
    white space at both ends removed, in their order: each file label is
    its loaded label between two runs of white space, and no loaded label
    begins or ends with a white space character (of one or of several
    bytes, as U+00A0). *)
Theorem loaded_labels_are_stripped
        (parse_float : string -> option Q) (fs : filesystem)
        (path : string) (raw df : DataFrame) (s s' : session) :
  fs path = Readable (Ok raw) ->
  load_data parse_float fs path s = (Ok df, s') ->
  Forall2
    (fun label loaded : string =>
       exists pre post,
         label = (pre ++ loaded ++ post)%string /\
         lstrip pre = EmptyString /\
         rstrip post = EmptyString /\
         starts_blank loaded = false /\
         ends_blank loaded = false)
    (columns raw) (columns df).
Proof.
  intros Hfile Hload.
  destruct (load_data_rows _ _ _ _ _ _ _ Hfile Hload) as [Hcols _].
  rewrite Hcols. apply Forall2_map_right_In. intros label _. apply strip_spec.
Qed.

(** ** A file that may not be read, run after run *)

(** X17.  An unreadable file is not remembered: the run stops with
    [PermissionError], draws nothing and stores nothing, so the next run
    reads the path again; if the file has become readable and loads by
    then, that next run gets its frame. *)
Theorem unreadable_file_is_retried
        (parse_float : string -> option Q) (fs fs' : filesystem)
        (selectbox : list value -> value)
        (raw df : DataFrame) (s s0 s0' : session) :
  fs DATA_PATH = Unreadable ->
  lookup_cache DATA_PATH (cache s) = None ->
  fs' DATA_PATH = Readable (Ok raw) ->
  load_data parse_float fs' DATA_PATH s0 = (Ok df, s0') ->
  exists s1,
    script parse_float fs selectbox s = (Raise PermissionError, s1) /\
    page s1 = page s /\
    cache s1 = cache s /\
    reads s1 = reads s ++ [DATA_PATH] /\
    cached_load_data parse_float fs' DATA_PATH s1 =
      (Ok df, mkSession (page s1) (reads s1 ++ [DATA_PATH])
                        ((DATA_PATH, (df, [])) :: cache s1)).
Proof.
  intros Hfile Hmiss Hfile' Hload.
  exists (mkSession (page s) (reads s ++ [DATA_PATH]) (cache s)).
  split; [|split; [reflexivity|split; [reflexivity|split; [reflexivity|]]]].
  - rewrite script_panel. unfold bind, cached_load_data, st_cache_data.
    rewrite Hmiss, (load_data_unreadable parse_float fs DATA_PATH _ Hfile).
    cbn [page reads cache]. rewrite app_nil_r. reflexivity.
  - apply (cached_load_data_first parse_float fs' raw df _ s0 s0' Hfile');
      [exact Hmiss | exact Hload].
Qed.

(** ** The counts of the summary table against the whole view *)

Section LoadedSummary.

Variable parse_float : string -> option Q.
Variable fs : filesystem.
Variables (path : string) (raw df : DataFrame) (s s' : session).

Hypothesis Hfile : fs path = Readable (Ok raw).
Hypothesis Hrect : rectangular raw = true.
Hypothesis Hload : load_data parse_float fs path s = (Ok df, s').

(** X18.  Over the rows of the summary table, the counts add up to the number
    of records of the view: every record is counted once. *)
Theorem summary_counts_add_up (selected : value) (dff : DataFrame) (c m : nat) :
  df_filtered df selected = Ok dff ->
  loc df COMMUNITY = Ok c ->
  loc df "Measure" = Ok m ->
  exists tab,
    regional_investment_summary dff = Ok tab /\
    sum_nat (map Measure_Count tab) = List.length (rows dff).
Proof.
  intros Hsel Hc Hm.
  destruct (view_clean _ _ _ _ _ _ _ Hfile Hrect Hload selected dff Hsel)
    as [Hr [Hf [Hloc Hnum]]].
  pose proof (view_keys_present _ _ _ _ _ _ _ Hfile Hrect Hload
                selected dff COMMUNITY c Hsel Hc) as Hna.
  rewrite <- Hloc in Hc, Hm.
  destruct (Hnum "Investment") as [inv [Hinv Hin]]; [simpl; tauto|].
  rewrite (regional_investment_summary_clean dff c inv m Hr Hf Hc Hinv Hm Hin).
  eexists. split; [reflexivity|].
  rewrite map_map. cbn [Measure_Count].
  rewrite <- (group_sizes_total c (rows dff) Hna). unfold group_sizes.
  rewrite map_map. reflexivity.
Qed.

End LoadedSummary.

(** * Instances of the further properties *)

Lemma measure_counts_add_up_witness :
  exists t,
    fig1_data example_df example_madrid MADRID = Ok t /\
    sum_nat (map snd t) = List.length (rows example_madrid).
Proof.
  exact (measure_counts_add_up parse_decimal example_fs DATA_PATH
           example_raw example_df new_session example_session
           eq_refl eq_refl eq_refl MADRID example_madrid 0%nat 1%nat 2%nat
           eq_refl eq_refl eq_refl eq_refl).
Defined.

Lemma energy_chart_sorted_witness :
  exists (e : nat) f5,
    loc example_df "Energy Saved" = Ok e /\
    energy_savings_community example_df = Ok f5 /\
    Permutation (sort_by_amount_desc f5) f5 /\
    StronglySorted (fun a b => snd b <= snd a) (sort_by_amount_desc f5) /\
    (forall r, In r (rows example_df) ->
       List.length (filter (fun bar : value * Q => key_eqb (cell r 0) (fst bar))
                           (sort_by_amount_desc f5)) = 1%nat) /\
    (forall bar, In bar (sort_by_amount_desc f5) ->
       exists (g : list row) (energies : list Q),
         g = filter (fun r => key_eqb (cell r 0) (fst bar)) (rows example_df) /\
         g <> [] /\
         Forall2 (fun (r : row) (q : Q) => cell r e = VNum q) g energies /\
         snd bar = sum_Q energies).
Proof.
  exact (energy_chart_sorted parse_decimal example_fs DATA_PATH
           example_raw example_df new_session example_session
           eq_refl eq_refl eq_refl ALL example_df 0%nat eq_refl eq_refl).
Defined.

Lemma community_tables_agree_witness :
  exists f7 tab f6,
    financial_summary example_df = Ok f7 /\
    regional_investment_summary example_df = Ok tab /\
    economic_savings_community example_df = Ok f6 /\
    map (fun p : value * Q * Q => (fst (fst p), snd (fst p))) f7 =
      map (fun l => (summary_community l, Total_Investment l)) tab /\
    map (fun p : value * Q * Q => (fst (fst p), snd p)) f7 = f6.
Proof.
  exact (community_tables_agree parse_decimal example_fs DATA_PATH
           example_raw example_df new_session example_session
           eq_refl eq_refl eq_refl ALL example_df 0%nat 2%nat
           eq_refl eq_refl eq_refl).
Defined.

Lemma load_data_needs_numeric_columns_witness :
  (exists df,
      load_data parse_decimal example_fs DATA_PATH new_session =
        (Ok df, mkSession [] [DATA_PATH] []))
  /\ (exists e,
        load_data parse_decimal (fs_of no_numeric) DATA_PATH new_session =
          (Raise e, mkSession [] [DATA_PATH] []) /\
        (e = TypeError \/ exists c, In c NUMERIC_COLUMNS /\ e = KeyError c)).
Proof.
  split.
  - apply (proj1 (load_data_needs_numeric_columns parse_decimal example_fs
                    DATA_PATH example_raw new_session eq_refl)).
    intros col [<-|[<-|[<-|[<-|[]]]]]; eexists; reflexivity.
  - apply (proj2 (load_data_needs_numeric_columns parse_decimal (fs_of no_numeric)
                    DATA_PATH no_numeric new_session eq_refl) "Investment").
    + do 2 right. left. reflexivity.
    + intros j. discriminate.
Defined.


Lemma community_list_witness :
  exists names,
    community_list example_df = Ok (ALL :: names) /\
    Sorted (fun a b => value_leb a b = true) names /\
    (forall r, In r (rows example_df) -> key_matches (cell r 0) names = 1%nat) /\
    (forall n, In n names -> exists r, In r (rows example_df) /\ cell r 0 = n).
Proof.
  apply (community_list_offers_each_community example_df 0%nat eq_refl).
  intros r [<-|[<-|[<-|[]]]]; reflexivity.
Defined.

Lemma options_select_records_witness :
  exists dff,
    df_filtered example_df MADRID = Ok dff /\
    rows dff <> [] /\
    (forall r, In r (rows dff) ->
               In r (rows example_df) /\ value_eqb (cell r 0) MADRID = true).
Proof.
  apply (options_select_records parse_decimal example_fs DATA_PATH
           example_raw example_df new_session example_session
           eq_refl eq_refl eq_refl
           [ALL; VStr "Cataluña"; MADRID] MADRID 0%nat eq_refl eq_refl).
  - do 2 right. left. reflexivity.
  - discriminate.
Defined.


Lemma script_file_without_records_witness :
  exists c,
    script parse_decimal (fs_of header_only) (fun _ => ALL) new_session =
      (Ok tt, mkSession ([] ++ [st_warning LOAD_WARNING]) ([] ++ [DATA_PATH]) c).
Proof.
  apply (script_file_without_records parse_decimal (fs_of header_only)
           (fun _ => ALL) header_only new_session eq_refl eq_refl);
    [|reflexivity].
  intros col [<-|[<-|[<-|[<-|[]]]]]; eexists; reflexivity.
Defined.

Lemma missing_file_result_is_cached_witness :
  exists s1,
    script parse_decimal empty_fs (fun _ => ALL) new_session = (Ok tt, s1) /\
    script parse_decimal example_fs (fun _ => MADRID) s1 =
      (Ok tt,
       mkSession (page s1 ++ [st_error (not_found_message DATA_PATH);
                              st_warning LOAD_WARNING])
                 (reads s1) (cache s1)).
Proof.
  exact (missing_file_result_is_cached parse_decimal empty_fs (fun _ => ALL)
           example_fs (fun _ => MADRID) new_session eq_refl eq_refl).
Defined.

Lemma missing_community_witness :
  community_list gap_df = Raise TypeError /\
  script parse_decimal (fs_of gap_raw) (fun _ => ALL) new_session =
    (Raise TypeError,
     mkSession [] ([] ++ [DATA_PATH]) [(DATA_PATH, (gap_df, []))]).
Proof.
  apply (missing_community_stops_script parse_decimal (fs_of gap_raw)
           (fun _ => ALL) gap_raw gap_df new_session new_session example_session
           0%nat
           [VStr "Madrid"; VStr "Centro A"; VStr "LED"; VNum 500; VNum 200;
            VNum 1000; VNum 5]
           [VNaN; VStr "Centro B"; VStr "HVAC"; VNum 250; VNum 100;
            VNum 500; VNum 5]
           "Madrid");
    try reflexivity.
  - left. reflexivity.
  - right. left. reflexivity.
Defined.

Lemma script_runs_to_the_end_witness :
  fst (script parse_decimal example_fs (fun _ => MADRID) new_session) = Ok tt
  /\ List.length
       (page (snd (script parse_decimal example_fs (fun _ => MADRID) new_session)))
     = 11%nat.
Proof.
  assert (Hrows : rows example_df <> []) by discriminate.
  assert (Hcenter : MADRID <> ALL -> exists z, loc example_df "Center" = Ok z)
    by (intros _; exists 1%nat; reflexivity).
  assert (Hpos : forall r x, In r (rows example_df) -> cell r 5 = VNum x -> 0 <= x).
  { intros r x [<-|[<-|[<-|[]]]] Hx; cbv in Hx; injection Hx as <-;
      unfold Qle; simpl; lia. }
  destruct (script_runs_to_the_end parse_decimal example_fs (fun _ => MADRID)
              example_raw example_df new_session new_session example_session
              eq_refl eq_refl eq_refl eq_refl
              [ALL; VStr "Cataluña"; MADRID] 0%nat 2%nat 5%nat
              Hrows eq_refl eq_refl eq_refl Hpos eq_refl Hcenter)
    as [dff [ti [tm [te [r [f1 [f5 [tab [f6 [f7 [extra H]]]]]]]]]]].
  destruct H as [_ [_ [_ [_ [_ [_ [_ [_ [_ [_ [_ [Hiff Hrun]]]]]]]]]]]].
  rewrite Hrun. cbn [fst snd page]. split; [reflexivity|].
  destruct extra as [pts|]; [reflexivity|].
  exfalso. destruct Hiff as [_ Hm]. apply (Hm eq_refl). reflexivity.
Defined.

Lemma negative_investment_witness :
  fst (script parse_decimal (fs_of refund_df) (fun _ => ALL) new_session)
  = Raise ValueError
  /\ List.length
       (page (snd (script parse_decimal (fs_of refund_df) (fun _ => ALL)
                          new_session)))
     = 9%nat.
Proof.
  assert (Hrows : rows refund_df <> []) by discriminate.
  assert (Hcenter : ALL <> ALL -> exists z, loc refund_df "Center" = Ok z)
    by (intros _; exists 1%nat; reflexivity).
  assert (Hex : exists r, In r (rows refund_df) /\ cell r 0 = MADRID).
  { eexists. split; [left; reflexivity | reflexivity]. }
  assert (Hneg : sum_Q (numbers_of
                          (map (fun r => cell r 5)
                               (filter (fun r => key_eqb (cell r 0) MADRID)
                                       (rows refund_df)))) < 0)
    by reflexivity.
  destruct (negative_investment_stops_script parse_decimal (fs_of refund_df)
              (fun _ => ALL) refund_df refund_df
              new_session new_session example_session
              eq_refl eq_refl eq_refl eq_refl
              [ALL; MADRID] 0%nat 2%nat 5%nat refund_df MADRID
              Hrows eq_refl eq_refl eq_refl eq_refl Hcenter eq_refl Hex Hneg)
    as [ti [tm [te [r [f1 [f5 [tab [f6 H]]]]]]]].
  rewrite H. split; reflexivity.
Defined.

Lemma script_without_center_witness :
  fst (script parse_decimal (fs_of no_center) (fun _ => MADRID) new_session)
  = Raise (KeyError "Center").
Proof.
  assert (Hrows : rows no_center <> []) by discriminate.
  assert (Hne : MADRID <> ALL) by discriminate.
  destruct (script_without_center parse_decimal (fs_of no_center)
              (fun _ => MADRID) no_center no_center
              new_session new_session example_session
              eq_refl eq_refl eq_refl eq_refl
              [ALL; VStr "Cataluña"; MADRID] 0%nat
              Hrows eq_refl eq_refl Hne eq_refl)
    as [ti [tm [te [r H]]]].
  rewrite H. reflexivity.
Defined.

Lemma loaded_labels_witness :
  Forall2
    (fun label loaded : string =>
       exists pre post,
         label = (pre ++ loaded ++ post)%string /\
         lstrip pre = EmptyString /\
         rstrip post = EmptyString /\
         starts_blank loaded = false /\
         ends_blank loaded = false)
    (columns padded_raw) HEADER.
Proof.
  exact (loaded_labels_are_stripped parse_decimal (fs_of padded_raw) DATA_PATH
           padded_raw padded_df new_session example_session eq_refl eq_refl).
Defined.

Lemma unreadable_file_is_retried_witness :
  exists s1,
    script parse_decimal locked_fs (fun _ => ALL) new_session
      = (Raise PermissionError, s1) /\
    page s1 = page new_session /\
    cache s1 = cache new_session /\
    reads s1 = reads new_session ++ [DATA_PATH] /\
    cached_load_data parse_decimal example_fs DATA_PATH s1 =
      (Ok example_df,
       mkSession (page s1) (reads s1 ++ [DATA_PATH])
                 ((DATA_PATH, (example_df, [])) :: cache s1)).
Proof.
  exact (unreadable_file_is_retried parse_decimal locked_fs example_fs
           (fun _ => ALL) example_raw example_df
           new_session new_session example_session
           eq_refl eq_refl eq_refl eq_refl).
Defined.

Lemma summary_counts_add_up_witness :
  exists tab,
    regional_investment_summary example_df = Ok tab /\
    sum_nat (map Measure_Count tab) = List.length (rows example_df).
Proof.
  exact (summary_counts_add_up parse_decimal example_fs DATA_PATH
           example_raw example_df new_session example_session
           eq_refl eq_refl eq_refl ALL example_df 0%nat 2%nat
           eq_refl eq_refl eq_refl).
Defined.
